(** * Churn prediction pipeline: date windowing and feature assembly

    A shallow embedding of the date helpers of [src/utils.py], of the
    scenario preparers of [src/data_preprocessing] and of the two feature
    loaders of [src/modeling], with the properties of the specification
    stated and settled against them. *)

From Stdlib Require Import ZArith List Bool String Lia QArith.
Import ListNotations.
Open Scope Z_scope.

(** ** Exceptions and results *)

(** The Python exceptions the embedded code can raise. *)
Inductive exn : Type :=
| TypeError
| ValueError
| OverflowError
| KeyError
| IllegalMonthError.

Inductive result (A : Type) : Type :=
| Ok (a : A)
| Raise (e : exn).
Arguments Ok {A} a.
Arguments Raise {A} e.

Definition rbind {A B : Type} (r : result A) (f : A -> result B) : result B :=
  match r with
  | Ok a => f a
  | Raise e => Raise e
  end.

Definition rmap {A B : Type} (f : A -> B) (r : result A) : result B :=
  match r with
  | Ok a => Ok (f a)
  | Raise e => Raise e
  end.

Declare Scope result_scope.
Delimit Scope result_scope with result.
Notation "x <- c ;; k" := (rbind c (fun x => k))
  (at level 61, c at next level, right associativity) : result_scope.

(** ** Calendar dates ([datetime.date], [calendar], [dateutil.relativedelta]) *)

Module Calendar.

Local Open Scope result_scope.

(** A [datetime.date]: year, month, day. *)
Record date : Type := mkdate { year : Z; month : Z; day : Z }.

Definition MINYEAR : Z := 1.
Definition MAXYEAR : Z := 9999.

(** [calendar.isleap] *)
Definition isleap (y : Z) : bool :=
  (y mod 4 =? 0) && (negb (y mod 100 =? 0) || (y mod 400 =? 0)).

(** [calendar.mdays] *)
Definition mdays (m : Z) : Z :=
  match m with
  | 1 => 31 | 2 => 28 | 3 => 31 | 4 => 30 | 5 => 31 | 6 => 30
  | 7 => 31 | 8 => 31 | 9 => 30 | 10 => 31 | 11 => 30 | 12 => 31
  | _ => 0
  end.

(** Second component of [calendar.monthrange(year, month)]: the number of
    days of the month; an illegal month raises. *)
Definition monthrange (y m : Z) : result Z :=
  if (1 <=? m) && (m <=? 12)
  then Ok (mdays m + (if (m =? 2) && isleap y then 1 else 0))
  else Raise IllegalMonthError.

(** Number of days of a month known to be legal. *)
Definition days_in_month (y m : Z) : Z :=
  mdays m + (if (m =? 2) && isleap y then 1 else 0).

(** The constructor check of [datetime.date(year, month, day)]. *)
Definition valid_date (d : date) : bool :=
  (MINYEAR <=? year d) && (year d <=? MAXYEAR) &&
  (1 <=? month d) && (month d <=? 12) &&
  (1 <=? day d) && (day d <=? days_in_month (year d) (month d)).

Definition date_new (y m d : Z) : result date :=
  if valid_date (mkdate y m d) then Ok (mkdate y m d) else Raise ValueError.

(** [d.replace(day=n)] *)
Definition replace_day (d : date) (n : Z) : result date :=
  date_new (year d) (month d) n.

(** Comparison of dates, as Python compares them: by (year, month, day). *)
Definition date_ltb (a b : date) : bool :=
  (year a <? year b) ||
  ((year a =? year b) &&
   ((month a <? month b) || ((month a =? month b) && (day a <? day b)))).

Definition date_eqb (a b : date) : bool :=
  (year a =? year b) && (month a =? month b) && (day a =? day b).

Definition date_leb (a b : date) : bool := date_ltb a b || date_eqb a b.

(** [dt + relativedelta(months=k)] for [k] within -12..12, following
    [relativedelta.__radd__]: the month is shifted, the year carried once,
    and the day clamped to the length of the month reached. *)
Definition add_months (dt : date) (k : Z) : result date :=
  let '(y, m) :=
    if k =? 0 then (year dt, month dt)
    else
      let m := month dt + k in
      if 12 <? m then (year dt + 1, m - 12)
      else if m <? 1 then (year dt - 1, m + 12)
      else (year dt, m) in
  ndays <- monthrange y m ;;
  date_new y m (Z.min ndays (day dt)).

(** [dt - relativedelta(months=k)]: the delta is negated, then added. *)
Definition sub_months (dt : date) (k : Z) : result date := add_months dt (- k).

(** [dt + relativedelta(days=1)]: the following calendar day; stepping past
    the last representable date overflows. *)
Definition add_one_day (dt : date) : result date :=
  if day dt <? days_in_month (year dt) (month dt)
  then Ok (mkdate (year dt) (month dt) (day dt + 1))
  else if month dt <? 12
  then Ok (mkdate (year dt) (month dt + 1) 1)
  else if year dt <? MAXYEAR
  then Ok (mkdate (year dt + 1) 1 1)
  else Raise OverflowError.

(** Months elapsed since year 0, the quantity a month offset shifts. *)
Definition month_index (d : date) : Z := 12 * year d + (month d - 1).

(** *** The helpers of [src/utils.py] *)

Definition get_last_day_of_month (target_date : date) : result date :=
  last_day <- monthrange (year target_date) (month target_date) ;;
  replace_day target_date last_day.

Definition get_arret_preparation_date (latest_date : date) : result date :=
  n <- get_last_day_of_month latest_date ;; sub_months n 7.

Definition get_resiliation_preparation_date (latest_date : date) : result date :=
  n <- get_last_day_of_month latest_date ;; sub_months n 1.

Definition get_client_preparation_date (latest_date : date) : result date :=
  n <- get_last_day_of_month latest_date ;; sub_months n 9.

Definition get_prediction_start_date (latest_date : date) : result date :=
  replace_day latest_date 1.

(** The two formats [parse_last_date] tries, in this order. *)
Inductive date_format : Type := DMY_slash | YMD_slash.

(** [parse_last_date]: [to_datetime] stands for [pd.to_datetime(s, format=f)]
    followed by [.date()]; a [ValueError] of the first format falls through
    to the second one, any other exception propagates. *)
Definition parse_last_date
    (to_datetime : string -> date_format -> result date)
    (date_string : string) : result date :=
  date_obj <-
    match to_datetime date_string DMY_slash with
    | Raise ValueError => to_datetime date_string YMD_slash
    | r => r
    end ;;
  last_day <- monthrange (year date_obj) (month date_obj) ;;
  replace_day date_obj last_day.

End Calendar.

(** ** Scenario preparers and dataset partition ([src/data_preprocessing]) *)

Module Pipeline.

Import Calendar.

(** One retrieval asked of the data-access collaborator (the processor). *)
Inductive query : Type :=
| ResiliationQuery (period_start period_end : date) (scenario : Z)
| ArretConsoQuery (start_date end_date last_date : date)
| ClientQuery (start_date end_date last_date : date).

Inductive level : Type := INFO | WARNING.

(** What a run does that can be observed from outside: log records,
    retrievals, serialised artifacts, and the calls a test double receives. *)
Inductive event (row : Type) : Type :=
| Log (lvl : level) (msg : string)
| Fetch (q : query)
| ToPickle (path : string) (df : list row)
| Invoked (callee : string) (args : list date).
Arguments Log {row} lvl msg.
Arguments Fetch {row} q.
Arguments ToPickle {row} path df.
Arguments Invoked {row} callee args.

Section Preparers.

(** A record of a scenario dataset; a [DataFrame] is the list of its rows. *)
Variable row : Type.

Definition DataFrame : Type := list row.

(** Computations of the preparers: the events emitted so far and either a
    value or the exception that stopped the run. *)
Definition M (A : Type) : Type := (list (event row) * result A)%type.

Definition ret {A : Type} (a : A) : M A := ([], Ok a).

Definition bind {A B : Type} (m : M A) (f : A -> M B) : M B :=
  match m with
  | (tr, Ok a) => let '(tr', r) := f a in (tr ++ tr', r)
  | (tr, Raise e) => (tr, Raise e)
  end.

Definition emit (e : event row) : M unit := ([e], Ok tt).

Definition lift {A : Type} (r : result A) : M A := ([], r).

Definition trace {A : Type} (m : M A) : list (event row) := fst m.

Definition outcome {A : Type} (m : M A) : result A := snd m.

(** The retrievals of a trace, in the order they were issued. *)
Fixpoint queries (tr : list (event row)) : list query :=
  match tr with
  | [] => []
  | Fetch q :: tr' => q :: queries tr'
  | _ :: tr' => queries tr'
  end.

(** The calls received by test doubles, in order. *)
Fixpoint invocations (tr : list (event row)) : list (string * list date) :=
  match tr with
  | [] => []
  | Invoked c args :: tr' => (c, args) :: invocations tr'
  | _ :: tr' => invocations tr'
  end.

(** What one run leaves behind: the retrievals it issued, the calls its test
    doubles received, and how it ended. *)
Definition leaves {A : Type} (m : M A) (qs : list query)
    (calls : list (string * list date)) (r : result A) : Prop :=
  queries (trace m) = qs /\ invocations (trace m) = calls /\ outcome m = r.

(** Bounds of the window a retrieval covers. *)
Definition window_of (q : query) : date * date :=
  match q with
  | ResiliationQuery s e _ => (s, e)
  | ArretConsoQuery s e _ => (s, e)
  | ClientQuery s e _ => (s, e)
  end.

(** The processor: the three retrievals (which return an empty frame when
    nothing matches) and the raw last date it found in the extract. *)
Record Processor : Type := {
  get_resiliation_data : date -> date -> Z -> DataFrame;
  get_arret_conso_data : date -> date -> date -> DataFrame;
  get_client_data : date -> date -> date -> DataFrame;
  last_date : string
}.

Definition empty (df : DataFrame) : bool :=
  match df with [] => true | _ => false end.

(** [pd.concat(frames, ignore_index=True)] *)
Definition concat (frames : list DataFrame) : DataFrame := List.concat frames.

End Preparers.

Arguments ret {row A} a.
Arguments bind {row A B} m f.
Arguments emit {row} e.
Arguments lift {row A} r.
Arguments trace {row A} m.
Arguments outcome {row A} m.
Arguments queries {row} tr.
Arguments leaves {row A} m qs calls r.
Arguments invocations {row} tr.
Arguments empty {row} df.
Arguments concat {row} frames.
Arguments get_resiliation_data {row} p.
Arguments get_arret_conso_data {row} p.
Arguments get_client_data {row} p.
Arguments last_date {row} p.

Declare Scope prep_scope.
Delimit Scope prep_scope with prep.
Notation "x <- c ;; k" := (bind c (fun x => k))
  (at level 61, c at next level, right associativity) : prep_scope.
Notation "c ;;; k" := (bind c (fun _ => k))
  (at level 61, right associativity) : prep_scope.

Section Scenarios.

Variable row : Type.

Local Open Scope prep_scope.
Local Open Scope string_scope.

(** A preparer object as its callers see it: one bound method taking its
    positional arguments. *)
Definition bound_method : Type := list date -> M row (DataFrame row).

(** [ResiliationPreparer.prepare_resiliation_data] *)
Definition prepare_resiliation_data (processor : Processor row)
    (start_date end_date : date) (months_offset scenario : Z) : M row (DataFrame row) :=
  emit (Log INFO "Preparing resiliation data") ;;;
  period_start <- lift (add_months start_date months_offset) ;;
  period_end <- lift (add_months end_date months_offset) ;;
  emit (Fetch (ResiliationQuery period_start period_end scenario)) ;;;
  let data := get_resiliation_data processor period_start period_end scenario in
  (if empty data
   then emit (Log WARNING "No resiliation data found")
   else emit (Log INFO "Resiliation data successfully fetched")) ;;;
  ret data.

(** [ResiliationPreparer.prepare_all_resiliations] *)
Definition prepare_all_resiliations (processor : Processor row)
    (start_date end_date : date) : M row (DataFrame row) :=
  resiliation_6 <- prepare_resiliation_data processor start_date end_date 6 0 ;;
  resiliation_7 <- prepare_resiliation_data processor start_date end_date 6 1 ;;
  resiliation_8 <- prepare_resiliation_data processor start_date end_date 6 2 ;;
  let combined_data := concat [resiliation_6; resiliation_7; resiliation_8] in
  emit (Log INFO "Combined all resiliation data across scenarios.") ;;;
  ret combined_data.

(** [ArretConsoPreparer(processor).prepare_arret_conso]: three positional
    parameters; any other number of arguments is a [TypeError] at the call. *)
Definition prepare_arret_conso (processor : Processor row) : bound_method :=
  fun args =>
    match args with
    | [start_date; end_date; last_date] =>
        emit (Log INFO "Preparing arret conso data") ;;;
        emit (Fetch (ArretConsoQuery start_date end_date last_date)) ;;;
        let data := get_arret_conso_data processor start_date end_date last_date in
        (if empty data
         then emit (Log WARNING "No arret conso data found")
         else emit (Log INFO "Arret conso data fetched successfully.")) ;;;
        ret data
    | _ => lift (Raise TypeError)
    end.

(** [ClientsPreparer(processor).prepare_clients] *)
Definition prepare_clients (processor : Processor row) : bound_method :=
  fun args =>
    match args with
    | [start_date; end_date; last_date] =>
        emit (Log INFO "Preparing client data") ;;;
        emit (Fetch (ClientQuery start_date end_date last_date)) ;;;
        let data := get_client_data processor start_date end_date last_date in
        (if empty data
         then emit (Log WARNING "No client data found")
         else emit (Log INFO "Client data fetched successfully.")) ;;;
        ret data
    | _ => lift (Raise TypeError)
    end.

(** [ResiliationPreparer.prepare_test_data]: the two other preparers are
    passed in, and each is called with two arguments. *)
Definition prepare_test_data (processor : Processor row)
    (date_res last_date : date)
    (arret_conso_preparer clients_preparer : bound_method) : M row (DataFrame row) :=
  emit (Log INFO "Preparing test resiliation data") ;;;
  start_res <- lift (add_one_day date_res) ;;
  test_resiliation <- prepare_all_resiliations processor start_res last_date ;;
  emit (Log INFO "Preparing test arret conso data") ;;;
  start_arret <- lift (add_one_day date_res) ;;
  test_arret_conso <- arret_conso_preparer [start_arret; last_date] ;;
  emit (Log INFO "Preparing test client data") ;;;
  start_clients <- lift (add_one_day date_res) ;;
  test_clients <- clients_preparer [start_clients; last_date] ;;
  let test_data := concat [test_resiliation; test_arret_conso; test_clients] in
  emit (Log INFO "Test data prepared successfully.") ;;;
  ret test_data.

(** [prepare_data] of [data_processing.py], from the point where the
    processor has loaded the extract.  [start_date] is the configured global
    start and [prediction_preparer] the [DataPredictPreparer] method, both
    defined outside the files at hand; [get_last_date] and
    [get_prediction_date] are the [parse_last_date] and
    [get_prediction_start_date] helpers of [utils.py]. *)
Definition prepare_data
    (to_datetime : string -> date_format -> result date)
    (processor : Processor row) (start_date : date)
    (prediction_preparer : date -> M row (DataFrame row)) : M row unit :=
  last_date <- lift (parse_last_date to_datetime (last_date processor)) ;;
  emit (Log INFO "Preparing resiliations") ;;;
  date_res <- lift (get_resiliation_preparation_date last_date) ;;
  resiliation_data <- prepare_all_resiliations processor start_date date_res ;;
  emit (Log INFO "Preparing arret conso") ;;;
  date_arret <- lift (get_arret_preparation_date last_date) ;;
  arret_conso_data <-
    prepare_arret_conso processor [start_date; date_arret; last_date] ;;
  emit (Log INFO "Preparing clients") ;;;
  date_client <- lift (get_client_preparation_date last_date) ;;
  clients_data <-
    prepare_clients processor [start_date; date_client; last_date] ;;
  let train_df := concat [resiliation_data; arret_conso_data; clients_data] in
  emit (ToPickle "train_file_path" train_df) ;;;
  emit (Log INFO "Preparing test data") ;;;
  test_df <- prepare_test_data processor date_res last_date
               (prepare_arret_conso processor) (prepare_clients processor) ;;
  emit (ToPickle "test_file_path" test_df) ;;;
  emit (Log INFO "Preparing prediction data") ;;;
  prediction_start <- lift (get_prediction_start_date last_date) ;;
  prediction_data <- prediction_preparer prediction_start ;;
  emit (ToPickle "prediction_file_path" prediction_data).

(** Test doubles for the two preparers handed to [prepare_test_data]: they
    accept any arguments, record them and return an empty frame. *)
Definition spy (callee : string) : bound_method :=
  fun args => emit (Invoked callee args) ;;; ret [].

(** Test doubles that record their arguments and return a given frame. *)
Definition returning (callee : string) (frame : DataFrame row) : bound_method :=
  fun args => emit (Invoked callee args) ;;; ret frame.

End Scenarios.

(** A processor over an empty extract: every retrieval returns no row. *)
Definition empty_processor : Processor unit :=
  {| get_resiliation_data := fun _ _ _ => [];
     get_arret_conso_data := fun _ _ _ => [];
     get_client_data := fun _ _ _ => [];
     last_date := "15/11/2023" |}.

(** A processor whose resiliation retrieval returns one row, the number of
    the scenario asked for. *)
Definition numbered_processor : Processor Z :=
  {| get_resiliation_data := fun _ _ scenario => [scenario];
     get_arret_conso_data := fun _ _ _ => [];
     get_client_data := fun _ _ _ => [];
     last_date := "15/11/2023" |}.

(** A prediction preparer over the same empty extract. *)
Definition empty_prediction_preparer (prediction_start : date)
  : M unit (DataFrame unit) := ret [].

(** [pd.to_datetime] on the one string the worked examples parse. *)
Definition to_datetime_example (s : string) (f : date_format) : result date :=
  match f with
  | DMY_slash =>
      if String.eqb s "15/11/2023" then Ok (mkdate 2023 11 15)
      else Raise ValueError
  | YMD_slash => Raise ValueError
  end.

End Pipeline.

(** ** Feature assembly ([src/modeling/train.py], [src/modeling/predict.py]) *)

Module Features.

Local Open Scope string_scope.
Local Open Scope Z_scope.
Local Open Scope result_scope.

(** A cell of a frame.  Finite numbers (integer or floating point) are taken
    as exact rationals; the special values a floating-point division can
    produce and text cells are kept apart. *)
Inductive cell : Type :=
| Num (q : Q)
| Inf (positive : bool)
| NaN
| Str (s : string).

(** A row: its cells by column label. *)
Definition record : Type := list (string * cell).

(** A [pandas.DataFrame]: the column labels and the rows with their index. *)
Record DataFrame : Type := mkFrame {
  columns : list string;
  rows : list (Z * record)
}.

(** A column taken out of a frame, with the index it had there. *)
Definition Series : Type := list (Z * cell).

Inductive dtype : Type := category | int.

Definition mem (name : string) (names : list string) : bool :=
  existsb (String.eqb name) names.

Definition cell_of (name : string) (r : record) : cell :=
  match find (fun kv => String.eqb (fst kv) name) r with
  | Some kv => snd kv
  | None => NaN
  end.

Fixpoint set_cell (name : string) (v : cell) (r : record) : record :=
  match r with
  | [] => [(name, v)]
  | (k, c) :: r' =>
      if String.eqb k name then (k, v) :: r' else (k, c) :: set_cell name v r'
  end.

(** An operation on every cell of a column; the first failure stops it. *)
Fixpoint mapM {A B : Type} (f : A -> result B) (l : list A) : result (list B) :=
  match l with
  | [] => Ok []
  | a :: l' => b <- f a ;; bs <- mapM f l' ;; Ok (b :: bs)
  end.

(** An operation on two columns of one frame, cell by cell. *)
Fixpoint zipM {A B C : Type} (f : A -> B -> result C) (l : list A) (l' : list B)
  : result (list C) :=
  match l, l' with
  | a :: t, b :: t' => c <- f a b ;; cs <- zipM f t t' ;; Ok (c :: cs)
  | _, _ => Ok []
  end.

(** [df[name]] *)
Definition getitem (name : string) (df : DataFrame) : result (list cell) :=
  if mem name (columns df)
  then Ok (map (fun ir => cell_of name (snd ir)) (rows df))
  else Raise KeyError.

(** [df[name] = values]; the loaders assign a column computed from the
    frame itself, one cell per row. *)
Definition setitem (name : string) (values : list cell) (df : DataFrame)
  : DataFrame :=
  {| columns := if mem name (columns df) then columns df
                else columns df ++ [name];
     rows := map (fun irv => (fst (fst irv), set_cell name (snd irv) (snd (fst irv))))
                 (combine (rows df) values) |}.

(** [df.drop(names, axis=1)] *)
Definition drop (names : list string) (df : DataFrame) : result DataFrame :=
  if forallb (fun n => mem n (columns df)) names
  then Ok {| columns := filter (fun c => negb (mem c names)) (columns df);
             rows := map (fun ir =>
                       (fst ir, filter (fun kv => negb (mem (fst kv) names)) (snd ir)))
                     (rows df) |}
  else Raise KeyError.

(** Truncation of a finite number toward zero, as a cast to integer does. *)
Definition truncate (q : Q) : Z := Z.quot (Qnum q) (Zpos (Qden q)).

Section Casts.

(** Python's [int(s)] on a text cell. *)
Variable int_of_str : string -> result Z.

Definition cast (t : dtype) (c : cell) : result cell :=
  match t with
  | category => Ok c
  | int =>
      match c with
      | Num q => Ok (Num (inject_Z (truncate q)))
      | Inf _ => Raise ValueError
      | NaN => Raise ValueError
      | Str s => z <- int_of_str s ;; Ok (Num (inject_Z z))
      end
  end.

Definition dtype_of (name : string) (d : list (string * dtype)) : option dtype :=
  match find (fun kt => String.eqb (fst kt) name) d with
  | Some kt => Some (snd kt)
  | None => None
  end.

(** [df.astype(convert_dict)] *)
Definition astype (d : list (string * dtype)) (df : DataFrame) : result DataFrame :=
  if forallb (fun kt => mem (fst kt) (columns df)) d
  then
    rs <- mapM (fun ir =>
            r <- mapM (fun kv =>
                   match dtype_of (fst kv) d with
                   | Some t => c <- cast t (snd kv) ;; Ok (fst kv, c)
                   | None => Ok kv
                   end) (snd ir) ;;
            Ok (fst ir, r)) (rows df) ;;
    Ok {| columns := columns df; rows := rs |}
  else Raise KeyError.

End Casts.

Definition isna (c : cell) : bool :=
  match c with NaN => true | _ => false end.

(** [df[name].fillna(v, inplace=True)]: the column is taken, its missing
    values replaced, and the frame sees the change. *)
Definition fillna (name : string) (v : cell) (df : DataFrame) : result DataFrame :=
  col <- getitem name df ;;
  Ok (setitem name (map (fun c => if isna c then v else c) col) df).

(** Elementwise comparison of a cell with a number: a missing value compares
    false, a text cell cannot be compared. *)
Definition ge (c : cell) (t : Q) : result bool :=
  match c with
  | Num q => Ok (Qle_bool t q)
  | Inf positive => Ok positive
  | NaN => Ok false
  | Str _ => Raise TypeError
  end.

Definition le (c : cell) (t : Q) : result bool :=
  match c with
  | Num q => Ok (Qle_bool q t)
  | Inf positive => Ok (negb positive)
  | NaN => Ok false
  | Str _ => Raise TypeError
  end.

Fixpoint mask_filter {A : Type} (mask : list bool) (l : list A) : list A :=
  match mask, l with
  | b :: mask', a :: l' =>
      if b then a :: mask_filter mask' l' else mask_filter mask' l'
  | _, _ => []
  end.

(** [df[mask]] *)
Definition boolean_index (mask : list bool) (df : DataFrame) : DataFrame :=
  {| columns := columns df; rows := mask_filter mask (rows df) |}.

Definition Qsign_pos (q : Q) : bool := Qle_bool 0 q.

(** Elementwise subtraction and division, with the values a floating-point
    unit gives at infinity and at a zero divisor. *)
Definition sub (a b : cell) : result cell :=
  match a, b with
  | Str _, _ | _, Str _ => Raise TypeError
  | NaN, _ | _, NaN => Ok NaN
  | Num x, Num y => Ok (Num (x - y))
  | Num _, Inf p => Ok (Inf (negb p))
  | Inf p, Num _ => Ok (Inf p)
  | Inf p, Inf p' => if Bool.eqb p p' then Ok NaN else Ok (Inf p)
  end.

Definition div (a b : cell) : result cell :=
  match a, b with
  | Str _, _ | _, Str _ => Raise TypeError
  | NaN, _ | _, NaN => Ok NaN
  | Num x, Num y =>
      if Qeq_bool y 0
      then if Qeq_bool x 0 then Ok NaN else Ok (Inf (Qsign_pos x))
      else Ok (Num (x / y))
  | Num _, Inf _ => Ok (Num 0)
  | Inf p, Num y => Ok (Inf (Bool.eqb p (Qsign_pos y)))
  | Inf _, Inf _ => Ok NaN
  end.

(** [df.pop(label)] *)
Definition pop (label : string) (df : DataFrame) : result (Series * DataFrame) :=
  if mem label (columns df)
  then Ok (map (fun ir => (fst ir, cell_of label (snd ir))) (rows df),
           {| columns := filter (fun c => negb (String.eqb c label)) (columns df);
              rows := map (fun ir =>
                        (fst ir,
                         filter (fun kv => negb (String.eqb (fst kv) label)) (snd ir)))
                      (rows df) |})
  else Raise KeyError.

(** [df[names]] *)
Definition select (names : list string) (df : DataFrame) : result DataFrame :=
  if forallb (fun n => mem n (columns df)) names
  then Ok {| columns := names;
             rows := map (fun ir => (fst ir, map (fun n => (n, cell_of n (snd ir))) names))
                         (rows df) |}
  else Raise KeyError.

(** [df.reset_index(drop=True)] *)
Definition reset_index (df : DataFrame) : DataFrame :=
  {| columns := columns df;
     rows := combine (map Z.of_nat (seq 0 (List.length (rows df))))
                     (map snd (rows df)) |}.

(** Rounding to the nearest integer, ties to even. *)
Definition rint (q : Q) : Z :=
  let n := Qnum q in
  let d := Zpos (Qden q) in
  let fl := n / d in
  let r2 := 2 * (n mod d) in
  if r2 <? d then fl
  else if d <? r2 then fl + 1
  else if Z.even fl then fl else fl + 1.

Definition round_cell (c : cell) : cell :=
  match c with
  | Num q => Num (Qmake (rint (q * 100)) 100)
  | _ => c
  end.

(** [df.round(2)] *)
Definition round2 (df : DataFrame) : DataFrame :=
  {| columns := columns df;
     rows := map (fun ir => (fst ir, map (fun kv => (fst kv, round_cell (snd kv))) (snd ir)))
                 (rows df) |}.

Definition convert_dict : list (string * dtype) :=
  [("main_product", category); ("business_sector", category);
   ("workforce", category); ("frequency", int)].

Section Loaders.

(** The thresholds and the feature list of [src.modeling], and Python's
    [int] on text, all defined outside the files at hand. *)
Variables min_age min_inactivity_months min_revenue : Q.
Variable numerical_features : list string.
Variable int_of_str : string -> result Z.

(** [load_data] of [train.py], from the frame read from the pickle. *)
Definition load_data (data_df : DataFrame) (label_column : string)
  : result (DataFrame * Series) :=
  data_df <- drop ["Account"; "CLIENT_ORIGIN_CODE"] data_df ;;
  data_df <- astype int_of_str convert_dict data_df ;;
  data_df <- fillna "tenure" (Num 0) data_df ;;
  tenure <- getitem "tenure" data_df ;;
  mask <- mapM (fun c => ge c min_age) tenure ;;
  let data_df := boolean_index mask data_df in
  inactive <- getitem "inactive_months" data_df ;;
  mask <- mapM (fun c => le c min_inactivity_months) inactive ;;
  let data_df := boolean_index mask data_df in
  revenue <- getitem "revenue_12_months" data_df ;;
  mask <- mapM (fun c => ge c min_revenue) revenue ;;
  let data_df := boolean_index mask data_df in
  numerator <- getitem "revenue_6_months" data_df ;;
  minuend <- getitem "revenue_6_months" data_df ;;
  subtrahend <- getitem "revenue_growth" data_df ;;
  denominator <- zipM sub minuend subtrahend ;;
  ratio <- zipM div numerator denominator ;;
  growth <- mapM (fun c => sub c (Num 1)) ratio ;;
  let data_df := setitem "revenue_growth" growth data_df in
  popped <- pop label_column data_df ;;
  let y_data := fst popped in
  let data_df := snd popped in
  x_data <- select numerical_features data_df ;;
  let x_data := reset_index x_data in
  let x_data := round2 x_data in
  Ok (x_data, y_data).

(** [load_data_for_prediction] of [predict.py]. *)
Definition load_data_for_prediction (data_df : DataFrame) : result DataFrame :=
  data_df <- drop ["Account"; "CLIENT_ORIGIN_CODE"] data_df ;;
  data_df <- astype int_of_str convert_dict data_df ;;
  data_df <- fillna "tenure" (Num 0) data_df ;;
  tenure <- getitem "tenure" data_df ;;
  mask <- mapM (fun c => ge c min_age) tenure ;;
  let data_df := boolean_index mask data_df in
  inactive <- getitem "inactive_months" data_df ;;
  mask <- mapM (fun c => le c min_inactivity_months) inactive ;;
  let data_df := boolean_index mask data_df in
  revenue <- getitem "revenue_12_months" data_df ;;
  mask <- mapM (fun c => ge c min_revenue) revenue ;;
  let data_df := boolean_index mask data_df in
  numerator <- getitem "revenue_6_months" data_df ;;
  minuend <- getitem "revenue_6_months" data_df ;;
  subtrahend <- getitem "revenue_growth" data_df ;;
  denominator <- zipM sub minuend subtrahend ;;
  ratio <- zipM div numerator denominator ;;
  growth <- mapM (fun c => sub c (Num 1)) ratio ;;
  let data_df := setitem "revenue_growth" growth data_df in
  x_data <- select numerical_features data_df ;;
  let x_data := reset_index x_data in
  let x_data := round2 x_data in
  Ok x_data.

(** The stages both loaders go through, each as the lines that make it. *)

(** Column drop, type cast and tenure fill. *)
Definition prepare (data_df : DataFrame) : result DataFrame :=
  data_df <- drop ["Account"; "CLIENT_ORIGIN_CODE"] data_df ;;
  data_df <- astype int_of_str convert_dict data_df ;;
  fillna "tenure" (Num 0) data_df.

(** The three row filters. *)
Definition filter_rows (data_df : DataFrame) : result DataFrame :=
  tenure <- getitem "tenure" data_df ;;
  mask <- mapM (fun c => ge c min_age) tenure ;;
  let data_df := boolean_index mask data_df in
  inactive <- getitem "inactive_months" data_df ;;
  mask <- mapM (fun c => le c min_inactivity_months) inactive ;;
  let data_df := boolean_index mask data_df in
  revenue <- getitem "revenue_12_months" data_df ;;
  mask <- mapM (fun c => ge c min_revenue) revenue ;;
  Ok (boolean_index mask data_df).

(** The divisor of the revenue-growth derivation. *)
Definition revenue_growth_denominator (data_df : DataFrame) : result (list cell) :=
  minuend <- getitem "revenue_6_months" data_df ;;
  subtrahend <- getitem "revenue_growth" data_df ;;
  zipM sub minuend subtrahend.

(** The derived revenue-growth column. *)
Definition derived_revenue_growth (data_df : DataFrame) : result (list cell) :=
  numerator <- getitem "revenue_6_months" data_df ;;
  denominator <- revenue_growth_denominator data_df ;;
  ratio <- zipM div numerator denominator ;;
  mapM (fun c => sub c (Num 1)) ratio.

(** Whether a comparison came out true. *)
Definition holds (c : result bool) : bool :=
  match c with Ok true => true | _ => false end.

(** The three conditions a row must meet to stay, read on one row. *)
Definition keeps (r : record) : bool :=
  holds (ge (cell_of "tenure" r) min_age) &&
  holds (le (cell_of "inactive_months" r) min_inactivity_months) &&
  holds (ge (cell_of "revenue_12_months" r) min_revenue).

(** A frame of one client whose tenure, inactivity and yearly revenue sit on
    the thresholds and whose half-year revenue equals its raw growth value. *)
Definition flat_revenue_frame (a : Q) : DataFrame :=
  {| columns := ["Account"; "CLIENT_ORIGIN_CODE"; "main_product";
                 "business_sector"; "workforce"; "frequency"; "tenure";
                 "inactive_months"; "revenue_12_months"; "revenue_6_months";
                 "revenue_growth"; "churn"];
     rows := [(0, [("Account", Str "A1"); ("CLIENT_ORIGIN_CODE", Str "C1");
                   ("main_product", Str "P"); ("business_sector", Str "S");
                   ("workforce", Str "W"); ("frequency", Num 1);
                   ("tenure", Num min_age);
                   ("inactive_months", Num min_inactivity_months);
                   ("revenue_12_months", Num min_revenue);
                   ("revenue_6_months", Num a);
                   ("revenue_growth", Num a);
                   ("churn", Num 0)])] |}.

End Loaders.

(** *** Worked inputs *)

(** Python's [int] on text that holds no number. *)
Definition no_int (s : string) : result Z := Raise ValueError.

Definition example_features : list string :=
  ["frequency"; "tenure"; "inactive_months"; "revenue_12_months";
   "revenue_6_months"; "revenue_growth"].

Definition client (account : string) (frequency tenure inactive_months
    revenue_12_months revenue_6_months revenue_growth churn : cell) : record :=
  [("Account", Str account); ("CLIENT_ORIGIN_CODE", Str account);
   ("main_product", Str "P"); ("business_sector", Str "S");
   ("workforce", Str "W"); ("frequency", frequency); ("tenure", tenure);
   ("inactive_months", inactive_months);
   ("revenue_12_months", revenue_12_months);
   ("revenue_6_months", revenue_6_months);
   ("revenue_growth", revenue_growth); ("churn", churn)].

(** Four clients: one kept, one without tenure, one inactive for too long,
    and one kept whose half-year revenue equals its raw growth value. *)
Definition example_frame : DataFrame :=
  {| columns := ["Account"; "CLIENT_ORIGIN_CODE"; "main_product";
                 "business_sector"; "workforce"; "frequency"; "tenure";
                 "inactive_months"; "revenue_12_months"; "revenue_6_months";
                 "revenue_growth"; "churn"];
     rows := [(10, client "A" (Num 2.5) (Num 24) (Num 1) (Num 1200)
                     (Num 600) (Num 100) (Num 0));
              (11, client "B" (Num 1) NaN (Num 0) (Num 900)
                     (Num 450) (Num 50) (Num 1));
              (12, client "C" (Num 3) (Num 36) (Num 11) (Num 5000)
                     (Num 10) (Num 5) (Num 1));
              (13, client "D" (Num 4) (Num 12) (Num 9) (Num 300)
                     (Num 0) (Num 0) (Num 0))] |}.

(** The feature matrix both loaders return on [example_frame] with the
    thresholds 6, 9 and 300: clients A and D, renumbered from 0. *)
Definition example_feature_matrix : DataFrame :=
  {| columns := example_features;
     rows := [(0, [("frequency", Num (200 # 100)); ("tenure", Num (2400 # 100));
                   ("inactive_months", Num (100 # 100));
                   ("revenue_12_months", Num (120000 # 100));
                   ("revenue_6_months", Num (60000 # 100));
                   ("revenue_growth", Num (20 # 100))]);
              (1, [("frequency", Num (400 # 100)); ("tenure", Num (1200 # 100));
                   ("inactive_months", Num (900 # 100));
                   ("revenue_12_months", Num (30000 # 100));
                   ("revenue_6_months", Num (0 # 100));
                   ("revenue_growth", NaN)])] |}.

End Features.

(** ** Text helpers ([src/utils.py]) *)

Module Text.

Local Open Scope Z_scope.

(** A Python [str]: the sequence of its code points. *)
Definition str : Type := list Z.

Definition MAXUNICODE : Z := 1114111.

Definition valid_char (c : Z) : bool := (0 <=? c) && (c <=? MAXUNICODE).

Definition valid_str (s : str) : bool := forallb valid_char s.

(** [ord] of a one-character string, and [chr], which refuses a number
    that is no code point. *)
Definition ord (c : Z) : Z := c.

Definition chr (i : Z) : result Z :=
  if valid_char i then Ok i else Raise ValueError.

(** [encode_xor] *)
Definition encode_xor (string_to_encode : str) : result str :=
  let key := 67 in
  Features.mapM (fun char => chr (Z.lxor (ord char) key)) string_to_encode.

(** [a == b] and [a < b] on strings: code point by code point, a proper
    prefix being smaller. *)
Fixpoint str_eqb (a b : str) : bool :=
  match a, b with
  | [], [] => true
  | x :: a', y :: b' => (x =? y) && str_eqb a' b'
  | _, _ => false
  end.

Fixpoint str_ltb (a b : str) : bool :=
  match a, b with
  | _, [] => false
  | [], _ :: _ => true
  | x :: a', y :: b' => (x <? y) || ((x =? y) && str_ltb a' b')
  end.

(** The built-in [min] of two arguments: the first one unless the second
    is smaller. *)
Definition min (a b : str) : str := if str_ltb b a then b else a.

(** A literal of the source, as code points. *)
Definition literal (s : string) : str :=
  map (fun c => Z.of_N (Ascii.N_of_ascii c)) (list_ascii_of_string s).

(** [get_activation_date] *)
Definition get_activation_date
    (activation_date deployment_date_1 deployment_date_2 : str) : str :=
  if negb (str_eqb activation_date (literal "14/09/2016"))
  then activation_date
  else min deployment_date_1 deployment_date_2.

End Text.

(** ** What a run of the preparers shows *)

Module Observations.

Import Pipeline.

Section Views.

Variable row : Type.

(** A trace without its log records: the retrievals, the artifacts written
    and the calls received, in order. *)
Fixpoint effects (tr : list (event row)) : list (event row) :=
  match tr with
  | [] => []
  | Log _ _ :: tr' => effects tr'
  | ev :: tr' => ev :: effects tr'
  end.

(** The paths written with [to_pickle], in order. *)
Fixpoint pickles (tr : list (event row)) : list string :=
  match tr with
  | [] => []
  | ToPickle path _ :: tr' => path :: pickles tr'
  | _ :: tr' => pickles tr'
  end.

(** The number of warnings logged. *)
Fixpoint warnings (tr : list (event row)) : nat :=
  match tr with
  | [] => O
  | Log WARNING _ :: tr' => S (warnings tr')
  | _ :: tr' => warnings tr'
  end.

(** What a run shows: its effects and how it ended. *)
Definition shows {A : Type} (m : M row A) (es : list (event row))
    (r : result A) : Prop :=
  effects (trace m) = es /\ outcome m = r.

End Views.

Arguments effects {row} tr.
Arguments pickles {row} tr.
Arguments warnings {row} tr.
Arguments shows {row A} m es r.

End Observations.

(** ** Cleaning before prediction ([prepare_xgb_prediction_data]) *)

Module Cleaning.

Import Features.

Local Open Scope string_scope.
Local Open Scope Z_scope.
Local Open Scope result_scope.

(** [cell < t], elementwise as [ge] and [le] are. *)
Definition lt (c : cell) (t : Q) : result bool :=
  match c with
  | Num q => Ok (negb (Qle_bool t q))
  | Inf positive => Ok (negb positive)
  | NaN => Ok false
  | Str _ => Raise TypeError
  end.

(** [np.where(mask, x, column)] *)
Definition np_where (mask : list bool) (x : cell) (column : list cell)
  : list cell :=
  map (fun mc : bool * cell => if fst mc then x else snd mc)
      (combine mask column).

(** [column.replace(mapping)]: a text cell that is a key of the mapping
    takes its value. *)
Definition replace (mapping : list (string * string)) (c : cell) : cell :=
  match c with
  | Str s =>
      match find (fun kv => String.eqb (fst kv) s) mapping with
      | Some kv => Str (snd kv)
      | None => c
      end
  | _ => c
  end.

(** [mask & mask'] *)
Definition mask_and (mask mask' : list bool) : list bool :=
  map (fun bb : bool * bool => fst bb && snd bb) (combine mask mask').

Definition employees_mapping : list (string * string) :=
  [("Unknown", "1 or 2 employees");
   ("0 employees as of 31/12", "1 or 2 employees");
   ("1 to 9", "1 or 2 employees");
   ("Unit without employees", "1 or 2 employees")].

(** [prepare_xgb_prediction_data]: the frame passed in is cleaned in place,
    the frame returned holds the rows that pass the filter. *)
Definition prepare_xgb_prediction_data (data : DataFrame) : result DataFrame :=
  age <- getitem "age_business" data ;;
  negative <- mapM (fun c => lt c 0) age ;;
  age <- getitem "age_business" data ;;
  let data := setitem "age_business" (np_where negative (Num 0) age) data in
  tenure <- getitem "tenure" data ;;
  negative <- mapM (fun c => lt c 0) tenure ;;
  tenure <- getitem "tenure" data ;;
  let data := setitem "tenure" (np_where negative NaN tenure) data in
  employees <- getitem "employees" data ;;
  let data := setitem "employees" (map (replace employees_mapping) employees) data in
  data <- fillna "tenure" (Num 0) data ;;
  data <- fillna "age_business" (Num 0) data ;;
  data <- fillna "employees" (Str "1 or 2 employees") data ;;
  tenure <- getitem "tenure" data ;;
  mask_tenure <- mapM (fun c => ge c 6) tenure ;;
  inactive <- getitem "months_inactive" data ;;
  mask_inactive <- mapM (fun c => le c 9) inactive ;;
  revenue <- getitem "CA_12_months" data ;;
  mask_revenue <- mapM (fun c => ge c 300) revenue ;;
  Ok (boolean_index (mask_and (mask_and mask_tenure mask_inactive) mask_revenue)
        data).

(** The same lines read on one row. *)

Definition fill (v c : cell) : cell := if isna c then v else c.

Definition clean_age (c : cell) : cell :=
  fill (Num 0) (if holds (lt c 0) then Num 0 else c).

Definition clean_tenure (c : cell) : cell :=
  fill (Num 0) (if holds (lt c 0) then NaN else c).

Definition clean_employees (c : cell) : cell :=
  fill (Str "1 or 2 employees") (replace employees_mapping c).

Definition clean_record (r : record) : record :=
  let r := set_cell "age_business"
             (if holds (lt (cell_of "age_business" r) 0) then Num 0
              else cell_of "age_business" r) r in
  let r := set_cell "tenure"
             (if holds (lt (cell_of "tenure" r) 0) then NaN
              else cell_of "tenure" r) r in
  let r := set_cell "employees"
             (replace employees_mapping (cell_of "employees" r)) r in
  let r := set_cell "tenure" (fill (Num 0) (cell_of "tenure" r)) r in
  let r := set_cell "age_business" (fill (Num 0) (cell_of "age_business" r)) r in
  set_cell "employees"
    (fill (Str "1 or 2 employees") (cell_of "employees" r)) r.

Definition passes_filter (r : record) : bool :=
  holds (ge (cell_of "tenure" r) 6) &&
  holds (le (cell_of "months_inactive" r) 9) &&
  holds (ge (cell_of "CA_12_months" r) 300).

(** Whether a cell can be compared with a number. *)
Definition comparable (c : cell) : bool :=
  match c with Str _ => false | _ => true end.

(** Whether the four cells of a row that the function compares with a
    number can be. *)
Definition comparable_row (r : record) : bool :=
  comparable (cell_of "age_business" r) && comparable (cell_of "tenure" r) &&
  comparable (cell_of "months_inactive" r) &&
  comparable (cell_of "CA_12_months" r).

(** Three clients before cleaning: one kept, one with a negative tenure, one
    kept whose head count is a label the mapping rewrites. *)
Definition raw_clients : DataFrame :=
  {| columns := ["age_business"; "tenure"; "employees"; "months_inactive";
                 "CA_12_months"];
     rows := [(0, [("age_business", Num (-3)); ("tenure", Num 24);
                   ("employees", NaN); ("months_inactive", Num 2);
                   ("CA_12_months", Num 1000)]);
              (1, [("age_business", Num 10); ("tenure", Num (-1));
                   ("employees", Str "10 to 19"); ("months_inactive", Num 0);
                   ("CA_12_months", Num 5000)]);
              (2, [("age_business", NaN); ("tenure", Num 6);
                   ("employees", Str "Unknown"); ("months_inactive", Num 9);
                   ("CA_12_months", Num 300)])] |}.

End Cleaning.

(** * Properties *)

(** ** Calendar arithmetic *)

Module CalendarFacts.

Import Calendar.

Lemma valid_date_spec (d : date) :
  valid_date d = true <->
  (MINYEAR <= year d <= MAXYEAR /\ 1 <= month d <= 12 /\
   1 <= day d <= days_in_month (year d) (month d)).
Proof.
  unfold valid_date.
  rewrite !andb_true_iff, !Z.leb_le. tauto.
Qed.

Lemma days_in_month_range (y m : Z) :
  1 <= m <= 12 -> 28 <= days_in_month y m <= 31.
Proof.
  intros Hm. unfold days_in_month.
  assert (Hc : m = 1 \/ m = 2 \/ m = 3 \/ m = 4 \/ m = 5 \/ m = 6 \/ m = 7 \/
               m = 8 \/ m = 9 \/ m = 10 \/ m = 11 \/ m = 12) by lia.
  destruct (isleap y);
    repeat (destruct Hc as [-> | Hc]; [cbn; lia |]); subst; cbn; lia.
Qed.

Lemma monthrange_legal (y m : Z) :
  1 <= m <= 12 -> monthrange y m = Ok (days_in_month y m).
Proof.
  intros Hm. unfold monthrange, days_in_month.
  replace ((1 <=? m) && (m <=? 12)) with true; [reflexivity |].
  symmetry. apply andb_true_iff. rewrite !Z.leb_le. lia.
Qed.

Lemma date_new_valid (y m d : Z) :
  valid_date (mkdate y m d) = true -> date_new y m d = Ok (mkdate y m d).
Proof. intros H. unfold date_new. now rewrite H. Qed.

Lemma get_last_day_of_month_spec (d : date) :
  valid_date d = true ->
  get_last_day_of_month d =
    Ok (mkdate (year d) (month d) (days_in_month (year d) (month d))).
Proof.
  intros Hv. apply valid_date_spec in Hv. destruct Hv as (Hy & Hm & Hd).
  unfold get_last_day_of_month, replace_day.
  rewrite monthrange_legal by assumption. cbn [rbind].
  apply date_new_valid. apply valid_date_spec. cbn [year month day].
  pose proof (days_in_month_range (year d) (month d) Hm). lia.
Qed.

Lemma last_day_valid (d : date) :
  valid_date d = true ->
  valid_date (mkdate (year d) (month d) (days_in_month (year d) (month d))) = true.
Proof.
  intros Hv. apply valid_date_spec in Hv. destruct Hv as (Hy & Hm & Hd).
  apply valid_date_spec. cbn [year month day].
  pose proof (days_in_month_range (year d) (month d) Hm). lia.
Qed.

(** The month offset in closed form: the month index moves by [k] and the
    day is clamped to the month reached. *)
Lemma add_months_spec (d : date) (k y m : Z) :
  valid_date d = true ->
  -12 <= k <= 12 ->
  12 * y + (m - 1) = month_index d + k ->
  1 <= m <= 12 ->
  MINYEAR <= y <= MAXYEAR ->
  add_months d k = Ok (mkdate y m (Z.min (days_in_month y m) (day d))).
Proof.
  intros Hv Hk Hidx Hm Hy.
  apply valid_date_spec in Hv. destruct Hv as (Hyd & Hmd & Hdd).
  unfold month_index in Hidx. unfold add_months.
  assert (Hsel :
    (if k =? 0 then (year d, month d)
     else if 12 <? month d + k then (year d + 1, month d + k - 12)
          else if month d + k <? 1 then (year d - 1, month d + k + 12)
               else (year d, month d + k)) = (y, m)).
  { destruct (Z.eqb_spec k 0); [f_equal; lia |].
    destruct (Z.ltb_spec 12 (month d + k)); [f_equal; lia |].
    destruct (Z.ltb_spec (month d + k) 1); f_equal; lia. }
  cbv zeta. rewrite Hsel.
  rewrite monthrange_legal by assumption. cbn [rbind].
  apply date_new_valid. apply valid_date_spec. cbn [year month day].
  pose proof (days_in_month_range y m Hm). lia.
Qed.

Lemma date_ltb_spec (a b : date) :
  date_ltb a b = true <->
  (year a < year b \/
   (year a = year b /\
    (month a < month b \/ (month a = month b /\ day a < day b)))).
Proof.
  unfold date_ltb.
  rewrite !orb_true_iff, !andb_true_iff, !orb_true_iff, !andb_true_iff,
    !Z.ltb_lt, !Z.eqb_eq. tauto.
Qed.

Lemma date_leb_spec (a b : date) :
  date_leb a b = true <->
  (year a < year b \/
   (year a = year b /\
    (month a < month b \/ (month a = month b /\ day a <= day b)))).
Proof.
  unfold date_leb, date_eqb.
  rewrite orb_true_iff, date_ltb_spec, !andb_true_iff, !Z.eqb_eq. lia.
Qed.

(** A month offset that stays within the representable years succeeds. *)
Lemma add_months_total (d : date) (k : Z) :
  valid_date d = true ->
  -12 <= k <= 12 ->
  12 * MINYEAR <= month_index d + k < 12 * (MAXYEAR + 1) ->
  exists r,
    add_months d k = Ok r /\ valid_date r = true /\
    month_index r = month_index d + k /\
    day r = Z.min (days_in_month (year r) (month r)) (day d).
Proof.
  intros Hv Hk Hr.
  set (i := month_index d + k) in *.
  assert (Hm : 1 <= i mod 12 + 1 <= 12)
    by (pose proof (Z.mod_pos_bound i 12); lia).
  assert (Hy : MINYEAR <= i / 12 <= MAXYEAR).
  { unfold MINYEAR, MAXYEAR in *. split.
    - apply Z.div_le_lower_bound; lia.
    - apply Z.lt_succ_r. apply Z.div_lt_upper_bound; lia. }
  assert (Hi : 12 * (i / 12) + (i mod 12 + 1 - 1) = i)
    by (pose proof (Z.div_mod i 12); lia).
  exists (mkdate (i / 12) (i mod 12 + 1)
            (Z.min (days_in_month (i / 12) (i mod 12 + 1)) (day d))).
  split; [apply add_months_spec; assumption |].
  split.
  - apply valid_date_spec. cbn [year month day].
    pose proof (days_in_month_range (i / 12) (i mod 12 + 1) Hm).
    apply valid_date_spec in Hv. lia.
  - split; [exact Hi | reflexivity].
Qed.

(** The day after a date before the last representable year. *)
Lemma add_one_day_total (d : date) :
  valid_date d = true -> year d < MAXYEAR ->
  exists n,
    add_one_day d = Ok n /\ valid_date n = true /\
    ((month_index n = month_index d /\ day n = day d + 1) \/
     (month_index n = month_index d + 1 /\ day n = 1)).
Proof.
  intros Hv Hy. apply valid_date_spec in Hv. destruct Hv as (Hyd & Hm & Hd).
  unfold add_one_day, month_index.
  destruct (Z.ltb_spec (day d) (days_in_month (year d) (month d))).
  - eexists. split; [reflexivity |]. cbn [year month day].
    split; [apply valid_date_spec; cbn [year month day]; lia | left; lia].
  - destruct (Z.ltb_spec (month d) 12).
    + eexists. split; [reflexivity |]. cbn [year month day].
      split; [| right; lia].
      apply valid_date_spec. cbn [year month day].
      pose proof (days_in_month_range (year d) (month d + 1)). lia.
    + destruct (Z.ltb_spec (year d) MAXYEAR); [| lia].
      eexists. split; [reflexivity |]. cbn [year month day].
      split; [| right; lia].
      apply valid_date_spec. cbn [year month day].
      pose proof (days_in_month_range (year d + 1) 1). lia.
Qed.

Lemma month_index_lt (a b : date) :
  valid_date a = true -> valid_date b = true ->
  month_index a < month_index b -> date_ltb a b = true.
Proof.
  intros Ha Hb. apply valid_date_spec in Ha, Hb. unfold month_index.
  intros H. apply date_ltb_spec. lia.
Qed.

Lemma month_index_inj (a b : date) :
  valid_date a = true -> valid_date b = true ->
  month_index a = month_index b -> year a = year b /\ month a = month b.
Proof.
  intros Ha Hb. apply valid_date_spec in Ha, Hb. unfold month_index. lia.
Qed.

Lemma date_leb_of_ltb (a b : date) : date_ltb a b = true -> date_leb a b = true.
Proof. unfold date_leb. now intros ->. Qed.

(** Shifting two dates by the same number of months keeps their order. *)
Lemma month_shift_monotone (a b a' b' : date) (k : Z) :
  valid_date a = true -> valid_date b = true ->
  valid_date a' = true -> valid_date b' = true ->
  month_index a' = month_index a + k ->
  month_index b' = month_index b + k ->
  day a' = Z.min (days_in_month (year a') (month a')) (day a) ->
  day b' = Z.min (days_in_month (year b') (month b')) (day b) ->
  date_leb a b = true -> date_leb a' b' = true.
Proof.
  intros Ha Hb Ha' Hb' Hia Hib Hda Hdb Hle.
  destruct (Z.lt_ge_cases (month_index a) (month_index b)) as [Hlt | Hge].
  - apply date_leb_of_ltb, month_index_lt; try assumption. lia.
  - assert (Heq : month_index a = month_index b).
    { apply date_leb_spec in Hle. apply valid_date_spec in Ha, Hb.
      unfold month_index in *. lia. }
    destruct (month_index_inj a b Ha Hb Heq) as (Hy & Hm).
    destruct (month_index_inj a' b' Ha' Hb') as (Hy' & Hm'); [lia |].
    apply date_leb_spec in Hle. apply date_leb_spec.
    rewrite Hda, Hdb, Hy', Hm'. lia.
Qed.

(** C9: month-end normalisation is idempotent: for every calendar date [D],
    replacing the day by the last day of [D]'s month gives a date [N] that
    the same normalisation leaves unchanged; [parse_last_date] returns this
    [N] for a string that reads as [D]. *)
Theorem resolve_idempotent (D : date) :
  valid_date D = true ->
  exists N,
    get_last_day_of_month D = Ok N /\ get_last_day_of_month N = Ok N /\
    (forall to_datetime s,
       to_datetime s DMY_slash = Ok D -> parse_last_date to_datetime s = Ok N).
Proof.
  intros Hv.
  exists (mkdate (year D) (month D) (days_in_month (year D) (month D))).
  split; [now apply get_last_day_of_month_spec |].
  split.
  - rewrite get_last_day_of_month_spec by now apply last_day_valid.
    reflexivity.
  - intros to_datetime s Hs. unfold parse_last_date. rewrite Hs.
    cbn [rbind]. now apply get_last_day_of_month_spec.
Qed.

Lemma resolve_idempotent_witness :
  valid_date (mkdate 2024 2 10) = true /\
  exists N,
    get_last_day_of_month (mkdate 2024 2 10) = Ok N /\
    get_last_day_of_month N = Ok N /\
    (forall to_datetime s,
       to_datetime s DMY_slash = Ok (mkdate 2024 2 10) ->
       parse_last_date to_datetime s = Ok N).
Proof.
  split; [reflexivity |].
  apply (resolve_idempotent (mkdate 2024 2 10)). reflexivity.
Defined.

(** The date [parse_last_date] returns is a month end. *)
Lemma parse_last_date_month_end
    (to_datetime : string -> date_format -> result date)
    (s : string) (N : date) :
  parse_last_date to_datetime s = Ok N ->
  valid_date N = true /\
  N = mkdate (year N) (month N) (days_in_month (year N) (month N)).
Proof.
  unfold parse_last_date. intros H.
  destruct (match to_datetime s DMY_slash with
            | Raise ValueError => to_datetime s YMD_slash
            | r => r
            end) as [d |]; [| discriminate].
  cbn [rbind] in H.
  unfold monthrange in H.
  destruct ((1 <=? month d) && (month d <=? 12)) eqn:Hm; [| discriminate].
  cbn [rbind] in H. unfold replace_day, date_new in H.
  destruct (valid_date _) eqn:Hv in H; [| discriminate].
  injection H as <-. split; [exact Hv | reflexivity].
Qed.

(** So normalising it again changes nothing. *)
Lemma parse_last_date_normalised
    (to_datetime : string -> date_format -> result date)
    (s : string) (N : date) :
  parse_last_date to_datetime s = Ok N -> get_last_day_of_month N = Ok N.
Proof.
  intros H. destruct (parse_last_date_month_end _ _ _ H) as (Hv & HN).
  rewrite get_last_day_of_month_spec by exact Hv. now rewrite <- HN.
Qed.

(** A preparation date: the month end of [D], moved back [k] months. *)
Lemma month_end_minus_months (D : date) (k : Z) :
  valid_date D = true -> MINYEAR < year D -> 1 <= k <= 11 ->
  exists N R,
    get_last_day_of_month D = Ok N /\ valid_date N = true /\
    N = mkdate (year D) (month D) (days_in_month (year D) (month D)) /\
    sub_months N k = Ok R /\ valid_date R = true /\
    month_index R = month_index N - k /\
    day R = Z.min (days_in_month (year R) (month R)) (day N).
Proof.
  intros Hv Hy Hk.
  set (N := mkdate (year D) (month D) (days_in_month (year D) (month D))).
  assert (HN : valid_date N = true) by now apply last_day_valid.
  destruct (add_months_total N (- k)) as (R & HR & HvR & Hi & Hd);
    [exact HN | lia | |].
  { apply valid_date_spec in Hv. unfold month_index, N, MINYEAR, MAXYEAR in *.
    cbn [year month]. lia. }
  exists N, R. repeat split; try assumption.
  now apply get_last_day_of_month_spec.
Qed.

(** C3 (amended): for every date [D] after year 1, with [N] the last day of
    [D]'s month, the resiliation, consumption-stop and client preparation
    dates are [N] moved back 1, 7 and 9 months, the day of [N] being clamped
    to the length of the month reached; for [D] = 2023-11-15 this gives
    [N] = 2023-11-30, resiliation as-of 2023-10-30 and client as-of
    2023-02-28. *)
Theorem preparation_dates (D : date) :
  valid_date D = true -> MINYEAR < year D ->
  exists N R A C,
    get_last_day_of_month D = Ok N /\
    get_resiliation_preparation_date D = Ok R /\
    get_arret_preparation_date D = Ok A /\
    get_client_preparation_date D = Ok C /\
    (month_index R = month_index N - 1 /\
     day R = Z.min (days_in_month (year R) (month R)) (day N)) /\
    (month_index A = month_index N - 7 /\
     day A = Z.min (days_in_month (year A) (month A)) (day N)) /\
    (month_index C = month_index N - 9 /\
     day C = Z.min (days_in_month (year C) (month C)) (day N)) /\
    (D = mkdate 2023 11 15 ->
     N = mkdate 2023 11 30 /\ R = mkdate 2023 10 30 /\ C = mkdate 2023 2 28).
Proof.
  intros Hv Hy.
  destruct (month_end_minus_months D 1 Hv Hy) as (N & R & HN & _ & HNeq & HR & _ & HRi & HRd);
    [lia |].
  destruct (month_end_minus_months D 7 Hv Hy) as (N7 & A & HN7 & _ & _ & HA & _ & HAi & HAd);
    [lia |].
  destruct (month_end_minus_months D 9 Hv Hy) as (N9 & C & HN9 & _ & _ & HC & _ & HCi & HCd);
    [lia |].
  assert (N7 = N) by congruence. assert (N9 = N) by congruence. subst N7 N9.
  exists N, R, A, C.
  unfold get_resiliation_preparation_date, get_arret_preparation_date,
    get_client_preparation_date.
  rewrite HN. cbn [rbind].
  repeat split; try assumption.
  - subst D. cbn in HN. congruence.
  - subst D. cbn in HN. injection HN as <-. cbn in HR. congruence.
  - subst D. cbn in HN. injection HN as <-. cbn in HC. congruence.
Qed.

Lemma preparation_dates_witness :
  valid_date (mkdate 2023 11 15) = true /\ MINYEAR < year (mkdate 2023 11 15) /\
  exists N R A C,
    get_last_day_of_month (mkdate 2023 11 15) = Ok N /\
    get_resiliation_preparation_date (mkdate 2023 11 15) = Ok R /\
    get_arret_preparation_date (mkdate 2023 11 15) = Ok A /\
    get_client_preparation_date (mkdate 2023 11 15) = Ok C /\
    (month_index R = month_index N - 1 /\
     day R = Z.min (days_in_month (year R) (month R)) (day N)) /\
    (month_index A = month_index N - 7 /\
     day A = Z.min (days_in_month (year A) (month A)) (day N)) /\
    (month_index C = month_index N - 9 /\
     day C = Z.min (days_in_month (year C) (month C)) (day N)) /\
    (mkdate 2023 11 15 = mkdate 2023 11 15 ->
     N = mkdate 2023 11 30 /\ R = mkdate 2023 10 30 /\ C = mkdate 2023 2 28).
Proof.
  split; [reflexivity |]. split; [reflexivity |].
  apply (preparation_dates (mkdate 2023 11 15)); reflexivity.
Defined.

(** C3 as stated fails on its own example: from 2023-11-15 the resiliation
    preparation date is not 2023-10-31. *)
Lemma resiliation_date_not_month_end :
  get_resiliation_preparation_date (mkdate 2023 11 15) <> Ok (mkdate 2023 10 31).
Proof. cbn. discriminate. Qed.

(** C4 (amended): for every last-known date [D], normalised to its month end
    [N], the start of the prediction window is the first day of [D]'s own
    month; it is not later than [D]. *)
Theorem prediction_start_is_first_of_same_month (D : date) :
  valid_date D = true ->
  exists N S,
    get_last_day_of_month D = Ok N /\
    get_prediction_start_date N = Ok S /\
    S = mkdate (year D) (month D) 1 /\
    date_leb S D = true.
Proof.
  intros Hv.
  exists (mkdate (year D) (month D) (days_in_month (year D) (month D))),
         (mkdate (year D) (month D) 1).
  split; [now apply get_last_day_of_month_spec |].
  pose proof Hv as Hv'. apply valid_date_spec in Hv'.
  destruct Hv' as (Hy & Hm & Hd).
  pose proof (days_in_month_range (year D) (month D) Hm) as Hr.
  split.
  - unfold get_prediction_start_date, replace_day. cbn [year month].
    apply date_new_valid. apply valid_date_spec. cbn [year month day]. lia.
  - split; [reflexivity |].
    apply date_leb_spec. cbn [year month day]. lia.
Qed.

Lemma prediction_start_is_first_of_same_month_witness :
  valid_date (mkdate 2023 11 15) = true /\
  exists N S,
    get_last_day_of_month (mkdate 2023 11 15) = Ok N /\
    get_prediction_start_date N = Ok S /\
    S = mkdate (year (mkdate 2023 11 15)) (month (mkdate 2023 11 15)) 1 /\
    date_leb S (mkdate 2023 11 15) = true.
Proof.
  split; [reflexivity |].
  apply (prediction_start_is_first_of_same_month (mkdate 2023 11 15)).
  reflexivity.
Defined.

(** C4 as stated fails: from 2023-11-15 the prediction start is not a date
    later than the last-known date, let alone the first of the next month. *)
Lemma prediction_start_not_forward :
  ~ (exists N S,
       get_last_day_of_month (mkdate 2023 11 15) = Ok N /\
       get_prediction_start_date N = Ok S /\
       date_ltb (mkdate 2023 11 15) S = true).
Proof.
  intros (N & S & HN & HS & Hlt).
  cbn in HN. injection HN as <-. cbn in HS. injection HS as <-.
  cbn in Hlt. discriminate.
Qed.

End CalendarFacts.

(** ** Scenario windows and dataset partition *)

Module PipelineFacts.

Import Calendar CalendarFacts Pipeline.

Section Runs.

Variable row : Type.

Local Open Scope prep_scope.

Lemma bind_ok {A B : Type} (tr : list (event row)) (a : A) (f : A -> M row B) :
  bind (tr, Ok a) f = (tr ++ trace (f a), outcome (f a)).
Proof. unfold bind, trace, outcome. now destruct (f a). Qed.

Lemma bind_raise {A B : Type} (tr : list (event row)) (e : exn)
    (f : A -> M row B) :
  bind (tr, Raise e) f = (tr, Raise e).
Proof. reflexivity. Qed.

Lemma queries_app (tr tr' : list (event row)) :
  queries (tr ++ tr') = queries tr ++ queries tr'.
Proof.
  induction tr as [| ev tr IH]; [reflexivity |].
  destruct ev; cbn; now rewrite IH.
Qed.

Lemma invocations_app (tr tr' : list (event row)) :
  invocations (tr ++ tr') = invocations tr ++ invocations tr'.
Proof.
  induction tr as [| ev tr IH]; [reflexivity |].
  destruct ev; cbn; now rewrite IH.
Qed.

Lemma leaves_bind {A B : Type} (m : M row A) (f : A -> M row B)
    qs calls a qs' calls' r :
  leaves m qs calls (Ok a) -> leaves (f a) qs' calls' r ->
  leaves (bind m f) (qs ++ qs') (calls ++ calls') r.
Proof.
  destruct m as [tr o]. unfold leaves. cbn [trace outcome fst snd].
  intros (Hq & Hc & Ho) (Hq' & Hc' & Hr). subst o.
  rewrite bind_ok. cbn [trace outcome fst snd].
  now rewrite queries_app, invocations_app, Hq, Hc, Hq', Hc'.
Qed.

Lemma leaves_bind_eq {A B : Type} (m : M row A) (f : A -> M row B)
    qs calls a qs' calls' r qs'' calls'' :
  leaves m qs calls (Ok a) -> leaves (f a) qs' calls' r ->
  qs'' = qs ++ qs' -> calls'' = calls ++ calls' ->
  leaves (bind m f) qs'' calls'' r.
Proof. intros Hm Hf -> ->. now apply (leaves_bind m f qs calls a). Qed.

Lemma leaves_bind_raise {A B : Type} (m : M row A) (f : A -> M row B)
    qs calls e :
  leaves m qs calls (Raise e) -> leaves (bind m f) qs calls (Raise e).
Proof.
  destruct m as [tr o]. unfold leaves. cbn [trace outcome fst snd].
  intros (Hq & Hc & Ho). subst o. now rewrite bind_raise.
Qed.

Lemma leaves_log {B : Type} lvl msg (k : M row B) qs calls r :
  leaves k qs calls r -> leaves (emit (Log lvl msg) ;;; k) qs calls r.
Proof.
  intros H. apply (leaves_bind _ _ [] [] tt qs calls r); [| exact H].
  repeat split.
Qed.

Lemma leaves_lift {A B : Type} (c : result A) (a : A) (f : A -> M row B)
    qs calls r :
  c = Ok a -> leaves (f a) qs calls r -> leaves (x <- lift c ;; f x) qs calls r.
Proof.
  intros -> H. apply (leaves_bind _ _ [] [] a qs calls r); [| exact H].
  repeat split.
Qed.

Lemma leaves_ret {A : Type} (a : A) : leaves (ret a : M row A) [] [] (Ok a).
Proof. repeat split. Qed.

Lemma leaves_pickle {B : Type} path df (k : M row B) qs calls r :
  leaves k qs calls r -> leaves (emit (ToPickle path df) ;;; k) qs calls r.
Proof.
  intros H. apply (leaves_bind _ _ [] [] tt qs calls r); [| exact H].
  repeat split.
Qed.

Lemma leaves_fetch {B : Type} q (k : M row B) qs calls r :
  leaves k qs calls r -> leaves (emit (Fetch q) ;;; k) (q :: qs) calls r.
Proof.
  intros H. apply (leaves_bind _ _ [q] [] tt qs calls r); [| exact H].
  repeat split.
Qed.

Lemma prepare_resiliation_data_leaves (p : Processor row)
    (start_date end_date : date) (months_offset scenario : Z) (s e : date) :
  add_months start_date months_offset = Ok s ->
  add_months end_date months_offset = Ok e ->
  leaves (prepare_resiliation_data row p start_date end_date months_offset scenario)
         [ResiliationQuery s e scenario] []
         (Ok (get_resiliation_data p s e scenario)).
Proof.
  intros Hs He. unfold prepare_resiliation_data.
  apply leaves_log. apply (leaves_lift _ s); [exact Hs |].
  apply (leaves_lift _ e); [exact He |].
  apply leaves_fetch.
  destruct (empty (get_resiliation_data p s e scenario)); repeat split.
Qed.

Lemma prepare_all_resiliations_leaves (p : Processor row)
    (start_date end_date s e : date) :
  add_months start_date 6 = Ok s ->
  add_months end_date 6 = Ok e ->
  leaves (prepare_all_resiliations row p start_date end_date)
         [ResiliationQuery s e 0; ResiliationQuery s e 1; ResiliationQuery s e 2]
         []
         (Ok (concat [get_resiliation_data p s e 0;
                      get_resiliation_data p s e 1;
                      get_resiliation_data p s e 2])).
Proof.
  intros Hs He. unfold prepare_all_resiliations.
  eapply (leaves_bind _ _ [_] [] _ [_; _] []);
    [now apply prepare_resiliation_data_leaves |].
  eapply (leaves_bind _ _ [_] [] _ [_] []);
    [now apply prepare_resiliation_data_leaves |].
  eapply (leaves_bind _ _ [_] [] _ [] []);
    [now apply prepare_resiliation_data_leaves |].
  repeat split.
Qed.

Lemma prepare_arret_conso_leaves (p : Processor row) (s e l : date) :
  leaves (prepare_arret_conso row p [s; e; l])
         [ArretConsoQuery s e l] [] (Ok (get_arret_conso_data p s e l)).
Proof.
  unfold prepare_arret_conso. apply leaves_log. apply leaves_fetch.
  destruct (empty (get_arret_conso_data p s e l)); repeat split.
Qed.

Lemma prepare_clients_leaves (p : Processor row) (s e l : date) :
  leaves (prepare_clients row p [s; e; l])
         [ClientQuery s e l] [] (Ok (get_client_data p s e l)).
Proof.
  unfold prepare_clients. apply leaves_log. apply leaves_fetch.
  destruct (empty (get_client_data p s e l)); repeat split.
Qed.

(** The month offsets the preparers apply stay representable for dates
    before the last year. *)
Lemma add_six_months (d : date) :
  valid_date d = true -> month_index d + 6 < 12 * (MAXYEAR + 1) ->
  exists r,
    add_months d 6 = Ok r /\ valid_date r = true /\
    month_index r = month_index d + 6 /\
    day r = Z.min (days_in_month (year r) (month r)) (day d).
Proof.
  intros Hv Hb. apply add_months_total; [exact Hv | lia |].
  apply valid_date_spec in Hv. unfold month_index, MINYEAR in *. lia.
Qed.

Lemma month_index_bound (d : date) :
  valid_date d = true -> year d < MAXYEAR ->
  month_index d + 7 < 12 * (MAXYEAR + 1).
Proof.
  intros Hv Hy. apply valid_date_spec in Hv. unfold month_index, MAXYEAR in *.
  lia.
Qed.

(** C1 (amended): for every pair of dates before the last representable
    year, [prepare_all_resiliations] issues exactly three retrievals, for
    scenarios 0, 1 and 2 in this order, all over the same window: both bounds
    of [global_start, as_of] moved forward by the 6-month base offset.  The
    scenario index does not move the window. *)
Theorem resiliation_windows_share_base_offset (p : Processor row)
    (global_start as_of : date) :
  valid_date global_start = true -> valid_date as_of = true ->
  year global_start < MAXYEAR -> year as_of < MAXYEAR ->
  exists s e,
    add_months global_start 6 = Ok s /\ add_months as_of 6 = Ok e /\
    month_index s = month_index global_start + 6 /\
    month_index e = month_index as_of + 6 /\
    queries (trace (prepare_all_resiliations row p global_start as_of)) =
      [ResiliationQuery s e 0; ResiliationQuery s e 1; ResiliationQuery s e 2] /\
    outcome (prepare_all_resiliations row p global_start as_of) =
      Ok (concat [get_resiliation_data p s e 0;
                  get_resiliation_data p s e 1;
                  get_resiliation_data p s e 2]).
Proof.
  intros Hvs Hve Hys Hye.
  destruct (add_six_months global_start Hvs) as (s & Hs & _ & His & _).
  { pose proof (month_index_bound _ Hvs Hys). lia. }
  destruct (add_six_months as_of Hve) as (e & He & _ & Hie & _).
  { pose proof (month_index_bound _ Hve Hye). lia. }
  exists s, e.
  destruct (prepare_all_resiliations_leaves p _ _ _ _ Hs He) as (Hq & _ & Ho).
  repeat split; assumption.
Qed.

(** C6 (amended): the preparers do not validate their window.  Whatever the
    order of the bounds, [prepare_resiliation_data] issues exactly one
    retrieval over the two bounds moved by the month offset,
    [prepare_arret_conso] and [prepare_clients] issue exactly one retrieval
    over the bounds as given, and each returns what the processor returned. *)
Theorem preparers_forward_any_window (p : Processor row)
    (start_date end_date last_date : date) (months_offset scenario : Z)
    (s e : date) :
  add_months start_date months_offset = Ok s ->
  add_months end_date months_offset = Ok e ->
  (queries (trace (prepare_resiliation_data row p start_date end_date
                     months_offset scenario)) =
     [ResiliationQuery s e scenario] /\
   outcome (prepare_resiliation_data row p start_date end_date
              months_offset scenario) =
     Ok (get_resiliation_data p s e scenario)) /\
  (queries (trace (prepare_arret_conso row p [start_date; end_date; last_date])) =
     [ArretConsoQuery start_date end_date last_date] /\
   outcome (prepare_arret_conso row p [start_date; end_date; last_date]) =
     Ok (get_arret_conso_data p start_date end_date last_date)) /\
  (queries (trace (prepare_clients row p [start_date; end_date; last_date])) =
     [ClientQuery start_date end_date last_date] /\
   outcome (prepare_clients row p [start_date; end_date; last_date]) =
     Ok (get_client_data p start_date end_date last_date)).
Proof.
  intros Hs He.
  destruct (prepare_resiliation_data_leaves p _ _ _ scenario _ _ Hs He)
    as (Hq & _ & Ho).
  destruct (prepare_arret_conso_leaves p start_date end_date last_date)
    as (Hqa & _ & Hoa).
  destruct (prepare_clients_leaves p start_date end_date last_date)
    as (Hqc & _ & Hoc).
  repeat split; assumption.
Qed.

Lemma spy_leaves (callee : string) (args : list date) :
  leaves (spy row callee args) [] [(callee, args)] (Ok []).
Proof. repeat split. Qed.

Lemma prepare_test_data_leaves (p : Processor row)
    (date_res last_date start s e : date)
    (arret_conso_preparer clients_preparer : bound_method row)
    qs calls qs' calls' (a c : DataFrame row) :
  add_one_day date_res = Ok start ->
  add_months start 6 = Ok s -> add_months last_date 6 = Ok e ->
  leaves (arret_conso_preparer [start; last_date]) qs calls (Ok a) ->
  leaves (clients_preparer [start; last_date]) qs' calls' (Ok c) ->
  leaves (prepare_test_data row p date_res last_date
            arret_conso_preparer clients_preparer)
         ([ResiliationQuery s e 0; ResiliationQuery s e 1; ResiliationQuery s e 2]
            ++ qs ++ qs')
         (calls ++ calls')
         (Ok (concat [concat [get_resiliation_data p s e 0;
                              get_resiliation_data p s e 1;
                              get_resiliation_data p s e 2]; a; c])).
Proof.
  intros Hstart Hs He Ha Hc. unfold prepare_test_data.
  apply leaves_log. apply (leaves_lift _ start); [exact Hstart |].
  eapply (leaves_bind _ _ [_; _; _] [] _ (qs ++ qs') (calls ++ calls'));
    [now apply prepare_all_resiliations_leaves |].
  apply leaves_log. apply (leaves_lift _ start); [exact Hstart |].
  eapply (leaves_bind _ _ qs calls _ qs' calls'); [exact Ha |].
  apply leaves_log. apply (leaves_lift _ start); [exact Hstart |].
  eapply (leaves_bind_eq _ _ qs' calls' _ [] []);
    [exact Hc | | now rewrite app_nil_r | now rewrite app_nil_r].
  repeat split.
Qed.

(** With the two preparers of the repository, which take three arguments,
    the call with two stops the test stage after the resiliation part. *)
Lemma prepare_test_data_arity (p : Processor row)
    (date_res last_date start s e : date) :
  add_one_day date_res = Ok start ->
  add_months start 6 = Ok s -> add_months last_date 6 = Ok e ->
  leaves (prepare_test_data row p date_res last_date
            (prepare_arret_conso row p) (prepare_clients row p))
         [ResiliationQuery s e 0; ResiliationQuery s e 1; ResiliationQuery s e 2]
         [] (Raise TypeError).
Proof.
  intros Hstart Hs He. unfold prepare_test_data.
  apply leaves_log. apply (leaves_lift _ start); [exact Hstart |].
  eapply (leaves_bind _ _ [_; _; _] [] _ [] []);
    [now apply prepare_all_resiliations_leaves |].
  apply leaves_log. apply (leaves_lift _ start); [exact Hstart |].
  repeat split.
Qed.

(** C2 (amended): the test stage receives the resiliation as-of date only.
    It asks for the three resiliation scenarios over the window from that
    date plus one day to the last known date, both moved by the 6-month
    base offset, and calls the consumption-stop and the client preparer it
    was given, whatever they are, with the same start, the resiliation as-of
    date plus one day, and the last known date.  When those two calls
    return, the run has issued the three resiliation retrievals, then what
    the consumption-stop preparer issued, then what the client preparer
    issued, and its result is the resiliation frames, the consumption-stop
    frame and the client frame concatenated in that order. *)
Theorem test_windows_start_after_resiliation_date (p : Processor row)
    (date_res last_date : date)
    (arret_conso_preparer clients_preparer : bound_method row) :
  valid_date date_res = true -> valid_date last_date = true ->
  year date_res < MAXYEAR -> year last_date < MAXYEAR ->
  exists start s e,
    add_one_day date_res = Ok start /\
    add_months start 6 = Ok s /\ add_months last_date 6 = Ok e /\
    forall test_arret_conso test_clients : DataFrame row,
      outcome (arret_conso_preparer [start; last_date]) = Ok test_arret_conso ->
      outcome (clients_preparer [start; last_date]) = Ok test_clients ->
      queries (trace (prepare_test_data row p date_res last_date
                        arret_conso_preparer clients_preparer)) =
        [ResiliationQuery s e 0; ResiliationQuery s e 1; ResiliationQuery s e 2]
          ++ queries (trace (arret_conso_preparer [start; last_date]))
          ++ queries (trace (clients_preparer [start; last_date])) /\
      invocations (trace (prepare_test_data row p date_res last_date
                            arret_conso_preparer clients_preparer)) =
        invocations (trace (arret_conso_preparer [start; last_date]))
          ++ invocations (trace (clients_preparer [start; last_date])) /\
      outcome (prepare_test_data row p date_res last_date
                 arret_conso_preparer clients_preparer) =
        Ok (concat [concat [get_resiliation_data p s e 0;
                            get_resiliation_data p s e 1;
                            get_resiliation_data p s e 2];
                    test_arret_conso; test_clients]).
Proof.
  intros Hvr Hvl Hyr Hyl.
  destruct (add_one_day_total date_res Hvr Hyr) as (start & Hstart & Hvs & Hcase).
  destruct (add_six_months start Hvs) as (s & Hs & _).
  { pose proof (month_index_bound _ Hvr Hyr). lia. }
  destruct (add_six_months last_date Hvl) as (e & He & _).
  { pose proof (month_index_bound _ Hvl Hyl). lia. }
  exists start, s, e. repeat (split; [assumption |]).
  intros test_arret_conso test_clients Ha Hc.
  apply (prepare_test_data_leaves p date_res last_date start s e
           arret_conso_preparer clients_preparer _ _ _ _
           test_arret_conso test_clients Hstart Hs He).
  - repeat split. exact Ha.
  - repeat split. exact Hc.
Qed.

(** A whole run of [prepare_data]: the training retrievals, then the test
    resiliation retrievals, where the run stops. *)
Lemma prepare_data_leaves
    (to_datetime : string -> date_format -> result date)
    (p : Processor row) (start_date L R A C T s6 r6 t6 l6 : date)
    (prediction_preparer : date -> M row (DataFrame row)) :
  parse_last_date to_datetime (last_date p) = Ok L ->
  get_resiliation_preparation_date L = Ok R ->
  get_arret_preparation_date L = Ok A ->
  get_client_preparation_date L = Ok C ->
  add_one_day R = Ok T ->
  add_months start_date 6 = Ok s6 -> add_months R 6 = Ok r6 ->
  add_months T 6 = Ok t6 -> add_months L 6 = Ok l6 ->
  leaves (prepare_data row to_datetime p start_date prediction_preparer)
    [ResiliationQuery s6 r6 0; ResiliationQuery s6 r6 1;
     ResiliationQuery s6 r6 2;
     ArretConsoQuery start_date A L;
     ClientQuery start_date C L;
     ResiliationQuery t6 l6 0; ResiliationQuery t6 l6 1;
     ResiliationQuery t6 l6 2]
    [] (Raise TypeError).
Proof.
  intros Hparse HRes HArr HCli HT Hs6 Hr6 Ht6 Hl6.
  unfold prepare_data.
  apply (leaves_lift _ L); [exact Hparse |]. apply leaves_log.
  apply (leaves_lift _ R); [exact HRes |].
  eapply (leaves_bind_eq _ _ [_; _; _] [] _ [_; _; _; _; _] []);
    [apply (prepare_all_resiliations_leaves p _ _ s6 r6); assumption
    | | reflexivity | reflexivity].
  apply leaves_log. apply (leaves_lift _ A); [exact HArr |].
  eapply (leaves_bind_eq _ _ [_] [] _ [_; _; _; _] []);
    [apply prepare_arret_conso_leaves | | reflexivity | reflexivity].
  apply leaves_log. apply (leaves_lift _ C); [exact HCli |].
  eapply (leaves_bind_eq _ _ [_] [] _ [_; _; _] []);
    [apply prepare_clients_leaves | | reflexivity | reflexivity].
  apply leaves_pickle. apply leaves_log.
  apply leaves_bind_raise.
  now apply (prepare_test_data_arity p R L T t6 l6).
Qed.


End Runs.

Lemma resiliation_windows_share_base_offset_witness :
  valid_date (mkdate 2017 1 1) = true /\ valid_date (mkdate 2023 10 31) = true /\
  year (mkdate 2017 1 1) < MAXYEAR /\ year (mkdate 2023 10 31) < MAXYEAR /\
  exists s e,
    add_months (mkdate 2017 1 1) 6 = Ok s /\
    add_months (mkdate 2023 10 31) 6 = Ok e /\
    month_index s = month_index (mkdate 2017 1 1) + 6 /\
    month_index e = month_index (mkdate 2023 10 31) + 6 /\
    queries (trace (prepare_all_resiliations unit empty_processor
                      (mkdate 2017 1 1) (mkdate 2023 10 31))) =
      [ResiliationQuery s e 0; ResiliationQuery s e 1; ResiliationQuery s e 2] /\
    outcome (prepare_all_resiliations unit empty_processor
               (mkdate 2017 1 1) (mkdate 2023 10 31)) =
      Ok (concat [get_resiliation_data empty_processor s e 0;
                  get_resiliation_data empty_processor s e 1;
                  get_resiliation_data empty_processor s e 2]).
Proof.
  repeat (split; [reflexivity |]).
  apply (resiliation_windows_share_base_offset unit empty_processor
           (mkdate 2017 1 1) (mkdate 2023 10 31)); reflexivity.
Defined.

(** C1 as stated fails: from 2017-01-01 and 2023-10-31 the three windows do
    not have increasing start dates. *)
Lemma resiliation_windows_not_one_month_apart :
  ~ (exists w0 w1 w2,
       map window_of
         (queries (trace (prepare_all_resiliations unit empty_processor
                            (mkdate 2017 1 1) (mkdate 2023 10 31)))) =
         [w0; w1; w2] /\
       date_ltb (fst w0) (fst w1) = true /\
       date_ltb (fst w1) (fst w2) = true).
Proof.
  intros (w0 & w1 & w2 & H & H01 & _).
  cbn in H. injection H as <- <- <-. cbn in H01. discriminate.
Qed.

Lemma preparers_forward_any_window_witness :
  add_months (mkdate 2024 1 1) 6 = Ok (mkdate 2024 7 1) /\
  add_months (mkdate 2023 1 1) 6 = Ok (mkdate 2023 7 1) /\
  (queries (trace (prepare_resiliation_data unit empty_processor
                     (mkdate 2024 1 1) (mkdate 2023 1 1) 6 0)) =
     [ResiliationQuery (mkdate 2024 7 1) (mkdate 2023 7 1) 0] /\
   outcome (prepare_resiliation_data unit empty_processor
              (mkdate 2024 1 1) (mkdate 2023 1 1) 6 0) =
     Ok (get_resiliation_data empty_processor (mkdate 2024 7 1) (mkdate 2023 7 1) 0)) /\
  (queries (trace (prepare_arret_conso unit empty_processor
                     [mkdate 2024 1 1; mkdate 2023 1 1; mkdate 2023 11 30])) =
     [ArretConsoQuery (mkdate 2024 1 1) (mkdate 2023 1 1) (mkdate 2023 11 30)] /\
   outcome (prepare_arret_conso unit empty_processor
              [mkdate 2024 1 1; mkdate 2023 1 1; mkdate 2023 11 30]) =
     Ok (get_arret_conso_data empty_processor
           (mkdate 2024 1 1) (mkdate 2023 1 1) (mkdate 2023 11 30))) /\
  (queries (trace (prepare_clients unit empty_processor
                     [mkdate 2024 1 1; mkdate 2023 1 1; mkdate 2023 11 30])) =
     [ClientQuery (mkdate 2024 1 1) (mkdate 2023 1 1) (mkdate 2023 11 30)] /\
   outcome (prepare_clients unit empty_processor
              [mkdate 2024 1 1; mkdate 2023 1 1; mkdate 2023 11 30]) =
     Ok (get_client_data empty_processor
           (mkdate 2024 1 1) (mkdate 2023 1 1) (mkdate 2023 11 30))).
Proof.
  split; [reflexivity |]. split; [reflexivity |].
  apply (preparers_forward_any_window unit empty_processor
           (mkdate 2024 1 1) (mkdate 2023 1 1) (mkdate 2023 11 30) 6 0);
    reflexivity.
Defined.

(** C6 as stated fails: asked for a window whose end precedes its start, the
    preparers issue the retrieval over the inverted range and return
    normally. *)
Lemma inverted_window_is_queried :
  queries (trace (prepare_resiliation_data unit empty_processor
                    (mkdate 2024 1 1) (mkdate 2023 1 1) 6 0)) =
    [ResiliationQuery (mkdate 2024 7 1) (mkdate 2023 7 1) 0] /\
  outcome (prepare_resiliation_data unit empty_processor
             (mkdate 2024 1 1) (mkdate 2023 1 1) 6 0) = Ok [] /\
  queries (trace (prepare_arret_conso unit empty_processor
                    [mkdate 2024 1 1; mkdate 2023 1 1; mkdate 2023 11 30])) =
    [ArretConsoQuery (mkdate 2024 1 1) (mkdate 2023 1 1) (mkdate 2023 11 30)] /\
  outcome (prepare_arret_conso unit empty_processor
             [mkdate 2024 1 1; mkdate 2023 1 1; mkdate 2023 11 30]) = Ok [] /\
  date_ltb (mkdate 2023 7 1) (mkdate 2024 7 1) = true /\
  date_ltb (mkdate 2023 1 1) (mkdate 2024 1 1) = true.
Proof. repeat split. Qed.

Lemma test_windows_start_after_resiliation_date_witness :
  valid_date (mkdate 2023 10 30) = true /\ valid_date (mkdate 2023 11 30) = true /\
  year (mkdate 2023 10 30) < MAXYEAR /\ year (mkdate 2023 11 30) < MAXYEAR /\
  queries (trace (prepare_test_data Z numbered_processor
                    (mkdate 2023 10 30) (mkdate 2023 11 30)
                    (returning Z "prepare_arret_conso" [10])
                    (returning Z "prepare_clients" [20]))) =
    [ResiliationQuery (mkdate 2024 4 30) (mkdate 2024 5 30) 0;
     ResiliationQuery (mkdate 2024 4 30) (mkdate 2024 5 30) 1;
     ResiliationQuery (mkdate 2024 4 30) (mkdate 2024 5 30) 2] /\
  invocations (trace (prepare_test_data Z numbered_processor
                        (mkdate 2023 10 30) (mkdate 2023 11 30)
                        (returning Z "prepare_arret_conso" [10])
                        (returning Z "prepare_clients" [20]))) =
    [("prepare_arret_conso"%string, [mkdate 2023 10 31; mkdate 2023 11 30]);
     ("prepare_clients"%string, [mkdate 2023 10 31; mkdate 2023 11 30])] /\
  outcome (prepare_test_data Z numbered_processor
             (mkdate 2023 10 30) (mkdate 2023 11 30)
             (returning Z "prepare_arret_conso" [10])
             (returning Z "prepare_clients" [20])) =
    Ok [0; 1; 2; 10; 20].
Proof.
  do 4 (split; [reflexivity |]).
  destruct (test_windows_start_after_resiliation_date Z numbered_processor
              (mkdate 2023 10 30) (mkdate 2023 11 30)
              (returning Z "prepare_arret_conso" [10])
              (returning Z "prepare_clients" [20])
              eq_refl eq_refl eq_refl eq_refl)
    as (start & s & e & Hstart & Hs & He & Hrun).
  injection Hstart as <-. injection Hs as <-. injection He as <-.
  exact (Hrun [10] [20] eq_refl eq_refl).
Defined.

(** C2 as stated fails: with 2023-11-30 as last known date the
    consumption-stop and client as-of dates are 2023-04-30 and 2023-02-28,
    yet neither preparer is called with a window starting the day after its
    own as-of date. *)
Lemma test_stage_ignores_category_dates :
  get_resiliation_preparation_date (mkdate 2023 11 30) = Ok (mkdate 2023 10 30) /\
  get_arret_preparation_date (mkdate 2023 11 30) = Ok (mkdate 2023 4 30) /\
  get_client_preparation_date (mkdate 2023 11 30) = Ok (mkdate 2023 2 28) /\
  add_one_day (mkdate 2023 4 30) = Ok (mkdate 2023 5 1) /\
  add_one_day (mkdate 2023 2 28) = Ok (mkdate 2023 3 1) /\
  ~ In ("prepare_arret_conso"%string, [mkdate 2023 5 1; mkdate 2023 11 30])
       (invocations (trace (prepare_test_data unit empty_processor
                              (mkdate 2023 10 30) (mkdate 2023 11 30)
                              (spy unit "prepare_arret_conso")
                              (spy unit "prepare_clients")))) /\
  ~ In ("prepare_clients"%string, [mkdate 2023 3 1; mkdate 2023 11 30])
       (invocations (trace (prepare_test_data unit empty_processor
                              (mkdate 2023 10 30) (mkdate 2023 11 30)
                              (spy unit "prepare_arret_conso")
                              (spy unit "prepare_clients")))).
Proof.
  repeat (split; [reflexivity |]).
  split; cbn; intros [H | [H | []]]; discriminate H.
Qed.



End PipelineFacts.

(** ** Feature assembly *)

Module FeaturesFacts.

Import Features.

Local Open Scope string_scope.
Local Open Scope Z_scope.
Local Open Scope result_scope.

Lemma mem_In (name : string) (names : list string) :
  mem name names = true <-> In name names.
Proof.
  unfold mem. rewrite existsb_exists. split.
  - intros (x & Hx & He). apply String.eqb_eq in He. now subst.
  - intros H. exists name. split; [exact H | apply String.eqb_refl].
Qed.

Lemma forallb_agree {A : Type} (f g : A -> bool) (l : list A) :
  (forall a, In a l -> f a = g a) -> forallb f l = forallb g l.
Proof.
  induction l as [| a l IH]; [reflexivity |].
  intros H. cbn. rewrite (H a) by now left.
  rewrite IH; [reflexivity |]. intros b Hb. apply H. now right.
Qed.

Lemma mem_filter (name : string) (q : string -> bool) (names : list string) :
  q name = true -> mem name (filter q names) = mem name names.
Proof.
  intros Hq. unfold mem. induction names as [| n names IH]; [reflexivity |].
  cbn [filter existsb]. destruct (q n) eqn:Hn; cbn [existsb].
  - now rewrite IH.
  - rewrite IH. destruct (String.eqb_spec name n); [congruence | reflexivity].
Qed.

(** Reading a cell is not disturbed by the removal of other labels. *)
Lemma cell_of_filter (name : string) (q : string -> bool) (r : record) :
  q name = true ->
  cell_of name (filter (fun kv => q (fst kv)) r) = cell_of name r.
Proof.
  intros Hq. unfold cell_of.
  induction r as [| [k c] r IH]; [reflexivity |].
  cbn. destruct (q k) eqn:Hk; cbn.
  - destruct (String.eqb k name); [reflexivity | exact IH].
  - destruct (String.eqb_spec k name); [congruence | exact IH].
Qed.

Lemma cell_of_set_cell_same (name : string) (v : cell) (r : record) :
  cell_of name (set_cell name v r) = v.
Proof.
  unfold cell_of. induction r as [| [k c] r IH]; cbn.
  - now rewrite String.eqb_refl.
  - destruct (String.eqb k name) eqn:E; cbn; rewrite E; [reflexivity | exact IH].
Qed.

Lemma cell_of_set_cell_other (name other : string) (v : cell) (r : record) :
  name <> other -> cell_of name (set_cell other v r) = cell_of name r.
Proof.
  intros Hne. unfold cell_of. induction r as [| [k c] r IH]; cbn.
  - destruct (String.eqb_spec other name); [congruence | reflexivity].
  - destruct (String.eqb_spec k other) as [-> | Hk]; cbn.
    + destruct (String.eqb_spec other name); [congruence | reflexivity].
    + destruct (String.eqb k name); [reflexivity | exact IH].
Qed.

Lemma cell_of_select (name : string) (names : list string) (r : record) :
  In name names ->
  cell_of name (map (fun n => (n, cell_of n r)) names) = cell_of name r.
Proof.
  unfold cell_of at 1. induction names as [| n names IH]; [intros [] |].
  intros [-> | Hin]; cbn.
  - now rewrite String.eqb_refl.
  - destruct (String.eqb_spec n name) as [-> | Hn]; [reflexivity | now apply IH].
Qed.

Lemma cell_of_round (name : string) (r : record) :
  cell_of name (map (fun kv => (fst kv, round_cell (snd kv))) r) =
  round_cell (cell_of name r).
Proof.
  unfold cell_of. induction r as [| [k c] r IH]; [reflexivity |].
  cbn. destruct (String.eqb k name); [reflexivity | exact IH].
Qed.

Lemma getitem_mem (name : string) (df : DataFrame) (col : list cell) :
  getitem name df = Ok col -> mem name (columns df) = true.
Proof. unfold getitem. now destruct (mem name (columns df)). Qed.

Lemma getitem_Ok (name : string) (df : DataFrame) (col : list cell) :
  getitem name df = Ok col ->
  col = map (fun ir => cell_of name (snd ir)) (rows df).
Proof.
  unfold getitem. destruct (mem name (columns df)); [| discriminate].
  now intros [= <-].
Qed.

Lemma setitem_columns (name : string) (values : list cell) (df : DataFrame) :
  mem name (columns df) = true -> columns (setitem name values df) = columns df.
Proof. intros H. unfold setitem. cbn. now rewrite H. Qed.

Lemma drop_columns (names : list string) (df d : DataFrame) :
  drop names df = Ok d ->
  columns d = filter (fun c => negb (mem c names)) (columns df).
Proof.
  unfold drop. destruct (forallb _ names); [| discriminate].
  now intros [= <-].
Qed.

Lemma fillna_columns (name : string) (v : cell) (df d : DataFrame) :
  fillna name v df = Ok d -> columns d = columns df.
Proof.
  unfold fillna. destruct (getitem name df) as [col |] eqn:E; [| discriminate].
  cbn [rbind]. intros [= <-]. apply setitem_columns.
  now apply getitem_mem in E.
Qed.

Lemma mem_filter_true (name : string) (q : string -> bool) (names : list string) :
  mem name (filter q names) = true -> q name = true.
Proof. intros H. apply mem_In in H. now apply filter_In in H. Qed.

Lemma mapM_length {A B : Type} (f : A -> result B) (l : list A) (l' : list B) :
  mapM f l = Ok l' -> List.length l' = List.length l.
Proof.
  revert l'. induction l as [| a l IH]; intros l'; cbn.
  - now intros [= <-].
  - destruct (f a); [| discriminate]. cbn [rbind].
    destruct (mapM f l) as [bs |]; [| discriminate]. cbn [rbind].
    intros [= <-]. cbn. now rewrite (IH bs).
Qed.

Lemma zipM_length {A B C : Type} (f : A -> B -> result C)
    (l : list A) (l' : list B) (r : list C) :
  List.length l = List.length l' ->
  zipM f l l' = Ok r -> List.length r = List.length l.
Proof.
  revert l' r. induction l as [| a l IH]; intros [| b l'] r Hlen; cbn;
    try discriminate.
  - now intros [= <-].
  - destruct (f a b); [| discriminate]. cbn [rbind].
    destruct (zipM f l l') as [cs |] eqn:E; [| discriminate]. cbn [rbind].
    intros [= <-]. cbn. rewrite (IH l' cs); [reflexivity | | exact E].
    now injection Hlen.
Qed.

Lemma map_fst_combine {A B : Type} (l : list A) (l' : list B) :
  List.length l = List.length l' -> map fst (combine l l') = l.
Proof.
  revert l'. induction l as [| a l IH]; intros [| b l'] Hlen; cbn;
    try discriminate; [reflexivity |].
  rewrite IH; [reflexivity | now injection Hlen].
Qed.

Lemma map_snd_combine {A B : Type} (l : list A) (l' : list B) :
  List.length l = List.length l' -> map snd (combine l l') = l'.
Proof.
  revert l'. induction l as [| a l IH]; intros [| b l'] Hlen; cbn;
    try discriminate; [reflexivity |].
  rewrite IH; [reflexivity | now injection Hlen].
Qed.

Lemma filter_fusion {A : Type} (p q : A -> bool) (l : list A) :
  filter q (filter p l) = filter (fun a => p a && q a) l.
Proof.
  induction l as [| a l IH]; [reflexivity |].
  cbn. destruct (p a); cbn; [destruct (q a) |]; now rewrite IH.
Qed.

(** A mask computed from the rows selects the rows the comparison holds on. *)
Lemma mask_filter_map {A B : Type} (f : B -> result bool) (g : A -> B)
    (l : list A) (mask : list bool) :
  mapM f (map g l) = Ok mask ->
  mask_filter mask l = filter (fun a => holds (f (g a))) l.
Proof.
  revert mask. induction l as [| a l IH]; intros mask; cbn.
  - now intros [= <-].
  - destruct (f (g a)) as [b |]; [| discriminate]. cbn [rbind].
    destruct (mapM f (map g l)) as [bs |]; [| discriminate]. cbn [rbind].
    intros [= <-]. cbn. rewrite (IH bs eq_refl). now destruct b.
Qed.

Lemma getitem_setitem_same (name : string) (values : list cell) (df : DataFrame) :
  List.length (rows df) = List.length values ->
  getitem name (setitem name values df) = Ok values.
Proof.
  intros Hlen. unfold getitem, setitem. cbn [columns rows].
  replace (mem name (if mem name (columns df) then columns df
                     else columns df ++ [name])) with true.
  - f_equal. rewrite map_map. cbn [fst snd].
    rewrite (map_ext _ snd); [now apply map_snd_combine |].
    intros [[i r] v]. apply cell_of_set_cell_same.
  - symmetry. destruct (mem name (columns df)) eqn:E; [exact E |].
    apply mem_In. apply in_or_app. right. now left.
Qed.

Lemma getitem_setitem_other (name other : string) (values : list cell)
    (df : DataFrame) :
  name <> other -> mem name (columns df) = true ->
  List.length (rows df) = List.length values ->
  getitem name (setitem other values df) = getitem name df.
Proof.
  intros Hne Hmem Hlen. unfold getitem, setitem. cbn [columns rows].
  rewrite Hmem.
  replace (mem name (if mem other (columns df) then columns df
                     else columns df ++ [other])) with true.
  - f_equal. rewrite map_map. cbn [fst snd].
    rewrite <- (map_fst_combine (rows df) values Hlen) at 2.
    rewrite map_map. apply map_ext. intros [[i r] v]. cbn [fst snd].
    now apply cell_of_set_cell_other.
  - symmetry. destruct (mem other (columns df)); [exact Hmem |].
    apply mem_In. apply in_or_app. left. now apply mem_In.
Qed.

Section LoaderFacts.

Variables min_age min_inactivity_months min_revenue : Q.
Variable numerical_features : list string.
Variable int_of_str : string -> result Z.

Lemma astype_columns (d : list (string * dtype)) (df df' : DataFrame) :
  astype int_of_str d df = Ok df' -> columns df' = columns df.
Proof.
  unfold astype. destruct (forallb _ d); [| discriminate].
  match goal with |- rbind ?c _ = _ -> _ => destruct c; [| discriminate] end.
  cbn [rbind]. now intros [= <-].
Qed.

(** Selecting features from a frame gives the same whether or not a column
    that is no feature was popped before. *)
Lemma select_after_pop (names : list string) (label : string)
    (df df' : DataFrame) (y : Series) :
  mem label names = false ->
  pop label df = Ok (y, df') ->
  select names df' = select names df.
Proof.
  intros Hl. unfold pop. destruct (mem label (columns df)); [| discriminate].
  intros [= _ <-]. unfold select. cbn [columns rows].
  assert (Hne : forall n, In n names -> negb (String.eqb n label) = true).
  { intros n Hn. destruct (String.eqb_spec n label) as [-> | ]; [| reflexivity].
    apply mem_In in Hn. congruence. }
  rewrite (forallb_agree _ (fun n => mem n (columns df))).
  2:{ intros n Hn. apply (mem_filter n (fun c => negb (String.eqb c label))).
      now apply Hne. }
  destruct (forallb _ names); [| reflexivity].
  f_equal. f_equal. rewrite map_map. apply map_ext. intros [i r]. cbn [fst snd].
  f_equal. apply map_ext_in. intros n Hn. f_equal.
  apply (cell_of_filter n (fun k => negb (String.eqb k label))). now apply Hne.
Qed.

(** One step through a stage shared by both sides of a goal. *)
Ltac through_stage :=
  match goal with
  | |- context [rbind ?c _] =>
      let E := fresh "Stage" in
      destruct c eqn:E; cbn [rbind rmap]; [| try reflexivity; try discriminate]
  end.

(** C7: for every input record set whose label column exists and is neither
    a dropped identifier nor a numerical feature, the feature matrix of the
    training path, once the label is popped, is the feature matrix of the
    inference path on the same records; when one path raises, so does the
    other. *)
Theorem training_features_equal_inference_features
    (data_df : DataFrame) (label_column : string) :
  mem label_column (columns data_df) = true ->
  mem label_column ["Account"; "CLIENT_ORIGIN_CODE"] = false ->
  mem label_column numerical_features = false ->
  rmap fst (load_data min_age min_inactivity_months min_revenue
              numerical_features int_of_str data_df label_column) =
  load_data_for_prediction min_age min_inactivity_months min_revenue
    numerical_features int_of_str data_df.
Proof.
  intros Hin Hid Hfeat.
  unfold load_data, load_data_for_prediction.
  through_stage. through_stage. through_stage.
  assert (Hcols : mem label_column (columns a1) = true).
  { rewrite (fillna_columns _ _ _ _ Stage1), (astype_columns _ _ _ Stage0),
      (drop_columns _ _ _ Stage).
    rewrite (mem_filter label_column
               (fun c => negb (mem c ["Account"; "CLIENT_ORIGIN_CODE"])));
      [exact Hin | now rewrite Hid]. }
  do 12 through_stage.
  - destruct a13 as [y_data popped]. cbn [fst snd].
    rewrite (select_after_pop _ _ _ _ _ Hfeat Stage13).
    now destruct (select numerical_features _).
  - exfalso. unfold pop in Stage13.
    rewrite setitem_columns in Stage13 by exact (getitem_mem _ _ _ Stage9).
    cbn [boolean_index columns] in Stage13. rewrite Hcols in Stage13.
    discriminate.
Qed.

(** One step through a stage that is not itself a sequence. *)
Ltac through_leaf_stage :=
  match goal with
  | |- context [rbind ?c _] =>
      lazymatch c with
      | context [rbind] => fail
      | _ => idtac
      end;
      let E := fresh "Stage" in
      destruct c eqn:E; cbn [rbind rmap]; [| try reflexivity; try discriminate]
  end.

(** The inference loader is its stages in sequence. *)
Lemma load_data_for_prediction_stages (data_df : DataFrame) :
  load_data_for_prediction min_age min_inactivity_months min_revenue
    numerical_features int_of_str data_df =
  (prepared <- prepare int_of_str data_df ;;
   filtered <- filter_rows min_age min_inactivity_months min_revenue prepared ;;
   growth <- derived_revenue_growth filtered ;;
   x_data <- select numerical_features
               (setitem "revenue_growth" growth filtered) ;;
   Ok (round2 (reset_index x_data))).
Proof.
  unfold load_data_for_prediction, prepare, filter_rows,
    derived_revenue_growth, revenue_growth_denominator.
  repeat through_leaf_stage. reflexivity.
Qed.

(** A training run that returns features implies an inference run that
    returns the same features. *)
Lemma load_data_Ok_inference (data_df x_data : DataFrame)
    (label_column : string) (y_data : Series) :
  load_data min_age min_inactivity_months min_revenue
    numerical_features int_of_str data_df label_column = Ok (x_data, y_data) ->
  load_data_for_prediction min_age min_inactivity_months min_revenue
    numerical_features int_of_str data_df = Ok x_data.
Proof.
  unfold load_data, load_data_for_prediction.
  do 15 through_stage.
  destruct a13 as [y popped]. cbn [fst snd].
  destruct (select numerical_features popped) as [x |] eqn:Hsel;
    [| discriminate].
  cbn [rbind]. intros [= <- <-].
  assert (Hl : mem label_column numerical_features = false).
  { destruct (mem label_column numerical_features) eqn:E; [| reflexivity].
    exfalso. unfold pop in Stage13.
    destruct (mem label_column _) in Stage13; [| discriminate].
    injection Stage13 as _ <-. unfold select in Hsel. cbn [columns] in Hsel.
    destruct (forallb _ numerical_features) eqn:Hall in Hsel; [| discriminate].
    rewrite forallb_forall in Hall. apply mem_In in E.
    specialize (Hall _ E). apply mem_filter_true in Hall.
    now rewrite String.eqb_refl in Hall. }
  rewrite <- (select_after_pop _ _ _ _ _ Hl Stage13), Hsel. reflexivity.
Qed.

(** The three filters keep exactly the rows that meet the three conditions,
    in their order, and leave the columns alone. *)
Lemma filter_rows_spec (prepared filtered : DataFrame) :
  filter_rows min_age min_inactivity_months min_revenue prepared = Ok filtered ->
  columns filtered = columns prepared /\
  rows filtered = filter (fun ir => keeps min_age min_inactivity_months min_revenue (snd ir)) (rows prepared).
Proof.
  unfold filter_rows. do 6 through_stage. intros [= <-].
  split; [reflexivity |].
  apply getitem_Ok in Stage, Stage1, Stage3. subst a a1 a3.
  cbn [boolean_index rows] in *.
  apply mask_filter_map in Stage0. rewrite Stage0 in *.
  apply mask_filter_map in Stage2. rewrite Stage2 in *.
  apply mask_filter_map in Stage4. rewrite Stage4.
  rewrite !filter_fusion. apply filter_ext. intros [i r].
  unfold keeps. now rewrite andb_assoc.
Qed.

(** A cast leaves the cells of the columns it does not name untouched. *)
Lemma cast_record_other (d : list (string * dtype)) (name : string)
    (r r' : record) :
  dtype_of name d = None ->
  mapM (fun kv =>
          match dtype_of (fst kv) d with
          | Some t => c <- cast int_of_str t (snd kv) ;; Ok (fst kv, c)
          | None => Ok kv
          end) r = Ok r' ->
  cell_of name r' = cell_of name r.
Proof.
  intros Hnone. revert r'. induction r as [| [k c] r IH]; intros r'; cbn.
  - now intros [= <-].
  - destruct (dtype_of k d) as [t |] eqn:Hk.
    + destruct (cast int_of_str t c) as [c' |]; [| discriminate]. cbn [rbind].
      match goal with |- rbind ?m _ = _ -> _ => destruct m as [rs |] end;
        [| discriminate].
      cbn [rbind]. intros [= <-]. unfold cell_of. cbn.
      destruct (String.eqb_spec k name) as [-> | Hne]; [congruence |].
      apply (IH rs eq_refl).
    + cbn [rbind].
      match goal with |- rbind ?m _ = _ -> _ => destruct m as [rs |] end;
        [| discriminate].
      cbn [rbind]. intros [= <-]. unfold cell_of. cbn.
      destruct (String.eqb k name); [reflexivity |].
      apply (IH rs eq_refl).
Qed.

Lemma astype_column_other (d : list (string * dtype)) (name : string)
    (df df' : DataFrame) :
  dtype_of name d = None ->
  astype int_of_str d df = Ok df' ->
  map (fun ir => cell_of name (snd ir)) (rows df') =
  map (fun ir => cell_of name (snd ir)) (rows df).
Proof.
  intros Hnone. unfold astype. destruct (forallb _ d); [| discriminate].
  match goal with |- rbind ?m _ = _ -> _ => destruct m as [rs |] eqn:E end;
    [| discriminate].
  cbn [rbind]. intros [= <-]. cbn [rows].
  revert rs E. induction (rows df) as [| [i r] l IH]; intros rs; cbn.
  - now intros [= <-].
  - destruct (mapM _ r) as [r' |] eqn:Er; [| discriminate].
    cbn [rbind].
    match goal with
    | |- context [mapM ?f l] => destruct (mapM f l) as [rs' |] eqn:El
    end; [| discriminate].
    cbn [rbind]. intros [= <-]. cbn.
    rewrite (cast_record_other d name r r' Hnone Er). f_equal.
    now apply IH.
Qed.

(** The frame the filters see has the tenure column of the input with its
    missing values replaced by 0. *)
Lemma prepare_tenure (data_df prepared : DataFrame) :
  prepare int_of_str data_df = Ok prepared ->
  exists tenure,
    getitem "tenure" data_df = Ok tenure /\
    getitem "tenure" prepared =
      Ok (map (fun c => if isna c then Num 0 else c) tenure).
Proof.
  unfold prepare. do 2 through_stage. unfold fillna.
  destruct (getitem "tenure" a0) as [col |] eqn:Hcol; [| discriminate].
  cbn [rbind]. intros [= <-].
  exists (map (fun ir => cell_of "tenure" (snd ir)) (rows data_df)).
  pose proof (getitem_mem _ _ _ Hcol) as Hmem.
  rewrite (astype_columns _ _ _ Stage0), (drop_columns _ _ _ Stage) in Hmem.
  rewrite (mem_filter "tenure"
             (fun c => negb (mem c ["Account"; "CLIENT_ORIGIN_CODE"])))
    in Hmem by reflexivity.
  split; [unfold getitem; now rewrite Hmem |].
  apply getitem_Ok in Hcol.
  rewrite getitem_setitem_same
    by (subst col; now rewrite !length_map).
  f_equal. f_equal. subst col.
  rewrite (astype_column_other convert_dict "tenure" a a0 eq_refl Stage0).
  unfold drop in Stage. destruct (forallb _ _) in Stage; [| discriminate].
  injection Stage as <-. cbn [rows]. rewrite map_map. apply map_ext.
  intros [i r]. cbn [fst snd].
  apply (cell_of_filter "tenure"
           (fun k => negb (mem k ["Account"; "CLIENT_ORIGIN_CODE"]))).
  reflexivity.
Qed.

Lemma derived_revenue_growth_length (data_df : DataFrame) (growth : list cell) :
  derived_revenue_growth data_df = Ok growth ->
  List.length growth = List.length (rows data_df).
Proof.
  unfold derived_revenue_growth, revenue_growth_denominator.
  destruct (getitem "revenue_6_months" data_df) as [six |] eqn:H6;
    [| discriminate].
  cbn [rbind].
  destruct (getitem "revenue_growth" data_df) as [raw |] eqn:Hg;
    [| discriminate].
  cbn [rbind].
  destruct (zipM sub six raw) as [den |] eqn:Hden; [| discriminate].
  cbn [rbind].
  destruct (zipM div six den) as [ratio |] eqn:Hratio; [| discriminate].
  cbn [rbind]. intros Hgrowth.
  apply getitem_Ok in H6, Hg.
  assert (L6 : List.length six = List.length (rows data_df))
    by (subst six; apply length_map).
  assert (Lg : List.length raw = List.length (rows data_df))
    by (subst raw; apply length_map).
  apply zipM_length in Hden; [| congruence].
  apply zipM_length in Hratio; [| congruence].
  apply mapM_length in Hgrowth. congruence.
Qed.

Lemma getitem_round_reset (name : string) (df : DataFrame) :
  getitem name (round2 (reset_index df)) =
  rmap (map round_cell) (getitem name df).
Proof.
  unfold getitem, round2, reset_index. cbn [columns rows].
  destruct (mem name (columns df)); [| reflexivity].
  cbn [rmap]. f_equal. rewrite !map_map. cbn [fst snd].
  rewrite (map_ext _ (fun p => round_cell (cell_of name (snd p))))
    by (intros p; apply cell_of_round).
  rewrite <- (map_map snd (fun r => round_cell (cell_of name r))).
  rewrite map_snd_combine by now rewrite !length_map, length_seq.
  now rewrite map_map.
Qed.

Lemma getitem_select (name : string) (names : list string)
    (df selected : DataFrame) :
  In name names -> select names df = Ok selected ->
  getitem name selected = getitem name df.
Proof.
  intros Hin. unfold select.
  destruct (forallb _ names) eqn:Hall; [| discriminate].
  intros [= <-]. unfold getitem. cbn [columns rows].
  rewrite forallb_forall in Hall. rewrite (Hall _ Hin).
  replace (mem name names) with true by (symmetry; now apply mem_In).
  f_equal. rewrite map_map. apply map_ext. intros [i r]. cbn [fst snd].
  now apply cell_of_select.
Qed.

Lemma select_rows_length (names : list string) (df selected : DataFrame) :
  select names df = Ok selected ->
  List.length (rows selected) = List.length (rows df).
Proof.
  unfold select. destruct (forallb _ names); [| discriminate].
  intros [= <-]. cbn [rows]. apply length_map.
Qed.

Lemma select_getitem (name : string) (names : list string)
    (df selected : DataFrame) :
  In name names -> select names df = Ok selected ->
  getitem name selected = Ok (map (fun ir => cell_of name (snd ir)) (rows df)).
Proof.
  intros Hin Hsel. rewrite (getitem_select name names df selected Hin Hsel).
  unfold select in Hsel.
  destruct (forallb _ names) eqn:Hall; [| discriminate].
  rewrite forallb_forall in Hall. unfold getitem. now rewrite (Hall _ Hin).
Qed.

Lemma setitem_rows_other (name other : string) (values : list cell)
    (df : DataFrame) :
  name <> other -> List.length (rows df) = List.length values ->
  map (fun ir => cell_of name (snd ir)) (rows (setitem other values df)) =
  map (fun ir => cell_of name (snd ir)) (rows df).
Proof.
  intros Hne Hlen. unfold setitem. cbn [rows]. rewrite map_map. cbn [fst snd].
  rewrite <- (map_fst_combine (rows df) values Hlen) at 2.
  rewrite map_map. apply map_ext. intros [[i r] v]. cbn [fst snd].
  now apply cell_of_set_cell_other.
Qed.

Lemma setitem_rows_same (name : string) (values : list cell) (df : DataFrame) :
  List.length (rows df) = List.length values ->
  map (fun ir => cell_of name (snd ir)) (rows (setitem name values df)) = values.
Proof.
  intros Hlen. unfold setitem. cbn [rows]. rewrite map_map. cbn [fst snd].
  rewrite (map_ext _ snd); [now apply map_snd_combine |].
  intros [[i r] v]. apply cell_of_set_cell_same.
Qed.

Lemma setitem_rows_length (name : string) (values : list cell) (df : DataFrame) :
  List.length (rows df) = List.length values ->
  List.length (rows (setitem name values df)) = List.length (rows df).
Proof.
  intros Hlen. unfold setitem. cbn [rows].
  rewrite length_map, length_combine. rewrite <- Hlen. apply Nat.min_id.
Qed.

Lemma round_reset_rows_length (df : DataFrame) :
  List.length (rows (round2 (reset_index df))) = List.length (rows df).
Proof.
  unfold round2, reset_index. cbn [rows].
  rewrite length_map, length_combine, !length_map, length_seq.
  apply Nat.min_id.
Qed.

(** What an inference run that returns is made of. *)
Lemma load_data_for_prediction_inv (data_df x_data : DataFrame) :
  load_data_for_prediction min_age min_inactivity_months min_revenue
    numerical_features int_of_str data_df = Ok x_data ->
  exists prepared filtered growth selected,
    prepare int_of_str data_df = Ok prepared /\
    filter_rows min_age min_inactivity_months min_revenue prepared =
      Ok filtered /\
    derived_revenue_growth filtered = Ok growth /\
    select numerical_features (setitem "revenue_growth" growth filtered) =
      Ok selected /\
    x_data = round2 (reset_index selected).
Proof.
  rewrite load_data_for_prediction_stages.
  destruct (prepare int_of_str data_df) as [prepared |] eqn:Hp;
    [| discriminate].
  cbn [rbind].
  destruct (filter_rows _ _ _ prepared) as [filtered |] eqn:Hf;
    [| discriminate].
  cbn [rbind].
  destruct (derived_revenue_growth filtered) as [growth |] eqn:Hg;
    [| discriminate].
  cbn [rbind].
  destruct (select _ _) as [selected |] eqn:Hsel; [| discriminate].
  cbn [rbind]. intros [= <-].
  exists prepared, filtered, growth, selected. repeat split; assumption.
Qed.

Lemma holds_Ok (b : bool) : holds (Ok b) = b.
Proof. now destruct b. Qed.

(** On a row whose three cells are present, not meeting the conditions is
    one of the three strict inequalities. *)
Lemma keeps_false_iff (r : record) (t i v : Q) :
  cell_of "tenure" r = Num t ->
  cell_of "inactive_months" r = Num i ->
  cell_of "revenue_12_months" r = Num v ->
  keeps min_age min_inactivity_months min_revenue r = false <->
  (t < min_age \/ min_inactivity_months < i \/ v < min_revenue)%Q.
Proof.
  intros Ht Hi Hv. unfold keeps. rewrite Ht, Hi, Hv. cbn [ge le].
  rewrite !holds_Ok, !andb_false_iff.
  assert (Hle : forall a b : Q, Qle_bool a b = false <-> (b < a)%Q).
  { intros a b. split.
    - intros H. apply Qnot_le_lt. intros Hab.
      apply Qle_bool_iff in Hab. congruence.
    - intros H. destruct (Qle_bool a b) eqn:E; [| reflexivity].
      apply Qle_bool_iff in E. now apply Qlt_not_le in H. }
  rewrite !Hle. tauto.
Qed.

(** C8: whenever a loader returns a feature matrix, its rows are, in order,
    the rows of the prepared input (identifier columns dropped, types cast,
    missing tenure replaced by 0) that meet all three conditions, tenure >=
    min_age, inactive_months <= min_inactivity_months and revenue_12_months
    >= min_revenue: every other row is left out and none is flagged.  On a
    row whose three values are present, not meeting them is tenure < min_age
    or inactive_months > min_inactivity_months or revenue_12_months <
    min_revenue. *)
Theorem filters_exclude_exactly (data_df x_data : DataFrame) :
  (load_data_for_prediction min_age min_inactivity_months min_revenue
     numerical_features int_of_str data_df = Ok x_data \/
   exists label_column y_data,
     load_data min_age min_inactivity_months min_revenue
       numerical_features int_of_str data_df label_column =
     Ok (x_data, y_data)) ->
  exists prepared tenure,
    prepare int_of_str data_df = Ok prepared /\
    getitem "tenure" data_df = Ok tenure /\
    getitem "tenure" prepared =
      Ok (map (fun c => if isna c then Num 0 else c) tenure) /\
    List.length (rows x_data) =
      List.length
        (filter (fun ir => keeps min_age min_inactivity_months min_revenue (snd ir))
                (rows prepared)) /\
    (forall name, In name numerical_features -> name <> "revenue_growth" ->
       getitem name x_data =
         Ok (map (fun ir => round_cell (cell_of name (snd ir)))
               (filter
                  (fun ir =>
                     keeps min_age min_inactivity_months min_revenue (snd ir))
                  (rows prepared)))) /\
    (forall r t i v,
       cell_of "tenure" r = Num t ->
       cell_of "inactive_months" r = Num i ->
       cell_of "revenue_12_months" r = Num v ->
       (keeps min_age min_inactivity_months min_revenue r = false <->
        (t < min_age \/ min_inactivity_months < i \/ v < min_revenue)%Q)).
Proof.
  intros Hrun.
  assert (Hinf : load_data_for_prediction min_age min_inactivity_months
                   min_revenue numerical_features int_of_str data_df =
                 Ok x_data).
  { destruct Hrun as [H | (label_column & y_data & H)]; [exact H |].
    now apply (load_data_Ok_inference _ _ label_column y_data). }
  destruct (load_data_for_prediction_inv _ _ Hinf)
    as (prepared & filtered & growth & selected & Hp & Hf & Hg & Hsel & ->).
  destruct (prepare_tenure _ _ Hp) as (tenure & Ht & Ht').
  destruct (filter_rows_spec _ _ Hf) as (_ & Hrows).
  pose proof (derived_revenue_growth_length _ _ Hg) as Hlen.
  symmetry in Hlen.
  exists prepared, tenure.
  split; [exact Hp |]. split; [exact Ht |]. split; [exact Ht' |].
  split; [| split].
  - rewrite round_reset_rows_length, (select_rows_length _ _ _ Hsel),
      setitem_rows_length by exact Hlen.
    now rewrite Hrows.
  - intros name Hin Hne.
    rewrite getitem_round_reset, (select_getitem _ _ _ _ Hin Hsel).
    cbn [rmap]. rewrite setitem_rows_other by assumption.
    rewrite Hrows, map_map. reflexivity.
  - intros r t i v. apply keeps_false_iff.
Qed.

Lemma Qle_bool_refl (q : Q) : Qle_bool q q = true.
Proof. apply Qle_bool_iff. apply Qle_refl. Qed.

Lemma Qeq_bool_diag (q : Q) : Qeq_bool (q - q) 0 = true.
Proof. apply Qeq_bool_iff. ring. Qed.

(** Evaluation of a loader on a frame whose cells hold these parameters. *)
Ltac evaluate :=
  repeat (progress
            (cbn -[Qle_bool Qeq_bool Qminus Qsign_pos inject_Z truncate];
             rewrite ?Qle_bool_refl, ?Qeq_bool_diag)).

(** C10 (amended): the three row filters put no condition on the divisor
    revenue_6_months - revenue_growth.  For every setting of the thresholds
    and every value [a], the client whose tenure, inactivity and yearly
    revenue sit on the thresholds and whose revenue_6_months and raw
    revenue_growth both equal [a] survives the filters with a divisor equal
    to zero; the division is not guarded and does not raise: both loaders
    return, with a derived revenue_growth that is missing when [a] is zero
    and infinite otherwise. *)
Theorem zero_denominator_survives (a : Q) :
  exists prepared filtered,
    prepare int_of_str
      (flat_revenue_frame min_age min_inactivity_months min_revenue a) =
      Ok prepared /\
    filter_rows min_age min_inactivity_months min_revenue prepared =
      Ok filtered /\
    List.length (rows filtered) = 1%nat /\
    revenue_growth_denominator filtered = Ok [Num (a - a)] /\
    derived_revenue_growth filtered =
      Ok [if Qeq_bool a 0 then NaN else Inf (Qsign_pos a)] /\
    load_data_for_prediction min_age min_inactivity_months min_revenue
      ["revenue_growth"] int_of_str
      (flat_revenue_frame min_age min_inactivity_months min_revenue a) =
      Ok {| columns := ["revenue_growth"];
            rows := [(0, [("revenue_growth",
                           if Qeq_bool a 0 then NaN else Inf (Qsign_pos a))])] |} /\
    load_data min_age min_inactivity_months min_revenue
      ["revenue_growth"] int_of_str
      (flat_revenue_frame min_age min_inactivity_months min_revenue a) "churn" =
      Ok ({| columns := ["revenue_growth"];
             rows := [(0, [("revenue_growth",
                            if Qeq_bool a 0 then NaN else Inf (Qsign_pos a))])] |},
          [(0, Num 0)]).
Proof.
  eexists. eexists.
  split; [cbv -[Qle_bool Qeq_bool Qminus Qsign_pos inject_Z truncate]; reflexivity |].
  split; [unfold filter_rows; evaluate; reflexivity |].
  split; [reflexivity |].
  split; [reflexivity |].
  split; [unfold derived_revenue_growth, revenue_growth_denominator; evaluate;
          now destruct (Qeq_bool a 0) |].
  split.
  - unfold load_data_for_prediction. evaluate.
    now destruct (Qeq_bool a 0).
  - unfold load_data. evaluate.
    now destruct (Qeq_bool a 0).
Qed.

End LoaderFacts.

Lemma training_features_equal_inference_features_witness :
  mem "churn" (columns example_frame) = true /\
  mem "churn" ["Account"; "CLIENT_ORIGIN_CODE"] = false /\
  mem "churn" example_features = false /\
  rmap fst (load_data 6 9 300 example_features no_int example_frame "churn") =
  load_data_for_prediction 6 9 300 example_features no_int example_frame.
Proof.
  repeat (split; [reflexivity |]).
  apply (training_features_equal_inference_features 6 9 300 example_features
           no_int example_frame "churn"); reflexivity.
Defined.

Lemma filters_exclude_exactly_witness :
  (load_data_for_prediction 6 9 300 example_features no_int example_frame =
     Ok example_feature_matrix \/
   exists label_column y_data,
     load_data 6 9 300 example_features no_int example_frame label_column =
     Ok (example_feature_matrix, y_data)) /\
  exists prepared tenure,
    prepare no_int example_frame = Ok prepared /\
    getitem "tenure" example_frame = Ok tenure /\
    getitem "tenure" prepared =
      Ok (map (fun c => if isna c then Num 0 else c) tenure) /\
    List.length (rows example_feature_matrix) =
      List.length (filter (fun ir => keeps 6 9 300 (snd ir)) (rows prepared)) /\
    (forall name, In name example_features -> name <> "revenue_growth" ->
       getitem name example_feature_matrix =
         Ok (map (fun ir => round_cell (cell_of name (snd ir)))
               (filter (fun ir => keeps 6 9 300 (snd ir)) (rows prepared)))) /\
    (forall r t i v,
       cell_of "tenure" r = Num t ->
       cell_of "inactive_months" r = Num i ->
       cell_of "revenue_12_months" r = Num v ->
       (keeps 6 9 300 r = false <-> (t < 6 \/ 9 < i \/ v < 300)%Q)).
Proof.
  split; [left; vm_compute; reflexivity |].
  apply (filters_exclude_exactly 6 9 300 example_features no_int
           example_frame example_feature_matrix).
  left. vm_compute. reflexivity.
Defined.

(** C10 as stated fails: with the thresholds 6, 9 and 300 two clients of
    [example_frame] survive the filters, and the divisor of the second one
    is zero; the loader returns a missing revenue_growth for it. *)
Lemma surviving_row_has_zero_denominator :
  (prepared <- prepare no_int example_frame ;;
   filtered <- filter_rows 6 9 300 prepared ;;
   Ok (map fst (rows filtered))) = Ok [10; 13] /\
  (prepared <- prepare no_int example_frame ;;
   filtered <- filter_rows 6 9 300 prepared ;;
   revenue_growth_denominator filtered) = Ok [Num 500; Num 0] /\
  load_data_for_prediction 6 9 300 example_features no_int example_frame =
    Ok example_feature_matrix /\
  cell_of "revenue_growth" (snd (nth 1 (rows example_feature_matrix) (0, []))) =
    NaN.
Proof. repeat split; vm_compute; reflexivity. Qed.

End FeaturesFacts.

(** ** Text helpers *)

Module TextFacts.

Import Text.

Local Open Scope Z_scope.

Lemma valid_char_spec (c : Z) : valid_char c = true <-> 0 <= c <= MAXUNICODE.
Proof. unfold valid_char. rewrite andb_true_iff, !Z.leb_le. tauto. Qed.

(** The key only touches the seven low bits, so a code point stays one. *)
Lemma xor_key_valid (c : Z) :
  valid_char c = true -> valid_char (Z.lxor c 67) = true.
Proof.
  rewrite !valid_char_spec. unfold MAXUNICODE. intros [Hlo Hhi]. split.
  - apply Z.lxor_nonneg. split; intros _; [lia | exact Hlo].
  - assert (Hq : Z.lxor c 67 / 2 ^ 7 = c / 2 ^ 7).
    { rewrite <- !Z.shiftr_div_pow2 by lia. rewrite Z.shiftr_lxor.
      change (Z.shiftr 67 7) with 0. apply Z.lxor_0_r. }
    change (2 ^ 7) with 128 in Hq.
    pose proof (Z.div_mod (Z.lxor c 67) 128 ltac:(lia)) as Hx.
    pose proof (Z.mod_pos_bound (Z.lxor c 67) 128 ltac:(lia)) as Hm.
    pose proof (Z.div_mod c 128 ltac:(lia)) as Hc.
    pose proof (Z.mod_pos_bound c 128 ltac:(lia)) as Hcm.
    assert (c / 128 < 8704) by (apply Z.div_lt_upper_bound; lia).
    lia.
Qed.

Lemma xor_key_twice (c : Z) : Z.lxor (Z.lxor c 67) 67 = c.
Proof. now rewrite Z.lxor_assoc, Z.lxor_nilpotent, Z.lxor_0_r. Qed.

Lemma xor_key_moves (c : Z) : Z.lxor c 67 <> c.
Proof.
  intros H. assert (H0 : Z.lxor (Z.lxor c 67) c = 0)
    by (rewrite H; apply Z.lxor_nilpotent).
  rewrite (Z.lxor_comm c 67), Z.lxor_assoc, Z.lxor_nilpotent, Z.lxor_0_r in H0.
  discriminate.
Qed.

(** X1: encoding twice gives the text back: [encode_xor] returns on every
    string, its result is a string again, and encoding that result returns
    the original. *)
Theorem encode_xor_round_trip (s : str) :
  valid_str s = true ->
  exists e,
    encode_xor s = Ok e /\ valid_str e = true /\ encode_xor e = Ok s.
Proof.
  unfold encode_xor, valid_str, chr, ord.
  induction s as [| c s IH]; cbn [forallb Features.mapM].
  - intros _. exists []. repeat split.
  - rewrite andb_true_iff. intros [Hc Hs].
    destruct (IH Hs) as (e & He & Hv & Hback).
    exists (Z.lxor c 67 :: e).
    rewrite (xor_key_valid c Hc). cbn [rbind]. rewrite He. cbn [rbind].
    split; [reflexivity |]. split.
    + cbn [forallb]. now rewrite (xor_key_valid c Hc), Hv.
    + cbn [Features.mapM]. rewrite xor_key_twice, Hc. cbn [rbind].
      rewrite Hback. reflexivity.
Qed.

Lemma encode_xor_round_trip_witness :
  valid_str (literal "s3cret") = true /\
  exists e,
    encode_xor (literal "s3cret") = Ok e /\ valid_str e = true /\
    encode_xor e = Ok (literal "s3cret").
Proof.
  split; [reflexivity |].
  apply (encode_xor_round_trip (literal "s3cret")). reflexivity.
Defined.

(** X2: an encoding has the length of its text and differs from it at every
    position, so no text but the empty one is its own encoding. *)
Theorem encode_xor_moves_every_character (s e : str) :
  encode_xor s = Ok e ->
  List.length e = List.length s /\
  Forall2 (fun c d => d <> c) s e /\
  (s <> [] -> e <> s).
Proof.
  unfold encode_xor, chr, ord. revert e.
  induction s as [| c s IH]; intros e; cbn [Features.mapM].
  - intros [= <-]. repeat split; [constructor | congruence].
  - destruct (valid_char (Z.lxor c 67)); [| discriminate]. cbn [rbind].
    destruct (Features.mapM _ s) as [e' |] eqn:He; [| discriminate].
    cbn [rbind]. intros [= <-].
    destruct (IH e' eq_refl) as (Hlen & Hall & _).
    split; [cbn; now rewrite Hlen |].
    split; [constructor; [apply xor_key_moves | exact Hall] |].
    intros _ [= Hc _]. now apply xor_key_moves in Hc.
Qed.

Lemma encode_xor_moves_every_character_witness :
  encode_xor (literal "ab") = Ok [34; 33] /\
  List.length [34; 33] = List.length (literal "ab") /\
  Forall2 (fun c d => d <> c) (literal "ab") [34; 33] /\
  (literal "ab" <> [] -> [34; 33] <> literal "ab").
Proof.
  split; [reflexivity |].
  apply (encode_xor_moves_every_character (literal "ab") [34; 33]).
  reflexivity.
Defined.

Lemma str_eqb_eq (a b : str) : str_eqb a b = true <-> a = b.
Proof.
  revert b. induction a as [| x a IH]; intros [| y b]; cbn;
    try (split; [discriminate | congruence]); [tauto |].
  rewrite andb_true_iff, Z.eqb_eq, IH. split.
  - now intros [-> ->].
  - now intros [= -> ->].
Qed.

Lemma str_ltb_irrefl (a : str) : str_ltb a a = false.
Proof.
  induction a as [| x a IH]; [reflexivity |].
  cbn. now rewrite Z.ltb_irrefl, Z.eqb_refl, IH.
Qed.

Lemma str_ltb_asym (a b : str) : str_ltb a b = true -> str_ltb b a = false.
Proof.
  revert b. induction a as [| x a IH]; intros [| y b]; cbn; try congruence.
  rewrite orb_true_iff, andb_true_iff, Z.ltb_lt, Z.eqb_eq.
  intros [Hlt | [-> Hab]].
  - destruct (Z.ltb_spec y x); [lia |]. destruct (Z.eqb_spec y x); [lia |].
    reflexivity.
  - now rewrite Z.ltb_irrefl, Z.eqb_refl, (IH b Hab).
Qed.

Lemma str_ltb_total (a b : str) :
  str_ltb a b = false -> str_ltb b a = false -> a = b.
Proof.
  revert b. induction a as [| x a IH]; intros [| y b]; cbn; try congruence.
  rewrite !orb_false_iff, !andb_false_iff, !Z.ltb_ge, !Z.eqb_neq.
  intros [Hxy Hab] [Hyx Hba].
  assert (x = y) by lia. subst y. f_equal. apply IH; tauto.
Qed.

(** X3: [get_activation_date] returns the activation date unless it is the
    default 14/09/2016; in that case it returns one of the two deployment
    dates, the one no other is smaller than in the order of strings, and the
    order of the two arguments does not matter. *)
Theorem get_activation_date_spec (activation_date d1 d2 : str) :
  (activation_date <> literal "14/09/2016" ->
   get_activation_date activation_date d1 d2 = activation_date) /\
  (activation_date = literal "14/09/2016" ->
   (get_activation_date activation_date d1 d2 = d1 \/
    get_activation_date activation_date d1 d2 = d2) /\
   str_ltb d1 (get_activation_date activation_date d1 d2) = false /\
   str_ltb d2 (get_activation_date activation_date d1 d2) = false /\
   get_activation_date activation_date d2 d1 =
   get_activation_date activation_date d1 d2).
Proof.
  unfold get_activation_date. split.
  - intros Hne.
    destruct (str_eqb activation_date (literal "14/09/2016")) eqn:E;
      [| reflexivity].
    now apply str_eqb_eq in E.
  - intros ->.
    replace (str_eqb (literal "14/09/2016") (literal "14/09/2016")) with true
      by (symmetry; now apply str_eqb_eq).
    cbn [negb]. unfold min.
    destruct (str_ltb d2 d1) eqn:H21.
    + pose proof (str_ltb_asym _ _ H21) as H12.
      split; [now right |]. split; [exact H12 |].
      split; [apply str_ltb_irrefl | now rewrite H12].
    + split; [now left |]. split; [apply str_ltb_irrefl |].
      split; [exact H21 |].
      destruct (str_ltb d1 d2) eqn:H12; [reflexivity |].
      symmetry. now apply str_ltb_total.
Qed.

End TextFacts.

(** ** More on the date helpers *)

Module CalendarMore.

Import Calendar CalendarFacts.

(** X4: the as-of dates are ordered: for every date [D] after year 1 the
    client preparation date precedes the consumption-stop one, which
    precedes the resiliation one, which precedes the month end [N] of [D];
    and [D] is not after [N]. *)
Theorem preparation_dates_ordered (D : date) :
  valid_date D = true -> MINYEAR < year D ->
  exists N R A C,
    get_last_day_of_month D = Ok N /\
    get_resiliation_preparation_date D = Ok R /\
    get_arret_preparation_date D = Ok A /\
    get_client_preparation_date D = Ok C /\
    date_ltb C A = true /\ date_ltb A R = true /\ date_ltb R N = true /\
    date_leb D N = true.
Proof.
  intros Hv Hy.
  destruct (month_end_minus_months D 1 Hv Hy)
    as (N & R & HN & HvN & HNeq & HR & HvR & HRi & _); [lia |].
  destruct (month_end_minus_months D 7 Hv Hy)
    as (N7 & A & HN7 & _ & _ & HA & HvA & HAi & _); [lia |].
  destruct (month_end_minus_months D 9 Hv Hy)
    as (N9 & C & HN9 & _ & _ & HC & HvC & HCi & _); [lia |].
  assert (N7 = N) by congruence. assert (N9 = N) by congruence. subst N7 N9.
  exists N, R, A, C.
  unfold get_resiliation_preparation_date, get_arret_preparation_date,
    get_client_preparation_date.
  rewrite HN. cbn [rbind].
  split; [reflexivity |].
  repeat (split; [assumption |]).
  split; [apply month_index_lt; try assumption; lia |].
  split; [apply month_index_lt; try assumption; lia |].
  split; [apply month_index_lt; try assumption; lia |].
  apply date_leb_spec. rewrite HNeq. cbn [year month day].
  apply valid_date_spec in Hv. lia.
Qed.

Lemma preparation_dates_ordered_witness :
  valid_date (mkdate 2024 3 5) = true /\ MINYEAR < year (mkdate 2024 3 5) /\
  exists N R A C,
    get_last_day_of_month (mkdate 2024 3 5) = Ok N /\
    get_resiliation_preparation_date (mkdate 2024 3 5) = Ok R /\
    get_arret_preparation_date (mkdate 2024 3 5) = Ok A /\
    get_client_preparation_date (mkdate 2024 3 5) = Ok C /\
    date_ltb C A = true /\ date_ltb A R = true /\ date_ltb R N = true /\
    date_leb (mkdate 2024 3 5) N = true.
Proof.
  split; [reflexivity |]. split; [reflexivity |].
  apply (preparation_dates_ordered (mkdate 2024 3 5)); reflexivity.
Defined.

(** X5: at the lower end of the calendar the helpers raise: for a date of
    year 1, the client preparation date is a [ValueError] exactly when the
    month is September or earlier, the consumption-stop one exactly when it
    is July or earlier, and the resiliation one exactly in January. *)
Theorem preparation_dates_before_year_one (D : date) :
  valid_date D = true -> year D = MINYEAR ->
  (get_client_preparation_date D = Raise ValueError <-> month D <= 9) /\
  (get_arret_preparation_date D = Raise ValueError <-> month D <= 7) /\
  (get_resiliation_preparation_date D = Raise ValueError <-> month D <= 1).
Proof.
  intros Hv Hy.
  unfold get_client_preparation_date, get_arret_preparation_date,
    get_resiliation_preparation_date.
  rewrite (get_last_day_of_month_spec D Hv). cbn [rbind].
  apply valid_date_spec in Hv. destruct Hv as (_ & Hm & _).
  destruct D as [y m d]. cbn [year month day] in *. subst y.
  assert (Hc : m = 1 \/ m = 2 \/ m = 3 \/ m = 4 \/ m = 5 \/ m = 6 \/ m = 7 \/
               m = 8 \/ m = 9 \/ m = 10 \/ m = 11 \/ m = 12) by lia.
  repeat (destruct Hc as [-> | Hc];
          [vm_compute; repeat split; intros; try reflexivity; try discriminate;
           exfalso; auto |]).
  subst m. vm_compute.
  repeat split; intros; try reflexivity; try discriminate; exfalso; auto.
Qed.

Lemma preparation_dates_before_year_one_witness :
  valid_date (mkdate 1 8 20) = true /\ year (mkdate 1 8 20) = MINYEAR /\
  (get_client_preparation_date (mkdate 1 8 20) = Raise ValueError <->
   month (mkdate 1 8 20) <= 9) /\
  (get_arret_preparation_date (mkdate 1 8 20) = Raise ValueError <->
   month (mkdate 1 8 20) <= 7) /\
  (get_resiliation_preparation_date (mkdate 1 8 20) = Raise ValueError <->
   month (mkdate 1 8 20) <= 1).
Proof.
  split; [reflexivity |]. split; [reflexivity |].
  apply (preparation_dates_before_year_one (mkdate 1 8 20)); reflexivity.
Defined.

(** X6: the month end and the month start of a date depend on its year and
    month only: with [N] the last and [S] the first day of [D]'s month, the
    start of [N] is [S], the end of [S] is [N], each helper leaves its own
    result unchanged, and [S <= D <= N]. *)
Theorem month_bounds_compose (D : date) :
  valid_date D = true ->
  exists N S,
    get_last_day_of_month D = Ok N /\ get_prediction_start_date D = Ok S /\
    get_prediction_start_date N = Ok S /\ get_last_day_of_month S = Ok N /\
    get_prediction_start_date S = Ok S /\ get_last_day_of_month N = Ok N /\
    date_leb S D = true /\ date_leb D N = true.
Proof.
  intros Hv.
  set (N := mkdate (year D) (month D) (days_in_month (year D) (month D))).
  set (S := mkdate (year D) (month D) 1).
  pose proof (last_day_valid D Hv) as HvN. fold N in HvN.
  pose proof Hv as Hv'. apply valid_date_spec in Hv'.
  destruct Hv' as (Hy & Hm & Hd).
  pose proof (days_in_month_range (year D) (month D) Hm) as Hr.
  assert (HvS : valid_date S = true)
    by (apply valid_date_spec; cbn [S year month day]; lia).
  assert (Hstart : forall X, year X = year D -> month X = month D ->
                     get_prediction_start_date X = Ok S).
  { intros X Hyx Hmx. unfold get_prediction_start_date, replace_day.
    rewrite Hyx, Hmx. now apply date_new_valid. }
  exists N, S.
  split; [now apply get_last_day_of_month_spec |].
  split; [now apply Hstart |].
  split; [now apply Hstart |].
  split; [now rewrite (get_last_day_of_month_spec S HvS) |].
  split; [now apply Hstart |].
  split; [now rewrite (get_last_day_of_month_spec N HvN) |].
  split; apply date_leb_spec; cbn [N S year month day]; lia.
Qed.

Lemma month_bounds_compose_witness :
  valid_date (mkdate 2024 2 10) = true /\
  exists N S,
    get_last_day_of_month (mkdate 2024 2 10) = Ok N /\
    get_prediction_start_date (mkdate 2024 2 10) = Ok S /\
    get_prediction_start_date N = Ok S /\ get_last_day_of_month S = Ok N /\
    get_prediction_start_date S = Ok S /\ get_last_day_of_month N = Ok N /\
    date_leb S (mkdate 2024 2 10) = true /\
    date_leb (mkdate 2024 2 10) N = true.
Proof.
  split; [reflexivity |].
  apply (month_bounds_compose (mkdate 2024 2 10)). reflexivity.
Defined.

End CalendarMore.

(** ** More on the preparers and the partition *)

Module PipelineMore.

Import Calendar CalendarFacts Pipeline PipelineFacts Observations.

Section Shown.

Variable row : Type.

Local Open Scope prep_scope.

Lemma effects_app (tr tr' : list (event row)) :
  effects (tr ++ tr') = effects tr ++ effects tr'.
Proof.
  induction tr as [| ev tr IH]; [reflexivity |].
  destruct ev; cbn; now rewrite IH.
Qed.

Lemma pickles_effects (tr : list (event row)) :
  pickles (effects tr) = pickles tr.
Proof.
  induction tr as [| ev tr IH]; [reflexivity |].
  destruct ev; cbn; now rewrite IH.
Qed.

Lemma shows_bind {A B : Type} (m : M row A) (f : A -> M row B)
    es a es' r es'' :
  shows m es (Ok a) -> shows (f a) es' r -> es'' = es ++ es' ->
  shows (bind m f) es'' r.
Proof.
  destruct m as [tr o]. unfold shows. cbn [trace outcome fst snd].
  intros (He & Ho) (He' & Hr) ->. subst o.
  rewrite (bind_ok row). cbn [trace outcome fst snd].
  now rewrite effects_app, He, He'.
Qed.

Lemma shows_bind_raise {A B : Type} (m : M row A) (f : A -> M row B) es e :
  shows m es (Raise e) -> shows (bind m f) es (Raise e).
Proof.
  destruct m as [tr o]. unfold shows. cbn [trace outcome fst snd].
  intros (He & Ho). subst o. now rewrite (bind_raise row).
Qed.

Lemma shows_log {B : Type} lvl msg (k : M row B) es r :
  shows k es r -> shows (emit (Log lvl msg) ;;; k) es r.
Proof.
  intros H. apply (shows_bind _ _ [] tt es r); [| exact H | reflexivity].
  split; reflexivity.
Qed.

Lemma shows_emit {B : Type} (ev : event row) (k : M row B) es r :
  effects [ev] = [ev] -> shows k es r -> shows (emit ev ;;; k) (ev :: es) r.
Proof.
  intros Hev H. apply (shows_bind _ _ [ev] tt es r); [| exact H | reflexivity].
  split; [exact Hev | reflexivity].
Qed.

Lemma shows_lift {A B : Type} (c : result A) (a : A) (f : A -> M row B) es r :
  c = Ok a -> shows (f a) es r -> shows (x <- lift c ;; f x) es r.
Proof.
  intros -> H. apply (shows_bind _ _ [] a es r); [| exact H | reflexivity].
  split; reflexivity.
Qed.

Lemma prepare_resiliation_data_shows (p : Processor row)
    (start_date end_date : date) (months_offset scenario : Z) (s e : date) :
  add_months start_date months_offset = Ok s ->
  add_months end_date months_offset = Ok e ->
  shows (prepare_resiliation_data row p start_date end_date months_offset scenario)
        [Fetch (ResiliationQuery s e scenario)]
        (Ok (get_resiliation_data p s e scenario)).
Proof.
  intros Hs He. unfold prepare_resiliation_data.
  apply shows_log. apply (shows_lift _ s); [exact Hs |].
  apply (shows_lift _ e); [exact He |].
  apply shows_emit; [reflexivity |].
  destruct (empty (get_resiliation_data p s e scenario)); split; reflexivity.
Qed.

Lemma prepare_all_resiliations_shows (p : Processor row)
    (start_date end_date s e : date) :
  add_months start_date 6 = Ok s ->
  add_months end_date 6 = Ok e ->
  shows (prepare_all_resiliations row p start_date end_date)
        [Fetch (ResiliationQuery s e 0); Fetch (ResiliationQuery s e 1);
         Fetch (ResiliationQuery s e 2)]
        (Ok (concat [get_resiliation_data p s e 0;
                     get_resiliation_data p s e 1;
                     get_resiliation_data p s e 2])).
Proof.
  intros Hs He. unfold prepare_all_resiliations.
  eapply shows_bind;
    [apply (prepare_resiliation_data_shows p _ _ _ _ s e); assumption | |
     reflexivity].
  eapply shows_bind;
    [apply (prepare_resiliation_data_shows p _ _ _ _ s e); assumption | |
     reflexivity].
  eapply shows_bind;
    [apply (prepare_resiliation_data_shows p _ _ _ _ s e); assumption | |
     reflexivity].
  apply shows_log. split; reflexivity.
Qed.

Lemma prepare_arret_conso_shows (p : Processor row) (s e l : date) :
  shows (prepare_arret_conso row p [s; e; l])
        [Fetch (ArretConsoQuery s e l)] (Ok (get_arret_conso_data p s e l)).
Proof.
  unfold prepare_arret_conso. apply shows_log.
  apply shows_emit; [reflexivity |].
  destruct (empty (get_arret_conso_data p s e l)); split; reflexivity.
Qed.

Lemma prepare_clients_shows (p : Processor row) (s e l : date) :
  shows (prepare_clients row p [s; e; l])
        [Fetch (ClientQuery s e l)] (Ok (get_client_data p s e l)).
Proof.
  unfold prepare_clients. apply shows_log.
  apply shows_emit; [reflexivity |].
  destruct (empty (get_client_data p s e l)); split; reflexivity.
Qed.

(** The as-of dates and the shifted bounds of a run, all at once. *)
Lemma run_dates (start_date L : date) :
  valid_date L = true ->
  L = mkdate (year L) (month L) (days_in_month (year L) (month L)) ->
  MINYEAR < year L -> year L < MAXYEAR ->
  valid_date start_date = true -> year start_date < MAXYEAR ->
  exists R A C T s6 r6 t6 l6,
    get_resiliation_preparation_date L = Ok R /\
    get_arret_preparation_date L = Ok A /\
    get_client_preparation_date L = Ok C /\
    add_one_day R = Ok T /\
    add_months start_date 6 = Ok s6 /\ add_months R 6 = Ok r6 /\
    add_months T 6 = Ok t6 /\ add_months L 6 = Ok l6 /\
    valid_date R = true /\ valid_date T = true /\
    valid_date r6 = true /\ valid_date t6 = true /\
    month_index R = month_index L - 1 /\
    day R = Z.min (days_in_month (year R) (month R)) (day L) /\
    ((month_index T = month_index R /\ day T = day R + 1) \/
     (month_index T = month_index R + 1 /\ day T = 1)) /\
    month_index r6 = month_index R + 6 /\
    day r6 = Z.min (days_in_month (year r6) (month r6)) (day R) /\
    month_index t6 = month_index T + 6 /\
    day t6 = Z.min (days_in_month (year t6) (month t6)) (day T).
Proof.
  intros HvL HL HyL HyL' Hvs Hys.
  destruct (month_end_minus_months L 1 HvL HyL)
    as (N & R & HN & _ & HNeq & HR & HvR & HRi & HRd); [lia |].
  destruct (month_end_minus_months L 7 HvL HyL)
    as (N7 & A & HN7 & _ & _ & HA & _); [lia |].
  destruct (month_end_minus_months L 9 HvL HyL)
    as (N9 & C & HN9 & _ & _ & HC & _); [lia |].
  assert (EN : N = L) by congruence. clear HNeq.
  assert (EN7 : N7 = N) by congruence. assert (EN9 : N9 = N) by congruence.
  subst N7 N9 N.
  assert (HyR : year R < MAXYEAR).
  { pose proof HvR as HvR'. apply valid_date_spec in HvR', HvL.
    unfold month_index in HRi. lia. }
  destruct (add_one_day_total R HvR HyR) as (T & HT & HvT & HTcase).
  destruct (add_six_months start_date Hvs) as (s6 & Hs6 & _).
  { pose proof (month_index_bound _ Hvs Hys). lia. }
  destruct (add_six_months R HvR) as (r6 & Hr6 & Hvr6 & Hir6 & Hdr6).
  { pose proof (month_index_bound _ HvR HyR). lia. }
  destruct (add_six_months T HvT) as (t6 & Ht6 & Hvt6 & Hit6 & Hdt6).
  { pose proof (month_index_bound _ HvR HyR). lia. }
  destruct (add_six_months L HvL) as (l6 & Hl6 & _).
  { pose proof (month_index_bound _ HvL HyL'). lia. }
  exists R, A, C, T, s6, r6, t6, l6.
  unfold get_resiliation_preparation_date, get_arret_preparation_date,
    get_client_preparation_date.
  rewrite HN. cbn [rbind].
  repeat (split; [assumption |]). assumption.
Qed.

Lemma prepare_test_data_shows (p : Processor row)
    (date_res last_date start s e : date) :
  add_one_day date_res = Ok start ->
  add_months start 6 = Ok s -> add_months last_date 6 = Ok e ->
  shows (prepare_test_data row p date_res last_date
           (prepare_arret_conso row p) (prepare_clients row p))
        [Fetch (ResiliationQuery s e 0); Fetch (ResiliationQuery s e 1);
         Fetch (ResiliationQuery s e 2)]
        (Raise TypeError).
Proof.
  intros Hstart Hs He. unfold prepare_test_data.
  apply shows_log. apply (shows_lift _ start); [exact Hstart |].
  eapply shows_bind;
    [apply (prepare_all_resiliations_shows p _ _ s e); assumption | |
     symmetry; apply app_nil_r].
  apply shows_log. apply (shows_lift _ start); [exact Hstart |].
  split; reflexivity.
Qed.



(** X9: [prepare_all_resiliations] keeps every row of every scenario: its
    frame is the three retrieved frames one after the other, as many rows
    as they have together, and it logs one warning for each scenario whose
    retrieval came back empty, an empty frame being no error. *)
Theorem resiliation_scenarios_are_concatenated (p : Processor row)
    (start_date end_date s e : date) :
  add_months start_date 6 = Ok s ->
  add_months end_date 6 = Ok e ->
  outcome (prepare_all_resiliations row p start_date end_date) =
    Ok (get_resiliation_data p s e 0 ++ get_resiliation_data p s e 1 ++
        get_resiliation_data p s e 2) /\
  List.length (get_resiliation_data p s e 0 ++ get_resiliation_data p s e 1 ++
               get_resiliation_data p s e 2) =
    (List.length (get_resiliation_data p s e 0) +
     List.length (get_resiliation_data p s e 1) +
     List.length (get_resiliation_data p s e 2))%nat /\
  warnings (trace (prepare_all_resiliations row p start_date end_date)) =
    List.length
      (filter empty [get_resiliation_data p s e 0;
                     get_resiliation_data p s e 1;
                     get_resiliation_data p s e 2]).
Proof.
  intros Hs He.
  unfold prepare_all_resiliations, prepare_resiliation_data.
  rewrite Hs, He.
  split; [| split].
  - cbn. destruct (empty (get_resiliation_data p s e 0));
      destruct (empty (get_resiliation_data p s e 1));
      destruct (empty (get_resiliation_data p s e 2));
      cbn; now rewrite app_nil_r.
  - rewrite !length_app. lia.
  - cbn. destruct (empty (get_resiliation_data p s e 0));
      destruct (empty (get_resiliation_data p s e 1));
      destruct (empty (get_resiliation_data p s e 2)); reflexivity.
Qed.

End Shown.



Lemma resiliation_scenarios_are_concatenated_witness :
  add_months (mkdate 2017 1 1) 6 = Ok (mkdate 2017 7 1) /\
  add_months (mkdate 2023 10 31) 6 = Ok (mkdate 2024 4 30) /\
  outcome (prepare_all_resiliations unit empty_processor
             (mkdate 2017 1 1) (mkdate 2023 10 31)) =
    Ok (get_resiliation_data empty_processor (mkdate 2017 7 1) (mkdate 2024 4 30) 0 ++
        get_resiliation_data empty_processor (mkdate 2017 7 1) (mkdate 2024 4 30) 1 ++
        get_resiliation_data empty_processor (mkdate 2017 7 1) (mkdate 2024 4 30) 2) /\
  List.length
    (get_resiliation_data empty_processor (mkdate 2017 7 1) (mkdate 2024 4 30) 0 ++
     get_resiliation_data empty_processor (mkdate 2017 7 1) (mkdate 2024 4 30) 1 ++
     get_resiliation_data empty_processor (mkdate 2017 7 1) (mkdate 2024 4 30) 2) =
    (List.length (get_resiliation_data empty_processor
                    (mkdate 2017 7 1) (mkdate 2024 4 30) 0) +
     List.length (get_resiliation_data empty_processor
                    (mkdate 2017 7 1) (mkdate 2024 4 30) 1) +
     List.length (get_resiliation_data empty_processor
                    (mkdate 2017 7 1) (mkdate 2024 4 30) 2))%nat /\
  warnings (trace (prepare_all_resiliations unit empty_processor
                     (mkdate 2017 1 1) (mkdate 2023 10 31))) =
    List.length
      (filter empty
         [get_resiliation_data empty_processor (mkdate 2017 7 1) (mkdate 2024 4 30) 0;
          get_resiliation_data empty_processor (mkdate 2017 7 1) (mkdate 2024 4 30) 1;
          get_resiliation_data empty_processor (mkdate 2017 7 1) (mkdate 2024 4 30) 2]).
Proof.
  split; [reflexivity |]. split; [reflexivity |].
  apply (resiliation_scenarios_are_concatenated unit empty_processor
           (mkdate 2017 1 1) (mkdate 2023 10 31)); reflexivity.
Defined.

End PipelineMore.

(** ** More on the two loaders *)

Module FeaturesMore.

Import Features FeaturesFacts.

Local Open Scope string_scope.
Local Open Scope Z_scope.
Local Open Scope result_scope.

Lemma mem_filter_false (name : string) (q : string -> bool) (names : list string) :
  mem name names = false -> mem name (filter q names) = false.
Proof.
  intros H. destruct (mem name (filter q names)) eqn:E; [| reflexivity].
  apply mem_In in E. apply filter_In in E. destruct E as [E _].
  apply mem_In in E. congruence.
Qed.

Lemma combine_map_r {A B : Type} (h : A -> B) (l : list A) :
  combine l (map h l) = map (fun a => (a, h a)) l.
Proof. induction l as [| a l IH]; cbn; [reflexivity | now rewrite IH]. Qed.

Section Loaders.

Variables min_age min_inactivity_months min_revenue : Q.
Variable numerical_features : list string.
Variable int_of_str : string -> result Z.

(** One step through a stage that is not itself a sequence. *)
Ltac leaf_stage :=
  match goal with
  | |- context [rbind ?c _] =>
      lazymatch c with
      | context [rbind] => fail
      | _ => idtac
      end;
      let E := fresh "Stage" in
      destruct c eqn:E; cbn [rbind rmap]; [| try reflexivity; try discriminate]
  end.

(** The training loader is its stages in sequence. *)
Lemma load_data_stages (data_df : DataFrame) (label_column : string) :
  load_data min_age min_inactivity_months min_revenue numerical_features
    int_of_str data_df label_column =
  (prepared <- prepare int_of_str data_df ;;
   filtered <- filter_rows min_age min_inactivity_months min_revenue prepared ;;
   growth <- derived_revenue_growth filtered ;;
   popped <- pop label_column (setitem "revenue_growth" growth filtered) ;;
   x_data <- select numerical_features (snd popped) ;;
   Ok (round2 (reset_index x_data), fst popped)).
Proof.
  unfold load_data, prepare, filter_rows, derived_revenue_growth,
    revenue_growth_denominator.
  repeat leaf_stage. reflexivity.
Qed.

Lemma prepare_columns (data_df prepared : DataFrame) :
  prepare int_of_str data_df = Ok prepared ->
  columns prepared =
  filter (fun c => negb (mem c ["Account"; "CLIENT_ORIGIN_CODE"]))
         (columns data_df).
Proof.
  unfold prepare.
  destruct (drop _ data_df) as [d |] eqn:Hd; [| discriminate]. cbn [rbind].
  destruct (astype _ _ d) as [d' |] eqn:Ha; [| discriminate]. cbn [rbind].
  intros Hf.
  now rewrite (fillna_columns _ _ _ _ Hf), (astype_columns _ _ _ _ Ha),
    (drop_columns _ _ _ Hd).
Qed.

Lemma astype_rows_length (d : list (string * dtype)) (df df' : DataFrame) :
  astype int_of_str d df = Ok df' ->
  List.length (rows df') = List.length (rows df).
Proof.
  unfold astype. destruct (forallb _ d); [| discriminate].
  match goal with |- rbind ?m _ = _ -> _ => destruct m as [rs |] eqn:E end;
    [| discriminate].
  cbn [rbind]. intros [= <-]. cbn [rows]. now apply mapM_length in E.
Qed.

Lemma prepare_rows_length (data_df prepared : DataFrame) :
  prepare int_of_str data_df = Ok prepared ->
  List.length (rows prepared) = List.length (rows data_df).
Proof.
  unfold prepare.
  destruct (drop _ data_df) as [d |] eqn:Hd; [| discriminate]. cbn [rbind].
  destruct (astype _ _ d) as [d' |] eqn:Ha; [| discriminate]. cbn [rbind].
  unfold fillna. destruct (getitem "tenure" d') as [col |] eqn:Hc;
    [| discriminate].
  cbn [rbind]. intros [= <-].
  apply getitem_Ok in Hc.
  rewrite setitem_rows_length by (subst col; now rewrite !length_map).
  rewrite (astype_rows_length _ _ _ Ha).
  unfold drop in Hd. destruct (forallb _ _) in Hd; [| discriminate].
  injection Hd as <-. cbn [rows]. apply length_map.
Qed.

Lemma derived_revenue_growth_mem (data_df : DataFrame) (growth : list cell) :
  derived_revenue_growth data_df = Ok growth ->
  mem "revenue_growth" (columns data_df) = true.
Proof.
  unfold derived_revenue_growth, revenue_growth_denominator.
  destruct (getitem "revenue_6_months" data_df); [| discriminate].
  cbn [rbind].
  destruct (getitem "revenue_growth" data_df) as [raw |] eqn:Hg;
    [| discriminate].
  intros _. now apply getitem_mem in Hg.
Qed.

(** X10: a frame without the label column can be scored but not trained
    on: whenever the inference loader returns on a frame that lacks the
    label column, the training loader raises [KeyError] on it. *)
Theorem load_data_needs_label (data_df x_data : DataFrame)
    (label_column : string) :
  load_data_for_prediction min_age min_inactivity_months min_revenue
    numerical_features int_of_str data_df = Ok x_data ->
  mem label_column (columns data_df) = false ->
  load_data min_age min_inactivity_months min_revenue numerical_features
    int_of_str data_df label_column = Raise KeyError.
Proof.
  intros Hinf Hlabel.
  destruct (load_data_for_prediction_inv _ _ _ _ _ _ _ Hinf)
    as (prepared & filtered & growth & selected & Hp & Hf & Hg & _ & _).
  rewrite load_data_stages, Hp. cbn [rbind]. rewrite Hf. cbn [rbind].
  rewrite Hg. cbn [rbind].
  destruct (filter_rows_spec _ _ _ _ _ Hf) as (Hcols & _).
  unfold pop.
  rewrite setitem_columns by exact (derived_revenue_growth_mem _ _ Hg).
  rewrite Hcols, (prepare_columns _ _ Hp).
  now rewrite (mem_filter_false label_column _ _ Hlabel).
Qed.

(** X11: a frame that lacks an identifier column or a column of the cast
    dictionary is refused at once: both loaders raise [KeyError], whatever
    the rest of the frame holds. *)
Theorem loaders_need_their_columns (data_df : DataFrame)
    (label_column name : string) :
  In name ["Account"; "CLIENT_ORIGIN_CODE"; "main_product"; "business_sector";
           "workforce"; "frequency"] ->
  mem name (columns data_df) = false ->
  load_data_for_prediction min_age min_inactivity_months min_revenue
    numerical_features int_of_str data_df = Raise KeyError /\
  load_data min_age min_inactivity_months min_revenue numerical_features
    int_of_str data_df label_column = Raise KeyError.
Proof.
  intros Hin Hmem.
  assert (Hprep : prepare int_of_str data_df = Raise KeyError).
  { unfold prepare, drop.
    destruct (forallb _ ["Account"; "CLIENT_ORIGIN_CODE"]) eqn:Hids;
      [| reflexivity].
    cbn [rbind]. unfold astype. cbn [columns].
    replace (forallb _ convert_dict) with false; [reflexivity |].
    symmetry. apply not_true_is_false. intros Hall.
    rewrite forallb_forall in Hids, Hall.
    assert (Hfalse : forall n, n = name ->
              mem n (filter (fun c => negb (mem c ["Account"; "CLIENT_ORIGIN_CODE"]))
                       (columns data_df)) = true -> False).
    { intros n -> H. rewrite mem_filter_false in H by exact Hmem.
      discriminate. }
    cbn [In] in Hin.
    destruct Hin as [<- | [<- | [<- | [<- | [<- | [<- | []]]]]]].
    - specialize (Hids "Account" ltac:(now left)). congruence.
    - specialize (Hids "CLIENT_ORIGIN_CODE" ltac:(right; now left)).
      congruence.
    - apply (Hfalse "main_product" eq_refl).
      apply (Hall ("main_product", category)). now left.
    - apply (Hfalse "business_sector" eq_refl).
      apply (Hall ("business_sector", category)). right; now left.
    - apply (Hfalse "workforce" eq_refl).
      apply (Hall ("workforce", category)). right; right; now left.
    - apply (Hfalse "frequency" eq_refl).
      apply (Hall ("frequency", int)). right; right; right; now left. }
  rewrite load_data_for_prediction_stages, load_data_stages, Hprep.
  split; reflexivity.
Qed.

(** X12: the shape of a feature matrix: whenever a loader returns, the
    columns are the numerical features in their order, every row holds
    exactly those labels, the index counts the rows from 0, and there are
    no more rows than the input frame had. *)
Theorem feature_matrix_shape (data_df x_data : DataFrame) :
  (load_data_for_prediction min_age min_inactivity_months min_revenue
     numerical_features int_of_str data_df = Ok x_data \/
   exists label_column y_data,
     load_data min_age min_inactivity_months min_revenue
       numerical_features int_of_str data_df label_column =
     Ok (x_data, y_data)) ->
  columns x_data = numerical_features /\
  Forall (fun ir => map fst (snd ir) = numerical_features) (rows x_data) /\
  map fst (rows x_data) =
    map Z.of_nat (seq 0 (List.length (rows x_data))) /\
  (List.length (rows x_data) <= List.length (rows data_df))%nat.
Proof.
  intros Hrun.
  assert (Hinf : load_data_for_prediction min_age min_inactivity_months
                   min_revenue numerical_features int_of_str data_df =
                 Ok x_data).
  { destruct Hrun as [H | (label_column & y_data & H)]; [exact H |].
    now apply (load_data_Ok_inference _ _ _ _ _ _ _ label_column y_data). }
  destruct (load_data_for_prediction_inv _ _ _ _ _ _ _ Hinf)
    as (prepared & filtered & growth & selected & Hp & Hf & Hg & Hsel & ->).
  pose proof (derived_revenue_growth_length _ _ Hg) as Hlen.
  symmetry in Hlen.
  pose proof (select_rows_length _ _ _ Hsel) as Hsl.
  rewrite setitem_rows_length in Hsl by exact Hlen.
  destruct (filter_rows_spec _ _ _ _ _ Hf) as (_ & Hrows).
  unfold select in Hsel.
  destruct (forallb _ numerical_features); [| discriminate].
  injection Hsel as <-.
  split; [reflexivity |].
  split.
  { unfold round2, reset_index. cbn [rows columns].
    apply Forall_forall. intros ir Hir.
    apply in_map_iff in Hir. destruct Hir as ([i r] & <- & Hir).
    cbn [fst snd]. rewrite map_map. cbn [fst].
    apply in_combine_r in Hir. rewrite map_map in Hir.
    apply in_map_iff in Hir. destruct Hir as (ir0 & <- & _).
    cbn [snd]. now rewrite map_map, map_id. }
  split.
  { rewrite round_reset_rows_length. unfold round2, reset_index.
    cbn [rows columns]. rewrite map_map. cbn [fst].
    apply map_fst_combine. now rewrite !length_map, length_seq. }
  rewrite round_reset_rows_length, Hsl, Hrows,
    <- (prepare_rows_length _ _ Hp).
  apply filter_length_le.
Qed.

(** X13: the labels stay in step with the features.  When the training
    loader returns and the label is not the revenue-growth column, the label
    vector holds, in order and under their original index, the labels of
    exactly the prepared rows that meet the three conditions: one label for
    each row of the feature matrix. *)
Theorem labels_follow_features (data_df x_data : DataFrame)
    (label_column : string) (y_data : Series) :
  load_data min_age min_inactivity_months min_revenue numerical_features
    int_of_str data_df label_column = Ok (x_data, y_data) ->
  label_column <> "revenue_growth" ->
  exists prepared,
    prepare int_of_str data_df = Ok prepared /\
    y_data =
      map (fun ir => (fst ir, cell_of label_column (snd ir)))
        (filter (fun ir => keeps min_age min_inactivity_months min_revenue (snd ir))
                (rows prepared)) /\
    List.length y_data = List.length (rows x_data).
Proof.
  rewrite load_data_stages. intros Hrun Hne.
  destruct (prepare int_of_str data_df) as [prepared |] eqn:Hp;
    [| discriminate].
  cbn [rbind] in Hrun.
  destruct (filter_rows _ _ _ prepared) as [filtered |] eqn:Hf;
    [| discriminate].
  cbn [rbind] in Hrun.
  destruct (derived_revenue_growth filtered) as [growth |] eqn:Hg;
    [| discriminate].
  cbn [rbind] in Hrun.
  destruct (pop label_column _) as [[y popped] |] eqn:Hpop; [| discriminate].
  cbn [rbind fst snd] in Hrun.
  destruct (select numerical_features popped) as [selected |] eqn:Hsel;
    [| discriminate].
  cbn [rbind] in Hrun. injection Hrun as <- <-.
  pose proof (derived_revenue_growth_length _ _ Hg) as Hlen.
  symmetry in Hlen.
  destruct (filter_rows_spec _ _ _ _ _ Hf) as (_ & Hrows).
  unfold pop in Hpop.
  destruct (mem label_column _) in Hpop; [| discriminate].
  injection Hpop as <- <-.
  exists prepared. split; [reflexivity |].
  assert (Hy : map (fun ir => (fst ir, cell_of label_column (snd ir)))
                 (rows (setitem "revenue_growth" growth filtered)) =
               map (fun ir => (fst ir, cell_of label_column (snd ir)))
                 (rows filtered)).
  { unfold setitem. cbn [rows]. rewrite map_map. cbn [fst snd].
    rewrite <- (map_fst_combine (rows filtered) growth Hlen) at 2.
    rewrite map_map. apply map_ext. intros [[i r] v]. cbn [fst snd].
    now rewrite cell_of_set_cell_other. }
  split.
  - rewrite <- Hrows. exact Hy.
  - rewrite round_reset_rows_length, (select_rows_length _ _ _ Hsel).
    cbn [rows]. now rewrite !length_map.
Qed.

End Loaders.

Lemma load_data_needs_label_witness :
  load_data_for_prediction 6 9 300 example_features no_int example_frame =
    Ok example_feature_matrix /\
  mem "label" (columns example_frame) = false /\
  load_data 6 9 300 example_features no_int example_frame "label" =
    Raise KeyError.
Proof.
  split; [vm_compute; reflexivity |]. split; [reflexivity |].
  apply (load_data_needs_label 6 9 300 example_features no_int
           example_frame example_feature_matrix "label");
    vm_compute; reflexivity.
Defined.

Lemma loaders_need_their_columns_witness :
  In "Account" ["Account"; "CLIENT_ORIGIN_CODE"; "main_product";
                "business_sector"; "workforce"; "frequency"] /\
  mem "Account" (columns example_feature_matrix) = false /\
  load_data_for_prediction 6 9 300 example_features no_int
    example_feature_matrix = Raise KeyError /\
  load_data 6 9 300 example_features no_int example_feature_matrix "churn" =
    Raise KeyError.
Proof.
  split; [now left |]. split; [reflexivity |].
  apply (loaders_need_their_columns 6 9 300 example_features no_int
           example_feature_matrix "churn" "Account");
    [now left | reflexivity].
Defined.

Lemma feature_matrix_shape_witness :
  (load_data_for_prediction 6 9 300 example_features no_int example_frame =
     Ok example_feature_matrix \/
   exists label_column y_data,
     load_data 6 9 300 example_features no_int example_frame label_column =
     Ok (example_feature_matrix, y_data)) /\
  columns example_feature_matrix = example_features /\
  Forall (fun ir => map fst (snd ir) = example_features)
    (rows example_feature_matrix) /\
  map fst (rows example_feature_matrix) =
    map Z.of_nat (seq 0 (List.length (rows example_feature_matrix))) /\
  (List.length (rows example_feature_matrix) <=
   List.length (rows example_frame))%nat.
Proof.
  split; [left; vm_compute; reflexivity |].
  apply (feature_matrix_shape 6 9 300 example_features no_int example_frame
           example_feature_matrix).
  left. vm_compute. reflexivity.
Defined.

Lemma labels_follow_features_witness :
  load_data 6 9 300 example_features no_int example_frame "churn" =
    Ok (example_feature_matrix, [(10, Num 0); (13, Num 0)]) /\
  "churn" <> "revenue_growth" /\
  exists prepared,
    prepare no_int example_frame = Ok prepared /\
    [(10, Num 0); (13, Num 0)] =
      map (fun ir => (fst ir, cell_of "churn" (snd ir)))
        (filter (fun ir => keeps 6 9 300 (snd ir)) (rows prepared)) /\
    List.length [(10, Num 0); (13, Num 0)] =
      List.length (rows example_feature_matrix).
Proof.
  split; [vm_compute; reflexivity |]. split; [discriminate |].
  apply (labels_follow_features 6 9 300 example_features no_int
           example_frame example_feature_matrix "churn");
    [vm_compute; reflexivity | discriminate].
Defined.

Section LoadersOnValues.

Variables min_age min_inactivity_months min_revenue : Q.
Variable numerical_features : list string.
Variable int_of_str : string -> result Z.

Lemma getitem_empty (name : string) (cols : list string) :
  mem name cols = true ->
  getitem name {| columns := cols; rows := [] |} = Ok [].
Proof. intros H. unfold getitem. cbn [columns rows]. now rewrite H. Qed.

Lemma setitem_empty (name : string) (cols : list string) :
  mem name cols = true ->
  setitem name [] {| columns := cols; rows := [] |} =
  {| columns := cols; rows := [] |}.
Proof. intros H. unfold setitem. cbn [columns rows]. now rewrite H. Qed.

(** X14: an empty extract is no error: on a frame that has the columns the
    loaders read but no row, both loaders return the empty feature matrix
    over the numerical features, and the training loader an empty label
    vector with it. *)
Theorem loaders_on_empty_frame (cols : list string) (label_column : string) :
  forallb (fun n => mem n cols)
    ["Account"; "CLIENT_ORIGIN_CODE"; "main_product"; "business_sector";
     "workforce"; "frequency"; "tenure"; "inactive_months";
     "revenue_12_months"; "revenue_6_months"; "revenue_growth"] = true ->
  forallb (fun n => mem n cols && negb (mem n ["Account"; "CLIENT_ORIGIN_CODE"]))
    numerical_features = true ->
  mem label_column cols = true ->
  mem label_column ["Account"; "CLIENT_ORIGIN_CODE"] = false ->
  mem label_column numerical_features = false ->
  load_data_for_prediction min_age min_inactivity_months min_revenue
    numerical_features int_of_str {| columns := cols; rows := [] |} =
    Ok {| columns := numerical_features; rows := [] |} /\
  load_data min_age min_inactivity_months min_revenue numerical_features
    int_of_str {| columns := cols; rows := [] |} label_column =
    Ok ({| columns := numerical_features; rows := [] |}, []).
Proof.
  intros Hreq Hfeat Hlabel Hid Hnf.
  rewrite forallb_forall in Hreq.
  set (q := fun c => negb (mem c ["Account"; "CLIENT_ORIGIN_CODE"])).
  set (C := filter q cols).
  assert (Hin : forall n,
            In n ["main_product"; "business_sector"; "workforce"; "frequency";
                  "tenure"; "inactive_months"; "revenue_12_months";
                  "revenue_6_months"; "revenue_growth"] ->
            mem n C = true).
  { intros n Hn. unfold C. rewrite (mem_filter n q).
    - apply Hreq. cbn [In] in *. tauto.
    - cbn [In] in Hn.
      repeat (destruct Hn as [<- | Hn]; [reflexivity |]). destruct Hn. }
  assert (Hprep : prepare int_of_str {| columns := cols; rows := [] |} =
                  Ok {| columns := C; rows := [] |}).
  { unfold prepare, drop. cbn [columns rows map].
    replace (forallb _ ["Account"; "CLIENT_ORIGIN_CODE"]) with true.
    2:{ symmetry. apply forallb_forall. intros n Hn. apply Hreq.
        cbn [In] in *. tauto. }
    cbn [rbind]. unfold astype. cbn [columns rows mapM].
    fold q. fold C.
    replace (forallb _ convert_dict) with true.
    2:{ symmetry. apply forallb_forall. intros [n t] Hn. cbn [fst].
        apply Hin. unfold convert_dict in Hn. cbn [In] in *.
        repeat (destruct Hn as [[= <- <-] | Hn]; [tauto |]). destruct Hn. }
    cbn [rbind]. unfold fillna.
    rewrite getitem_empty by (apply Hin; cbn [In]; tauto).
    cbn [rbind map]. rewrite setitem_empty by (apply Hin; cbn [In]; tauto).
    reflexivity. }
  assert (Hfilt : filter_rows min_age min_inactivity_months min_revenue
                    {| columns := C; rows := [] |} =
                  Ok {| columns := C; rows := [] |}).
  { unfold filter_rows.
    rewrite getitem_empty by (apply Hin; cbn [In]; tauto).
    cbn [rbind mapM]. unfold boolean_index at 1 2. cbn [columns rows mask_filter].
    rewrite getitem_empty by (apply Hin; cbn [In]; tauto).
    cbn [rbind mapM]. unfold boolean_index at 1 2. cbn [columns rows mask_filter].
    rewrite getitem_empty by (apply Hin; cbn [In]; tauto).
    cbn [rbind mapM]. reflexivity. }
  assert (Hgrow : derived_revenue_growth {| columns := C; rows := [] |} = Ok []).
  { unfold derived_revenue_growth, revenue_growth_denominator.
    rewrite !getitem_empty by (apply Hin; cbn [In]; tauto).
    reflexivity. }
  assert (Hmem : forall n, In n numerical_features -> mem n C = true).
  { rewrite forallb_forall in Hfeat. intros n Hn.
    specialize (Hfeat n Hn). apply andb_true_iff in Hfeat.
    destruct Hfeat as [Hc Hq]. unfold C. now rewrite (mem_filter n q). }
  assert (Hset : setitem "revenue_growth" [] {| columns := C; rows := [] |} =
                 {| columns := C; rows := [] |})
    by (apply setitem_empty, Hin; cbn [In]; tauto).
  split.
  - rewrite load_data_for_prediction_stages, Hprep. cbn [rbind].
    rewrite Hfilt. cbn [rbind]. rewrite Hgrow. cbn [rbind]. rewrite Hset.
    unfold select. cbn [columns rows map].
    replace (forallb _ numerical_features) with true
      by (symmetry; apply forallb_forall; exact Hmem).
    reflexivity.
  - rewrite load_data_stages, Hprep. cbn [rbind].
    rewrite Hfilt. cbn [rbind]. rewrite Hgrow. cbn [rbind]. rewrite Hset.
    unfold pop. cbn [columns rows map].
    replace (mem label_column C) with true.
    2:{ symmetry. unfold C. now rewrite (mem_filter label_column q);
          [| unfold q; rewrite Hid]. }
    cbn [rbind fst snd]. unfold select. cbn [columns rows map].
    replace (forallb _ numerical_features) with true; [reflexivity |].
    symmetry. apply forallb_forall. intros n Hn.
    rewrite (mem_filter n (fun c => negb (String.eqb c label_column))).
    + now apply Hmem.
    + destruct (String.eqb_spec n label_column) as [-> |]; [| reflexivity].
      apply mem_In in Hn. congruence.
Qed.

End LoadersOnValues.

Lemma loaders_on_empty_frame_witness :
  forallb (fun n => mem n (columns example_frame))
    ["Account"; "CLIENT_ORIGIN_CODE"; "main_product"; "business_sector";
     "workforce"; "frequency"; "tenure"; "inactive_months";
     "revenue_12_months"; "revenue_6_months"; "revenue_growth"] = true /\
  forallb (fun n => mem n (columns example_frame) &&
                    negb (mem n ["Account"; "CLIENT_ORIGIN_CODE"]))
    example_features = true /\
  mem "churn" (columns example_frame) = true /\
  mem "churn" ["Account"; "CLIENT_ORIGIN_CODE"] = false /\
  mem "churn" example_features = false /\
  load_data_for_prediction 6 9 300 example_features no_int
    {| columns := columns example_frame; rows := [] |} =
    Ok {| columns := example_features; rows := [] |} /\
  load_data 6 9 300 example_features no_int
    {| columns := columns example_frame; rows := [] |} "churn" =
    Ok ({| columns := example_features; rows := [] |}, []).
Proof.
  repeat (split; [reflexivity |]).
  apply (loaders_on_empty_frame 6 9 300 example_features no_int
           (columns example_frame) "churn"); reflexivity.
Defined.

End FeaturesMore.

(** ** Cleaning before prediction *)

Module CleaningFacts.

Import Features FeaturesFacts FeaturesMore Cleaning.

Local Open Scope string_scope.
Local Open Scope Z_scope.
Local Open Scope result_scope.

(** A frame whose rows are those of [R], each rewritten by [S]. *)
Lemma frame_eta (C : list string) (R : list (Z * record)) :
  {| columns := C; rows := R |} =
  {| columns := C; rows := map (fun ir => (fst ir, snd ir)) R |}.
Proof.
  f_equal. rewrite <- (map_id R) at 1. apply map_ext. now intros [i r].
Qed.

Lemma getitem_rewritten (name : string) (C : list string)
    (R : list (Z * record)) (S : Z * record -> record) :
  mem name C = true ->
  getitem name {| columns := C; rows := map (fun ir => (fst ir, S ir)) R |} =
  Ok (map (fun ir => cell_of name (S ir)) R).
Proof.
  intros H. unfold getitem. cbn [columns rows]. rewrite H.
  now rewrite map_map.
Qed.

Lemma setitem_rewritten (name : string) (C : list string)
    (R : list (Z * record)) (S : Z * record -> record)
    (h : Z * record -> cell) :
  mem name C = true ->
  setitem name (map h R)
    {| columns := C; rows := map (fun ir => (fst ir, S ir)) R |} =
  {| columns := C;
     rows := map (fun ir => (fst ir, set_cell name (h ir) (S ir))) R |}.
Proof.
  intros H. unfold setitem. cbn [columns rows]. rewrite H. f_equal.
  induction R as [| a R IH]; cbn; [reflexivity |]. now rewrite IH.
Qed.

Lemma np_where_maps {A : Type} (p : A -> bool) (x : cell) (g : A -> cell)
    (R : list A) :
  np_where (map p R) x (map g R) = map (fun a => if p a then x else g a) R.
Proof.
  unfold np_where. induction R as [| a R IH]; cbn; [reflexivity |].
  now rewrite IH.
Qed.

Lemma mask_and_maps {A : Type} (p q : A -> bool) (R : list A) :
  mask_and (map p R) (map q R) = map (fun a => p a && q a) R.
Proof.
  unfold mask_and. induction R as [| a R IH]; cbn; [reflexivity |].
  now rewrite IH.
Qed.

Lemma mask_filter_maps {A : Type} (p : A -> bool) (R : list A) :
  mask_filter (map p R) R = filter p R.
Proof.
  induction R as [| a R IH]; cbn; [reflexivity |]. now rewrite IH.
Qed.

Lemma filter_map_swap {A B : Type} (p : B -> bool) (f : A -> B) (l : list A) :
  filter p (map f l) = map f (filter (fun a => p (f a)) l).
Proof.
  induction l as [| a l IH]; cbn; [reflexivity |].
  destruct (p (f a)); cbn; now rewrite IH.
Qed.

(** A comparison of a column with a number fails only on text. *)
Lemma mapM_compare {A : Type} (f : cell -> result bool) (g : A -> cell)
    (R : list A) :
  (forall c, f c = if comparable c then Ok (holds (f c)) else Raise TypeError) ->
  mapM f (map g R) =
  if forallb (fun a => comparable (g a)) R
  then Ok (map (fun a => holds (f (g a))) R)
  else Raise TypeError.
Proof.
  intros Hf. induction R as [| a R IH]; [reflexivity |].
  cbn [map mapM forallb]. rewrite (Hf (g a)).
  destruct (comparable (g a)); [| reflexivity].
  cbn [rbind andb]. rewrite IH.
  destruct (forallb _ R); [| reflexivity].
  cbn [rbind map]. now rewrite holds_Ok.
Qed.

Lemma lt_shape (t : Q) (c : cell) :
  lt c t = if comparable c then Ok (holds (lt c t)) else Raise TypeError.
Proof. destruct c; cbn [lt comparable]; now rewrite ?holds_Ok. Qed.

Lemma ge_shape (t : Q) (c : cell) :
  ge c t = if comparable c then Ok (holds (ge c t)) else Raise TypeError.
Proof. destruct c; cbn [ge comparable]; now rewrite ?holds_Ok. Qed.

Lemma le_shape (t : Q) (c : cell) :
  le c t = if comparable c then Ok (holds (le c t)) else Raise TypeError.
Proof. destruct c; cbn [le comparable]; now rewrite ?holds_Ok. Qed.

(** What cleaning does to the cells of a row. *)
Lemma cell_of_clean_age (r : record) :
  cell_of "age_business" (clean_record r) =
  clean_age (cell_of "age_business" r).
Proof.
  unfold clean_record, clean_age. cbv zeta.
  repeat (rewrite cell_of_set_cell_same ||
          rewrite cell_of_set_cell_other by discriminate).
  reflexivity.
Qed.

Lemma cell_of_clean_tenure (r : record) :
  cell_of "tenure" (clean_record r) = clean_tenure (cell_of "tenure" r).
Proof.
  unfold clean_record, clean_tenure. cbv zeta.
  repeat (rewrite cell_of_set_cell_same ||
          rewrite cell_of_set_cell_other by discriminate).
  reflexivity.
Qed.

Lemma cell_of_clean_employees (r : record) :
  cell_of "employees" (clean_record r) =
  clean_employees (cell_of "employees" r).
Proof.
  unfold clean_record, clean_employees. cbv zeta.
  repeat (rewrite cell_of_set_cell_same ||
          rewrite cell_of_set_cell_other by discriminate).
  reflexivity.
Qed.

Lemma cell_of_clean_other (name : string) (r : record) :
  name <> "age_business" -> name <> "tenure" -> name <> "employees" ->
  cell_of name (clean_record r) = cell_of name r.
Proof.
  intros Ha Ht He. unfold clean_record. cbv zeta.
  now rewrite !cell_of_set_cell_other by assumption.
Qed.

Lemma holds_ge_clean_tenure (c : cell) :
  holds (ge (clean_tenure c) 6) = holds (ge c 6).
Proof.
  destruct c as [q | [] | | s]; try reflexivity.
  unfold clean_tenure, fill. cbn [lt holds].
  destruct (Qle_bool 0 q) eqn:E; cbn [negb isna]; [reflexivity |].
  cbn [ge holds]. symmetry.
  destruct (Qle_bool 6 q) eqn:E6; [| reflexivity].
  apply Qle_bool_iff in E6.
  assert (H0 : (0 <= q)%Q) by (eapply Qle_trans; [| exact E6]; discriminate).
  apply Qle_bool_iff in H0. congruence.
Qed.

Lemma passes_filter_clean (r : record) :
  passes_filter (clean_record r) = passes_filter r.
Proof.
  unfold passes_filter.
  rewrite cell_of_clean_tenure, holds_ge_clean_tenure.
  now rewrite !cell_of_clean_other by discriminate.
Qed.

Lemma mask_filter_rewritten {A B : Type} (p : A -> bool) (U : A -> B)
    (R : list A) :
  mask_filter (map p R) (map U R) = map U (filter p R).
Proof.
  induction R as [| a R IH]; cbn; [reflexivity |].
  destruct (p a); cbn; now rewrite IH.
Qed.

Lemma forallb_false_of {A : Type} (p q : A -> bool) (R : list A) :
  (forall a, q a = true -> p a = true) ->
  forallb p R = false -> forallb q R = false.
Proof.
  intros Himp Hp. destruct (forallb q R) eqn:Hq; [| reflexivity].
  rewrite forallb_forall in Hq.
  assert (forallb p R = true)
    by (apply forallb_forall; intros a Ha; apply Himp, Hq, Ha).
  congruence.
Qed.

Lemma comparable_clean_tenure (c : cell) :
  comparable (clean_tenure c) = comparable c.
Proof.
  destruct c as [q | [] | | s]; try reflexivity.
  unfold clean_tenure, fill. cbn [lt holds].
  now destruct (negb (Qle_bool 0 q)).
Qed.

Lemma comparable_row_spec (r : record) :
  comparable_row r = true <->
  comparable (cell_of "age_business" r) = true /\
  comparable (cell_of "tenure" r) = true /\
  comparable (cell_of "months_inactive" r) = true /\
  comparable (cell_of "CA_12_months" r) = true.
Proof. unfold comparable_row. rewrite !andb_true_iff. tauto. Qed.

(** The whole function on a frame that has its five columns: it raises
    [TypeError] when a compared cell holds text, and otherwise returns the
    rows that pass the filter, cleaned. *)
Lemma prepare_xgb_prediction_data_run (data : DataFrame) :
  mem "age_business" (columns data) = true ->
  mem "tenure" (columns data) = true ->
  mem "employees" (columns data) = true ->
  mem "months_inactive" (columns data) = true ->
  mem "CA_12_months" (columns data) = true ->
  prepare_xgb_prediction_data data =
  if forallb (fun ir => comparable_row (snd ir)) (rows data)
  then Ok {| columns := columns data;
             rows := map (fun ir => (fst ir, clean_record (snd ir)))
                       (filter (fun ir => passes_filter (snd ir)) (rows data)) |}
  else Raise TypeError.
Proof.
  destruct data as [C R]. cbn [columns rows]. intros Ha Ht He Hm Hc.
  unfold prepare_xgb_prediction_data. rewrite (frame_eta C R).
  rewrite getitem_rewritten by assumption. cbn [rbind].
  rewrite (mapM_compare _ _ _ (lt_shape 0)).
  destruct (forallb _ R) eqn:E1 at 1; cbn [rbind].
  2:{ rewrite (forallb_false_of _ (fun ir => comparable_row (snd ir)) R
                 (fun a H => proj1 (proj1 (comparable_row_spec (snd a)) H)) E1).
      reflexivity. }
  rewrite np_where_maps, setitem_rewritten by assumption.
  rewrite getitem_rewritten by assumption. cbn [rbind].
  rewrite (mapM_compare _ _ _ (lt_shape 0)).
  destruct (forallb _ R) eqn:E2 at 1; cbn [rbind].
  2:{ rewrite (forallb_false_of _ (fun ir => comparable_row (snd ir)) R)
        with (2 := E2); [reflexivity |].
      intros a H. rewrite cell_of_set_cell_other by discriminate.
      now apply comparable_row_spec in H. }
  rewrite np_where_maps, setitem_rewritten by assumption.
  rewrite getitem_rewritten by assumption. cbn [rbind].
  rewrite map_map, setitem_rewritten by assumption.
  unfold fillna.
  rewrite getitem_rewritten by assumption. cbn [rbind].
  rewrite map_map, setitem_rewritten by assumption.
  rewrite getitem_rewritten by assumption. cbn [rbind].
  rewrite map_map, setitem_rewritten by assumption.
  rewrite getitem_rewritten by assumption. cbn [rbind].
  rewrite map_map, setitem_rewritten by assumption.
  match goal with
  | |- context [map (fun ir : Z * record => (fst ir, @?S ir)) R] =>
      change (map (fun ir : Z * record => (fst ir, S ir)) R)
        with (map (fun ir : Z * record => (fst ir, clean_record (snd ir))) R)
  end.
  rewrite getitem_rewritten by assumption. cbn [rbind].
  rewrite (mapM_compare _ _ _ (ge_shape 6)).
  destruct (forallb _ R) eqn:E3 at 1; cbn [rbind].
  2:{ rewrite (forallb_false_of _ (fun ir => comparable_row (snd ir)) R)
        with (2 := E3); [reflexivity |].
      intros a H.
      change (comparable (cell_of "tenure" (clean_record (snd a))) = true).
      rewrite cell_of_clean_tenure, comparable_clean_tenure.
      now apply comparable_row_spec in H. }
  rewrite getitem_rewritten by assumption. cbn [rbind].
  rewrite (mapM_compare _ _ _ (le_shape 9)).
  destruct (forallb _ R) eqn:E4 at 1; cbn [rbind].
  2:{ rewrite (forallb_false_of _ (fun ir => comparable_row (snd ir)) R)
        with (2 := E4); [reflexivity |].
      intros a H.
      change (comparable (cell_of "months_inactive" (clean_record (snd a)))
              = true).
      rewrite cell_of_clean_other by discriminate.
      now apply comparable_row_spec in H. }
  rewrite getitem_rewritten by assumption. cbn [rbind].
  rewrite (mapM_compare _ _ _ (ge_shape 300)).
  destruct (forallb _ R) eqn:E5 at 1; cbn [rbind].
  2:{ rewrite (forallb_false_of _ (fun ir => comparable_row (snd ir)) R)
        with (2 := E5); [reflexivity |].
      intros a H.
      change (comparable (cell_of "CA_12_months" (clean_record (snd a)))
              = true).
      rewrite cell_of_clean_other by discriminate.
      now apply comparable_row_spec in H. }
  rewrite !mask_and_maps. unfold boolean_index. cbn [columns rows].
  rewrite mask_filter_rewritten.
  replace (forallb (fun ir : Z * record => comparable_row (snd ir)) R)
    with true.
  2:{ symmetry. apply forallb_forall. intros a Hin.
      rewrite forallb_forall in E1, E2, E3, E4, E5.
      specialize (E1 a Hin). specialize (E2 a Hin). specialize (E3 a Hin).
      specialize (E4 a Hin). specialize (E5 a Hin). cbv beta in *.
      rewrite cell_of_set_cell_other in E2 by discriminate.
      change (comparable (cell_of "months_inactive" (clean_record (snd a)))
              = true) in E4.
      change (comparable (cell_of "CA_12_months" (clean_record (snd a)))
              = true) in E5.
      rewrite cell_of_clean_other in E4, E5 by discriminate.
      apply comparable_row_spec. tauto. }
  apply f_equal.
  apply (f_equal (fun rs : list (Z * record) => {| columns := C; rows := rs |})).
  apply (f_equal (map (fun ir : Z * record => (fst ir, clean_record (snd ir))))).
  apply filter_ext. intros a.
  change (passes_filter (clean_record (snd a)) = passes_filter (snd a)).
  apply passes_filter_clean.
Qed.

Ltac cleaning_stage :=
  match goal with
  | |- context [rbind ?c _] =>
      lazymatch c with
      | context [rbind] => fail
      | _ => idtac
      end;
      let E := fresh "Stage" in
      destruct c eqn:E; cbn [rbind]; [| discriminate]
  end.

Ltac present := first [assumption | rewrite setitem_columns; present].

(** A frame comes back only when the five columns the function reads are
    there. *)
Lemma prepare_xgb_prediction_data_columns (data out : DataFrame) :
  prepare_xgb_prediction_data data = Ok out ->
  mem "age_business" (columns data) = true /\
  mem "tenure" (columns data) = true /\
  mem "employees" (columns data) = true /\
  mem "months_inactive" (columns data) = true /\
  mem "CA_12_months" (columns data) = true.
Proof.
  unfold prepare_xgb_prediction_data. intros H. revert H.
  repeat cleaning_stage. intros _.
  apply getitem_mem in Stage, Stage1, Stage3, Stage9, Stage11.
  apply fillna_columns in Stage4, Stage5, Stage6.
  rewrite setitem_columns in Stage1 by exact Stage.
  rewrite !setitem_columns in Stage3 by present.
  rewrite !setitem_columns in Stage4 by present.
  rewrite Stage6, Stage5, Stage4 in Stage9, Stage11.
  repeat split; assumption.
Qed.

(** What a frame that comes back looks like. *)
Lemma prepare_xgb_prediction_data_Ok (data out : DataFrame) :
  prepare_xgb_prediction_data data = Ok out ->
  forallb (fun ir => comparable_row (snd ir)) (rows data) = true /\
  out = {| columns := columns data;
           rows := map (fun ir => (fst ir, clean_record (snd ir)))
                     (filter (fun ir => passes_filter (snd ir)) (rows data)) |}.
Proof.
  intros H.
  destruct (prepare_xgb_prediction_data_columns data out H)
    as (Ha & Ht & He & Hm & Hc).
  rewrite (prepare_xgb_prediction_data_run data Ha Ht He Hm Hc) in H.
  destruct (forallb _ (rows data)); [| discriminate].
  split; [reflexivity |]. now injection H as <-.
Qed.

(** The only errors a column access and a comparison raise. *)
Lemma getitem_Raise (name : string) (df : DataFrame) (e : exn) :
  getitem name df = Raise e -> e = KeyError.
Proof.
  unfold getitem. destruct (mem name (columns df)); [discriminate |].
  now intros [= <-].
Qed.

Lemma fillna_Raise (name : string) (v : cell) (df : DataFrame) (e : exn) :
  fillna name v df = Raise e -> e = KeyError.
Proof.
  unfold fillna. destruct (getitem name df) eqn:E; cbn [rbind];
    [discriminate |].
  intros [= <-]. exact (getitem_Raise _ _ _ E).
Qed.

Lemma mapM_Raise {A B : Type} (f : A -> result B) (l : list A) (e : exn) :
  mapM f l = Raise e -> exists a, In a l /\ f a = Raise e.
Proof.
  induction l as [| a l IH]; [discriminate |].
  cbn [mapM]. destruct (f a) eqn:Ea; cbn [rbind].
  - destruct (mapM f l) eqn:El; cbn [rbind]; [discriminate |].
    intros [= <-]. destruct (IH eq_refl) as (b & Hb & Hfb).
    exists b. split; [now right | exact Hfb].
  - intros [= <-]. exists a. split; [now left | exact Ea].
Qed.

Lemma lt_Raise (c : cell) (t : Q) (e : exn) : lt c t = Raise e -> e = TypeError.
Proof. destruct c; cbn; try discriminate. now intros [= <-]. Qed.

Lemma ge_Raise (c : cell) (t : Q) (e : exn) : ge c t = Raise e -> e = TypeError.
Proof. destruct c; cbn; try discriminate. now intros [= <-]. Qed.

Lemma le_Raise (c : cell) (t : Q) (e : exn) : le c t = Raise e -> e = TypeError.
Proof. destruct c; cbn; try discriminate. now intros [= <-]. Qed.

Ltac failing_stage :=
  match goal with
  | |- context [rbind ?c _] =>
      lazymatch c with
      | context [rbind] => fail
      | _ => idtac
      end;
      let E := fresh "Stage" in
      destruct c eqn:E; cbn [rbind];
      [| intros [= <-];
         first [ left; exact (getitem_Raise _ _ _ E)
               | left; exact (fillna_Raise _ _ _ _ E)
               | right; apply mapM_Raise in E; destruct E as (? & _ & E);
                 first [ exact (lt_Raise _ _ _ E) | exact (ge_Raise _ _ _ E)
                       | exact (le_Raise _ _ _ E) ] ] ]
  end.

Lemma prepare_xgb_prediction_data_Raise (data : DataFrame) (e : exn) :
  prepare_xgb_prediction_data data = Raise e -> e = KeyError \/ e = TypeError.
Proof.
  unfold prepare_xgb_prediction_data. repeat failing_stage. discriminate.
Qed.

(** Labels of a row under an assignment. *)
Lemma set_cell_bound (name : string) (v : cell) (r : record) :
  In name (map fst (set_cell name v r)).
Proof.
  induction r as [| [k c] r IH]; cbn; [now left |].
  destruct (String.eqb_spec k name) as [-> | Hk]; cbn; [now left | now right].
Qed.

Lemma set_cell_keeps_bound (k name : string) (v : cell) (r : record) :
  In k (map fst r) -> In k (map fst (set_cell name v r)).
Proof.
  induction r as [| [k' c] r IH]; cbn; [contradiction |].
  destruct (String.eqb k' name); cbn; intros [H | H]; auto.
Qed.

Lemma set_cell_same_value (name : string) (v : cell) (r : record) :
  In name (map fst r) -> v = cell_of name r -> set_cell name v r = r.
Proof.
  intros Hin ->. unfold cell_of.
  induction r as [| [k c] r IH]; cbn in *; [contradiction |].
  destruct (String.eqb_spec k name) as [-> | Hk]; cbn; [reflexivity |].
  f_equal. apply IH. destruct Hin; [contradiction | assumption].
Qed.

Lemma clean_record_bound (r : record) :
  In "age_business" (map fst (clean_record r)) /\
  In "tenure" (map fst (clean_record r)) /\
  In "employees" (map fst (clean_record r)).
Proof.
  unfold clean_record. cbv zeta.
  repeat split;
    repeat first [apply set_cell_bound | apply set_cell_keeps_bound].
Qed.

(** Cleaned cells need no more cleaning. *)
Lemma clean_age_settled (c : cell) :
  holds (lt (clean_age c) 0) = false /\ isna (clean_age c) = false.
Proof.
  destruct c as [q | [] | | s]; try (split; reflexivity).
  unfold clean_age, fill. cbn [lt holds].
  destruct (Qle_bool 0 q) eqn:E; cbn [negb isna lt holds].
  - rewrite E. now split.
  - now split.
Qed.

Lemma clean_tenure_settled (c : cell) :
  holds (lt (clean_tenure c) 0) = false /\ isna (clean_tenure c) = false.
Proof.
  destruct c as [q | [] | | s]; try (split; reflexivity).
  unfold clean_tenure, fill. cbn [lt holds].
  destruct (Qle_bool 0 q) eqn:E; cbn [negb isna lt holds].
  - rewrite E. now split.
  - now split.
Qed.

Lemma clean_employees_settled (c : cell) :
  replace employees_mapping (clean_employees c) = clean_employees c /\
  isna (clean_employees c) = false.
Proof.
  destruct c as [q | b | | s]; try (split; reflexivity).
  unfold clean_employees, replace, employees_mapping. cbn [find fst snd].
  destruct (String.eqb "Unknown" s) eqn:E1; [split; reflexivity |].
  destruct (String.eqb "0 employees as of 31/12" s) eqn:E2;
    [split; reflexivity |].
  destruct (String.eqb "1 to 9" s) eqn:E3; [split; reflexivity |].
  destruct (String.eqb "Unit without employees" s) eqn:E4;
    [split; reflexivity |].
  cbn [fill isna find fst snd]. rewrite E1, E2, E3, E4. now split.
Qed.

Lemma comparable_clean_age (c : cell) :
  comparable (clean_age c) = comparable c.
Proof.
  destruct c as [q | [] | | s]; try reflexivity.
  unfold clean_age, fill. cbn [lt holds].
  now destruct (negb (Qle_bool 0 q)).
Qed.

Lemma comparable_row_clean (r : record) :
  comparable_row (clean_record r) = comparable_row r.
Proof.
  unfold comparable_row.
  rewrite cell_of_clean_age, cell_of_clean_tenure.
  rewrite !cell_of_clean_other by discriminate.
  now rewrite comparable_clean_age, comparable_clean_tenure.
Qed.

(** Cleaning a cleaned row changes nothing. *)
Lemma clean_record_idempotent (r : record) :
  clean_record (clean_record r) = clean_record r.
Proof.
  destruct (clean_record_bound r) as (Ba & Bt & Be).
  pose proof (cell_of_clean_age r) as Ca.
  pose proof (cell_of_clean_tenure r) as Ct.
  pose proof (cell_of_clean_employees r) as Ce.
  destruct (clean_age_settled (cell_of "age_business" r)) as (Sa & Na).
  destruct (clean_tenure_settled (cell_of "tenure" r)) as (St & Nt).
  destruct (clean_employees_settled (cell_of "employees" r)) as (Se & Ne).
  rewrite <- Ca in Sa, Na. rewrite <- Ct in St, Nt. rewrite <- Ce in Se, Ne.
  set (r' := clean_record r) in *. clearbody r'. clear Ca Ct Ce.
  unfold clean_record. cbv zeta.
  rewrite Sa.
  rewrite (set_cell_same_value "age_business" _ r' Ba eq_refl).
  rewrite St.
  rewrite (set_cell_same_value "tenure" _ r' Bt eq_refl).
  rewrite Se.
  rewrite (set_cell_same_value "employees" _ r' Be eq_refl).
  unfold fill. rewrite Nt.
  rewrite (set_cell_same_value "tenure" _ r' Bt eq_refl).
  rewrite Na.
  rewrite (set_cell_same_value "age_business" _ r' Ba eq_refl).
  rewrite Ne.
  apply (set_cell_same_value "employees" _ r' Be eq_refl).
Qed.

Lemma filter_twice {A : Type} (p : A -> bool) (l : list A) :
  filter p (filter p l) = filter p l.
Proof.
  induction l as [| a l IH]; [reflexivity |].
  cbn. destruct (p a) eqn:E; cbn; rewrite ?E, IH; reflexivity.
Qed.

Lemma clean_tenure_kept (c : cell) :
  holds (ge c 6) = true -> clean_tenure c = c.
Proof.
  destruct c as [q | [] | | s]; try discriminate; try reflexivity.
  cbn [ge holds]. intros H6. unfold clean_tenure, fill. cbn [lt holds].
  destruct (Qle_bool 0 q) eqn:E; [reflexivity |].
  exfalso. destruct (Qle_bool 6 q) eqn:E6; [| discriminate].
  apply Qle_bool_iff in E6.
  assert (Qle_bool 0 q = true); [| congruence].
  apply Qle_bool_iff. apply Qle_trans with (y := 6%Q); [discriminate | exact E6].
Qed.

Lemma replace_not_a_key (c : cell) (k v : string) :
  replace employees_mapping c = c -> In (k, v) employees_mapping ->
  c <> Str k.
Proof.
  intros Hc Hin ->. cbn in Hin.
  repeat destruct Hin as [[= <- <-] | Hin]; try discriminate Hc.
  contradiction.
Qed.

(** X16: on a frame that has the five columns age_business, tenure,
    employees, months_inactive and CA_12_months,
    [prepare_xgb_prediction_data] raises [TypeError] exactly when some row
    holds text in one of the four columns it compares with a number
    (age_business, tenure, months_inactive, CA_12_months), and returns a frame
    exactly when no row does; missing values and infinities never make it
    fail. *)
Theorem cleaning_fails_only_on_text (data : DataFrame) :
  mem "age_business" (columns data) = true ->
  mem "tenure" (columns data) = true ->
  mem "employees" (columns data) = true ->
  mem "months_inactive" (columns data) = true ->
  mem "CA_12_months" (columns data) = true ->
  (prepare_xgb_prediction_data data = Raise TypeError <->
   exists ir, In ir (rows data) /\ comparable_row (snd ir) = false) /\
  ((exists out, prepare_xgb_prediction_data data = Ok out) <->
   forall ir, In ir (rows data) -> comparable_row (snd ir) = true).
Proof.
  intros Ha Ht He Hm Hc.
  rewrite (prepare_xgb_prediction_data_run data Ha Ht He Hm Hc).
  destruct (forallb (fun ir => comparable_row (snd ir)) (rows data)) eqn:E.
  - rewrite forallb_forall in E. split; split.
    + discriminate.
    + intros (ir & Hin & Hno). rewrite (E ir Hin) in Hno. discriminate.
    + intros _. exact E.
    + intros _. eexists. reflexivity.
  - assert (Hex : exists ir, In ir (rows data) /\ comparable_row (snd ir) = false).
    { clear - E. induction (rows data) as [| a l IH]; [discriminate |].
      cbn in E. destruct (comparable_row (snd a)) eqn:Ea.
      - destruct (IH E) as (ir & Hin & Hno). exists ir. split; [now right | exact Hno].
      - exists a. split; [now left | exact Ea]. }
    split; split.
    + intros _. exact Hex.
    + reflexivity.
    + intros (out & Hout). discriminate.
    + intros Hall. destruct Hex as (ir & Hin & Hno).
      rewrite (Hall ir Hin) in Hno. discriminate.
Qed.

Lemma cleaning_fails_only_on_text_witness :
  mem "age_business" (columns raw_clients) = true /\
  mem "tenure" (columns raw_clients) = true /\
  mem "employees" (columns raw_clients) = true /\
  mem "months_inactive" (columns raw_clients) = true /\
  mem "CA_12_months" (columns raw_clients) = true /\
  (prepare_xgb_prediction_data raw_clients = Raise TypeError <->
   exists ir, In ir (rows raw_clients) /\ comparable_row (snd ir) = false) /\
  ((exists out, prepare_xgb_prediction_data raw_clients = Ok out) <->
   forall ir, In ir (rows raw_clients) -> comparable_row (snd ir) = true).
Proof.
  repeat (split; [reflexivity |]).
  apply (cleaning_fails_only_on_text raw_clients); reflexivity.
Defined.

(** X17: when one of the five columns [prepare_xgb_prediction_data] reads is
    missing from the frame, no frame comes back: the call raises [KeyError],
    or [TypeError] when a text cell of a column compared earlier is met
    first.  The errors of the function are these two for every input, and a
    missing age_business column, read first, always gives [KeyError]. *)
Theorem cleaning_needs_its_columns (data : DataFrame) (name : string) :
  In name ["age_business"; "tenure"; "employees"; "months_inactive";
           "CA_12_months"] ->
  mem name (columns data) = false ->
  (prepare_xgb_prediction_data data = Raise KeyError \/
   prepare_xgb_prediction_data data = Raise TypeError) /\
  (name = "age_business" ->
   prepare_xgb_prediction_data data = Raise KeyError).
Proof.
  intros Hin Hno. split.
  - destruct (prepare_xgb_prediction_data data) as [out | e] eqn:E.
    + exfalso.
      destruct (prepare_xgb_prediction_data_columns data out E)
        as (Ha & Ht & He & Hm & Hc).
      cbn in Hin.
      repeat destruct Hin as [<- | Hin]; congruence.
    + destruct (prepare_xgb_prediction_data_Raise data e E) as [-> | ->];
        [now left | now right].
  - intros ->. unfold prepare_xgb_prediction_data, getitem.
    now rewrite Hno.
Qed.

Lemma cleaning_needs_its_columns_witness :
  In "CA_12_months" ["age_business"; "tenure"; "employees"; "months_inactive";
                     "CA_12_months"] /\
  mem "CA_12_months"
    (columns {| columns := ["age_business"; "tenure"; "employees";
                            "months_inactive"];
                rows := rows raw_clients |}) = false /\
  (prepare_xgb_prediction_data
     {| columns := ["age_business"; "tenure"; "employees"; "months_inactive"];
        rows := rows raw_clients |} = Raise KeyError \/
   prepare_xgb_prediction_data
     {| columns := ["age_business"; "tenure"; "employees"; "months_inactive"];
        rows := rows raw_clients |} = Raise TypeError) /\
  ("CA_12_months" = "age_business" ->
   prepare_xgb_prediction_data
     {| columns := ["age_business"; "tenure"; "employees"; "months_inactive"];
        rows := rows raw_clients |} = Raise KeyError).
Proof.
  split; [cbn; tauto |]. split; [reflexivity |].
  apply (cleaning_needs_its_columns
           {| columns := ["age_business"; "tenure"; "employees";
                          "months_inactive"];
              rows := rows raw_clients |} "CA_12_months");
    [cbn; tauto | reflexivity].
Defined.

(** X18: the frame [prepare_xgb_prediction_data] returns has the columns of
    the input and holds exactly the input rows whose values as passed in meet
    tenure >= 6, months_inactive <= 9 and CA_12_months >= 300, each cleaned,
    in their order and under their index labels (the index is not reset): the
    cleaning done before the filter never changes which rows pass. *)
Theorem cleaning_keeps_rows_that_pass (data out : DataFrame) :
  prepare_xgb_prediction_data data = Ok out ->
  columns out = columns data /\
  map fst (rows out) =
    map fst (filter (fun ir => passes_filter (snd ir)) (rows data)) /\
  (forall i r, In (i, r) (rows out) <->
     exists r0, In (i, r0) (rows data) /\ passes_filter r0 = true /\
                r = clean_record r0) /\
  (List.length (rows out) <= List.length (rows data))%nat.
Proof.
  intros H. destruct (prepare_xgb_prediction_data_Ok data out H) as (_ & ->).
  cbn [columns rows]. split; [reflexivity |]. split.
  { rewrite map_map. now apply map_ext. }
  split.
  - intros i r. rewrite in_map_iff. split.
    + intros ([i0 r0] & [= <- <-] & Hin). apply filter_In in Hin.
      exists r0. now split.
    + intros (r0 & Hin & Hp & ->). exists (i, r0). split; [reflexivity |].
      apply filter_In. now split.
  - rewrite length_map. apply filter_length_le.
Qed.

Lemma cleaning_keeps_rows_that_pass_witness :
  prepare_xgb_prediction_data raw_clients =
    Ok {| columns := columns raw_clients;
          rows := [(0, [("age_business", Num 0); ("tenure", Num 24);
                        ("employees", Str "1 or 2 employees");
                        ("months_inactive", Num 2);
                        ("CA_12_months", Num 1000)]);
                   (2, [("age_business", Num 0); ("tenure", Num 6);
                        ("employees", Str "1 or 2 employees");
                        ("months_inactive", Num 9);
                        ("CA_12_months", Num 300)])] |} /\
  map fst (filter (fun ir => passes_filter (snd ir)) (rows raw_clients)) =
    [0; 2].
Proof.
  split; [reflexivity |].
  symmetry.
  exact (proj1 (proj2 (cleaning_keeps_rows_that_pass raw_clients _ eq_refl))).
Defined.

(** X19: every row of the frame [prepare_xgb_prediction_data] returns meets
    the three thresholds (tenure >= 6, months_inactive <= 9,
    CA_12_months >= 300), has no missing value in age_business, tenure or
    employees, has no negative age_business, and has none of the four head
    count labels the mapping rewrites. *)
Theorem survivors_are_clean (data out : DataFrame) (i : Z) (r : record) :
  prepare_xgb_prediction_data data = Ok out ->
  In (i, r) (rows out) ->
  holds (ge (cell_of "tenure" r) 6) = true /\
  holds (le (cell_of "months_inactive" r) 9) = true /\
  holds (ge (cell_of "CA_12_months" r) 300) = true /\
  holds (lt (cell_of "age_business" r) 0) = false /\
  isna (cell_of "age_business" r) = false /\
  isna (cell_of "tenure" r) = false /\
  isna (cell_of "employees" r) = false /\
  (forall k v, In (k, v) employees_mapping -> cell_of "employees" r <> Str k).
Proof.
  intros H Hin.
  destruct (prepare_xgb_prediction_data_Ok data out H) as (_ & ->).
  cbn [rows] in Hin. apply in_map_iff in Hin.
  destruct Hin as ([i0 r0] & [= <- <-] & Hin). apply filter_In in Hin.
  destruct Hin as (_ & Hp). cbn [snd] in Hp.
  rewrite <- passes_filter_clean in Hp. unfold passes_filter in Hp.
  apply andb_true_iff in Hp. destruct Hp as (Hp & Hrev).
  apply andb_true_iff in Hp. destruct Hp as (Hten & Hina).
  rewrite cell_of_clean_age, cell_of_clean_tenure, cell_of_clean_employees in *.
  destruct (clean_age_settled (cell_of "age_business" r0)) as (Sa & Na).
  destruct (clean_tenure_settled (cell_of "tenure" r0)) as (_ & Nt).
  destruct (clean_employees_settled (cell_of "employees" r0)) as (Se & Ne).
  repeat (split; [assumption |]).
  intros k v. now apply replace_not_a_key.
Qed.

Lemma survivors_are_clean_witness :
  prepare_xgb_prediction_data raw_clients =
    Ok {| columns := columns raw_clients;
          rows := [(0, [("age_business", Num 0); ("tenure", Num 24);
                        ("employees", Str "1 or 2 employees");
                        ("months_inactive", Num 2);
                        ("CA_12_months", Num 1000)]);
                   (2, [("age_business", Num 0); ("tenure", Num 6);
                        ("employees", Str "1 or 2 employees");
                        ("months_inactive", Num 9);
                        ("CA_12_months", Num 300)])] |} /\
  holds (ge (Num 6) 6) = true /\ isna (Num 0) = false.
Proof.
  split; [reflexivity |].
  pose proof (survivors_are_clean raw_clients _ 2
                [("age_business", Num 0); ("tenure", Num 6);
                 ("employees", Str "1 or 2 employees");
                 ("months_inactive", Num 9); ("CA_12_months", Num 300)]
                eq_refl (or_intror (or_introl eq_refl))) as H.
  split; [exact (proj1 H) | exact (proj1 (proj2 (proj2 (proj2 (proj2 H)))))].
Defined.

(** X20: a row of the frame [prepare_xgb_prediction_data] returns differs
    from the input row it comes from in at most two cells: age_business
    (0 when the input was negative or missing) and employees
    ("1 or 2 employees" when the input was missing or one of the four mapped
    labels).  Its tenure is the input tenure: the two lines that clean the
    tenure column never show in a returned row, since a tenure they touch is
    below the threshold. *)
Theorem cleaning_changes_two_cells (data out : DataFrame) (i : Z) (r : record) :
  prepare_xgb_prediction_data data = Ok out ->
  In (i, r) (rows out) ->
  exists r0, In (i, r0) (rows data) /\
    (forall name, name <> "age_business" -> name <> "employees" ->
                  cell_of name r = cell_of name r0) /\
    cell_of "age_business" r =
      (if holds (lt (cell_of "age_business" r0) 0) ||
          isna (cell_of "age_business" r0)
       then Num 0 else cell_of "age_business" r0) /\
    cell_of "employees" r =
      (if isna (cell_of "employees" r0) then Str "1 or 2 employees"
       else replace employees_mapping (cell_of "employees" r0)).
Proof.
  intros H Hin.
  destruct (prepare_xgb_prediction_data_Ok data out H) as (_ & ->).
  cbn [rows] in Hin. apply in_map_iff in Hin.
  destruct Hin as ([i0 r0] & [= <- <-] & Hin). apply filter_In in Hin.
  destruct Hin as (Hin & Hp). cbn [snd] in Hp.
  exists r0. split; [exact Hin |]. split; [| split].
  - intros name Ha He.
    destruct (String.eqb_spec name "tenure") as [-> | Ht].
    + rewrite cell_of_clean_tenure. apply clean_tenure_kept.
      unfold passes_filter in Hp. apply andb_true_iff in Hp.
      destruct Hp as (Hp & _). apply andb_true_iff in Hp. apply Hp.
    + now apply cell_of_clean_other.
  - rewrite cell_of_clean_age. unfold clean_age, fill.
    destruct (cell_of "age_business" r0) as [q | [] | | s];
      try reflexivity.
    cbn [lt holds isna]. rewrite orb_false_r.
    now destruct (negb (Qle_bool 0 q)).
  - rewrite cell_of_clean_employees. unfold clean_employees, fill.
    destruct (cell_of "employees" r0) as [q | b | | s]; try reflexivity.
    cbn [isna]. unfold replace.
    now destruct (find _ employees_mapping).
Qed.

Lemma cleaning_changes_two_cells_witness :
  prepare_xgb_prediction_data raw_clients =
    Ok {| columns := columns raw_clients;
          rows := [(0, [("age_business", Num 0); ("tenure", Num 24);
                        ("employees", Str "1 or 2 employees");
                        ("months_inactive", Num 2);
                        ("CA_12_months", Num 1000)]);
                   (2, [("age_business", Num 0); ("tenure", Num 6);
                        ("employees", Str "1 or 2 employees");
                        ("months_inactive", Num 9);
                        ("CA_12_months", Num 300)])] |} /\
  exists r0, In (0, r0) (rows raw_clients) /\
    (forall name, name <> "age_business" -> name <> "employees" ->
       cell_of name [("age_business", Num 0); ("tenure", Num 24);
                     ("employees", Str "1 or 2 employees");
                     ("months_inactive", Num 2); ("CA_12_months", Num 1000)] =
       cell_of name r0).
Proof.
  split; [reflexivity |].
  destruct (cleaning_changes_two_cells raw_clients _ 0
              [("age_business", Num 0); ("tenure", Num 24);
               ("employees", Str "1 or 2 employees");
               ("months_inactive", Num 2); ("CA_12_months", Num 1000)]
              eq_refl (or_introl eq_refl)) as (r0 & Hin & Hsame & _).
  exists r0. split; [exact Hin | exact Hsame].
Defined.

(** X21: [prepare_xgb_prediction_data] is idempotent: applied to a frame it
    returned, it returns that frame again, unchanged. *)
Theorem cleaning_is_idempotent (data out : DataFrame) :
  prepare_xgb_prediction_data data = Ok out ->
  prepare_xgb_prediction_data out = Ok out.
Proof.
  intros H.
  destruct (prepare_xgb_prediction_data_columns data out H)
    as (Ha & Ht & He & Hm & Hc).
  destruct (prepare_xgb_prediction_data_Ok data out H) as (Hall & ->).
  rewrite prepare_xgb_prediction_data_run by assumption.
  cbn [columns rows].
  rewrite forallb_forall in Hall.
  replace (forallb _ _) with true.
  2:{ symmetry. apply forallb_forall. intros ir Hin.
      apply in_map_iff in Hin. destruct Hin as (ir0 & <- & Hin).
      apply filter_In in Hin. cbn [snd].
      rewrite comparable_row_clean. apply Hall, Hin. }
  apply f_equal. apply f_equal.
  rewrite filter_map_swap. cbn [snd].
  rewrite (filter_ext (fun a => passes_filter (clean_record (snd a)))
                      (fun a => passes_filter (snd a)))
    by (intros a; apply passes_filter_clean).
  rewrite filter_twice, map_map. apply map_ext. intros a. cbn [fst snd].
  now rewrite clean_record_idempotent.
Qed.

Lemma cleaning_is_idempotent_witness :
  prepare_xgb_prediction_data raw_clients =
    Ok {| columns := columns raw_clients;
          rows := [(0, [("age_business", Num 0); ("tenure", Num 24);
                        ("employees", Str "1 or 2 employees");
                        ("months_inactive", Num 2);
                        ("CA_12_months", Num 1000)]);
                   (2, [("age_business", Num 0); ("tenure", Num 6);
                        ("employees", Str "1 or 2 employees");
                        ("months_inactive", Num 9);
                        ("CA_12_months", Num 300)])] |} /\
  prepare_xgb_prediction_data
    {| columns := columns raw_clients;
       rows := [(0, [("age_business", Num 0); ("tenure", Num 24);
                     ("employees", Str "1 or 2 employees");
                     ("months_inactive", Num 2);
                     ("CA_12_months", Num 1000)]);
                (2, [("age_business", Num 0); ("tenure", Num 6);
                     ("employees", Str "1 or 2 employees");
                     ("months_inactive", Num 9);
                     ("CA_12_months", Num 300)])] |} =
    Ok {| columns := columns raw_clients;
          rows := [(0, [("age_business", Num 0); ("tenure", Num 24);
                        ("employees", Str "1 or 2 employees");
                        ("months_inactive", Num 2);
                        ("CA_12_months", Num 1000)]);
                   (2, [("age_business", Num 0); ("tenure", Num 6);
                        ("employees", Str "1 or 2 employees");
                        ("months_inactive", Num 9);
                        ("CA_12_months", Num 300)])] |}.
Proof.
  split; [reflexivity |].
  exact (cleaning_is_idempotent raw_clients _ eq_refl).
Defined.

End CleaningFacts.
